(** * swag-request: the OTP admin authentication and its rate limiting

    A shallow embedding of the admin handlers ([handlers/admin.ts]), of the
    session helpers ([utils/session.ts]), of the code and token generators
    ([utils/crypto.ts]), of [validateOTP] ([utils/validation.ts]) and of
    [cleanupExpiredData] ([db/index.ts]), over the [admin_sessions] table of
    [db/schema.sql].

    The handlers are asynchronous functions that talk to a D1 (SQLite)
    database, read the clock and a random source, call the Resend HTTP API and
    write to the console.  They are embedded in a small state-and-exception
    monad over a [World] (database and console); everything a request cannot
    control (clock, random values, whether a statement or the HTTP call
    fails) is read from an [Ambient] record.

    Operations run one after the other: the interleaving of the statements
    of concurrent requests is not part of the model.

    Timestamps are what the code stores and compares: text.  JavaScript
    renders them with [Date.prototype.toISOString]
    ([YYYY-MM-DDTHH:MM:SS.sssZ]); SQLite renders [CURRENT_TIMESTAMP] and
    [datetime('now')] as [YYYY-MM-DD HH:MM:SS]; SQLite compares two texts
    byte by byte. *)

From Stdlib Require Import ZArith List String Ascii Lia Bool.
Import ListNotations.
Open Scope list_scope.
Open Scope string_scope.
Open Scope Z_scope.

(* ================================================================== *)
(** * JavaScript strings (ASCII model) *)
(* ================================================================== *)

(** The decimal digit [d] (taken modulo 10) as a character. *)
Definition digit (d : Z) : ascii := ascii_of_N (48 + Z.to_N (d mod 10)).

(** The [k] low decimal digits of [x], most significant first: what
    [String(x).padStart(k, '0')] is for [0 <= x < 10^k]. *)
Fixpoint pad (k : nat) (x : Z) : string :=
  match k with
  | O => ""
  | S k' => pad k' (x / 10) ++ String (digit x) ""
  end.

(** [String(n)] for an integer [n >= 0]: decimal, no leading zero. *)
Fixpoint decimal (fuel : nat) (n : Z) : string :=
  match fuel with
  | O => ""
  | S fuel' =>
      if n <? 10 then String (digit n) ""
      else decimal fuel' (n / 10) ++ String (digit n) ""
  end.

Definition Number_toString (n : Z) : string := decimal (S (Z.to_nat n)) n.

Fixpoint repeat_char (c : ascii) (n : nat) : string :=
  match n with
  | O => ""
  | S n' => String c (repeat_char c n')
  end.

(** [s.padStart(k, c)] for a one-character filler. *)
Definition padStart (s : string) (k : nat) (c : ascii) : string :=
  repeat_char c (k - String.length s) ++ s.

(** [byte.toString(16)] digit. *)
Definition hex_digit (d : Z) : ascii :=
  if d mod 16 <? 10 then ascii_of_N (48 + Z.to_N (d mod 16))
  else ascii_of_N (87 + Z.to_N (d mod 16)).

(** [byte.toString(16)] for [0 <= byte < 256]. *)
Definition hex_toString (b : Z) : string :=
  if b <? 16 then String (hex_digit b) ""
  else String (hex_digit (b / 16)) (String (hex_digit b) "").

Definition is_space (c : ascii) : bool :=
  let n := N_of_ascii c in
  (N.eqb n 32 || N.eqb n 9 || N.eqb n 10 || N.eqb n 11 || N.eqb n 12
   || N.eqb n 13)%bool.

Fixpoint trim_start (s : string) : string :=
  match s with
  | String c s' => if is_space c then trim_start s' else s
  | EmptyString => EmptyString
  end.

(** Drops trailing white space; the result is empty when [s] is blank. *)
Fixpoint trim_end (s : string) : string :=
  match s with
  | EmptyString => EmptyString
  | String c s' =>
      match trim_end s' with
      | EmptyString => if is_space c then EmptyString else String c EmptyString
      | t => String c t
      end
  end.

(** [validator.trim(s)]: white space stripped at both ends. *)
Definition trim (s : string) : string := trim_end (trim_start s).

Definition lower_char (c : ascii) : ascii :=
  let n := N_of_ascii c in
  if (N.leb 65 n && N.leb n 90)%bool then ascii_of_N (n + 32) else c.

(** [s.toLowerCase()]. *)
Fixpoint toLowerCase (s : string) : string :=
  match s with
  | EmptyString => EmptyString
  | String c s' => String (lower_char c) (toLowerCase s')
  end.

(** [s.startsWith(p)]. *)
Definition startsWith (s p : string) : bool := String.prefix p s.

(** [s.endsWith(p)]. *)
Definition endsWith (s p : string) : bool :=
  (Nat.leb (String.length p) (String.length s)
   && String.eqb
        (String.substring (String.length s - String.length p)
           (String.length p) s) p)%bool.

(** JavaScript truthiness of a string: [!s] is [true] on the empty one. *)
Definition js_not (s : string) : bool := String.eqb s "".

(** [x || ''] for an optional string field. *)
Definition or_empty (x : option string) : string :=
  match x with
  | Some s => s
  | None => ""
  end.

(* ================================================================== *)
(** * Clock readings and their two text renderings *)
(* ================================================================== *)

(** A clock reading is the number of milliseconds since the Unix epoch
    ([Date.now()]). *)
Definition MS_PER_DAY : Z := 86400000.

(** The proleptic Gregorian date of day number [z] (days since
    1970-01-01), as (year, month, day). *)
Definition civil_from_days (z : Z) : Z * Z * Z :=
  let z := z + 719468 in
  let era := z / 146097 in
  let doe := z - era * 146097 in
  let yoe := (doe - doe / 1460 + doe / 36524 - doe / 146096) / 365 in
  let doy := doe - (365 * yoe + yoe / 4 - yoe / 100) in
  let mp := (5 * doy + 2) / 153 in
  let d := doy - (153 * mp + 2) / 5 + 1 in
  let m := if mp <? 10 then mp + 3 else mp - 9 in
  let y := yoe + era * 400 + (if m <=? 2 then 1 else 0) in
  (y, m, d).

(** [YYYY-MM-DD]; ECMAScript's expanded year outside 0000..9999. *)
Definition year_text (y : Z) : string :=
  if ((0 <=? y) && (y <=? 9999))%bool then pad 4 y
  else (if y <? 0 then "-" else "+") ++ pad 6 (Z.abs y).

Definition date_text (day : Z) : string :=
  let '(y, m, d) := civil_from_days day in
  year_text y ++ "-" ++ pad 2 m ++ "-" ++ pad 2 d.

(** [HH:MM:SS] of a number of seconds since midnight. *)
Definition clock_text (s : Z) : string :=
  pad 2 (s / 3600) ++ ":" ++ pad 2 (s / 60 mod 60) ++ ":" ++ pad 2 (s mod 60).

(** [new Date(t).toISOString()]. *)
Definition toISOString (t : Z) : string :=
  date_text (t / MS_PER_DAY) ++ "T" ++ clock_text (t mod MS_PER_DAY / 1000)
  ++ "." ++ pad 3 (t mod 1000) ++ "Z".

(** SQLite's [datetime('now')] and [CURRENT_TIMESTAMP] at clock reading
    [t]: UTC, whole seconds, a space between date and time. *)
Definition sqlite_datetime (t : Z) : string :=
  date_text (t / MS_PER_DAY) ++ " " ++ clock_text (t mod MS_PER_DAY / 1000).

(** SQLite's comparison of two TEXT values (BINARY collation). *)
Definition text_lt (a b : string) : bool := String.ltb a b.
Definition text_gt (a b : string) : bool := String.ltb b a.

(** Clock readings whose renderings have a four-digit year:
    0000-01-01T00:00:00.000Z .. 9999-12-31T23:59:59.999Z. *)
Definition four_digit_year (t : Z) : Prop :=
  -62167219200000 <= t <= 253402300799999.

(** A request's clock reading, with room for the windows and expiries the
    handlers compute from it (one hour back, one day ahead). *)
Definition clock_ok (t : Z) : Prop :=
  four_digit_year (t - 3600000) /\ four_digit_year (t + 86400000).

(* ================================================================== *)
(** * utils/crypto.ts *)
(* ================================================================== *)

(** The value a [Uint32Array] cell holds. *)
Definition Uint32 (x : Z) : Z := x mod 2 ^ 32.

(** The value a [Uint8Array] cell holds. *)
Definition Uint8 (x : Z) : Z := x mod 256.

(** [generateOTP], as a function of the cell [array[0]] that
    [crypto.getRandomValues] filled. *)
Definition generateOTP (array0 : Z) : string :=
  padStart (Number_toString (100000 + Uint32 array0 mod 900000)) 6 "0".

(** [generateSessionToken], as a function of the 32 random bytes (a list
    that is too short is read as followed by zeros). *)
Definition generateSessionToken (array : list Z) : string :=
  String.concat ""
    (map (fun i => padStart (hex_toString (Uint8 (nth i array 0))) 2 "0")
       (seq 0 32)).

(* ================================================================== *)
(** * utils/validation.ts *)
(* ================================================================== *)

Definition is_digit (c : ascii) : bool :=
  let n := N_of_ascii c in (N.leb 48 n && N.leb n 57)%bool.

Fixpoint all_chars (p : ascii -> bool) (s : string) : bool :=
  match s with
  | EmptyString => true
  | String c s' => (p c && all_chars p s')%bool
  end.

(** [validator.isNumeric(s, { no_symbols: true })]: [/^[0-9]+$/]. *)
Definition isNumeric_no_symbols (s : string) : bool :=
  (negb (String.eqb s "") && all_chars is_digit s)%bool.

(** [validator.isLength(s, { min, max })]. *)
Definition isLength (s : string) (min max : nat) : bool :=
  (Nat.leb min (String.length s) && Nat.leb (String.length s) max)%bool.

Definition validateOTP (otp : string) : bool :=
  (isNumeric_no_symbols otp && isLength otp 6 6)%bool.

(* ================================================================== *)
(** * The [admin_sessions] table (db/schema.sql) *)
(* ================================================================== *)

(** One row.  [None] is SQL NULL. *)
Record AdminSession : Type := mkAdminSession {
  id : Z;
  email : string;
  otp : string;
  session_token : option string;
  otp_expires_at : string;
  session_expires_at : option string;
  created_at : string
}.

(** The table in rowid order, and the largest rowid ever handed out
    ([AUTOINCREMENT] keeps it in [sqlite_sequence]). *)
Record D1Database : Type := mkD1 {
  admin_sessions : list AdminSession;
  sqlite_sequence : Z
}.

Definition empty_db : D1Database := mkD1 [] 0.

Definition is_null {A : Type} (x : option A) : bool :=
  match x with
  | None => true
  | Some _ => false
  end.

(** [column = ?] on a nullable TEXT column. *)
Definition sql_eq (column : option string) (v : string) : bool :=
  match column with
  | Some x => String.eqb x v
  | None => false
  end.

(** [column > ?] and [column < ?] on a nullable TEXT column. *)
Definition sql_gt (column : option string) (v : string) : bool :=
  match column with
  | Some x => text_gt x v
  | None => false
  end.

Definition sql_lt (column : option string) (v : string) : bool :=
  match column with
  | Some x => text_lt x v
  | None => false
  end.

(** [SELECT COUNT( * ) ... WHERE p]. *)
Definition count_where (p : AdminSession -> bool) (db : D1Database) : Z :=
  Z.of_nat (List.length (filter p (admin_sessions db))).

(** [ORDER BY created_at DESC LIMIT 1]: a row with the greatest
    [created_at].  SQL leaves the choice among equal ones open; the model
    takes the first in rowid order, and no statement below depends on
    it. *)
Fixpoint order_by_created_at_desc_first (rows : list AdminSession)
  : option AdminSession :=
  match rows with
  | [] => None
  | r :: rows' =>
      match order_by_created_at_desc_first rows' with
      | None => Some r
      | Some r' =>
          if text_lt (created_at r) (created_at r') then Some r' else Some r
      end
  end.

(** The rowid an [AUTOINCREMENT] insert gets. *)
Definition next_rowid (db : D1Database) : Z :=
  1 + fold_right Z.max (sqlite_sequence db) (map id (admin_sessions db)).

(** The WHERE clause of [checkOTPRateLimit]. *)
Definition otp_request_in_window (e windowStart : string) (r : AdminSession)
  : bool :=
  (String.eqb (email r) e && text_gt (created_at r) windowStart)%bool.

(** The WHERE clause of [checkVerifyRateLimit]; [sql_now] is
    [datetime('now')]. *)
Definition failed_attempt_in_window (e windowStart sql_now : string)
  (r : AdminSession) : bool :=
  (String.eqb (email r) e && text_gt (created_at r) windowStart
   && is_null (session_token r) && text_lt (otp_expires_at r) sql_now)%bool.

(** The WHERE clause of the OTP lookup of [handleVerifyOTP]. *)
Definition otp_matches (e code now : string) (r : AdminSession) : bool :=
  (String.eqb (email r) e && String.eqb (otp r) code
   && text_gt (otp_expires_at r) now && is_null (session_token r))%bool.

(** [INSERT INTO admin_sessions (email, otp, otp_expires_at) VALUES (?, ?, ?)]
    executed at clock reading [t]. *)
Definition insert_otp (t : Z) (e code otpExpiresAt : string)
  (db : D1Database) : D1Database :=
  let rowid := next_rowid db in
  mkD1 (admin_sessions db
        ++ [mkAdminSession rowid e code None otpExpiresAt None
              (sqlite_datetime t)])
       rowid.

Definition select_otp (e code now : string) (db : D1Database)
  : option AdminSession :=
  order_by_created_at_desc_first (filter (otp_matches e code now)
                                    (admin_sessions db)).

(** What the UPDATE of [handleVerifyOTP] makes of a row it selects. *)
Definition consume (sessionToken sessionExpiresAt : string)
  (r : AdminSession) : AdminSession :=
  mkAdminSession (id r) (email r) "" (Some sessionToken) (otp_expires_at r)
    (Some sessionExpiresAt) (created_at r).

(** [UPDATE admin_sessions SET session_token = ?, session_expires_at = ?,
    otp = '' WHERE id = ?]. *)
Definition update_session (sessionToken sessionExpiresAt : string) (rowid : Z)
  (db : D1Database) : D1Database :=
  mkD1 (map (fun r => if id r =? rowid
                      then consume sessionToken sessionExpiresAt r else r)
          (admin_sessions db))
       (sqlite_sequence db).

(** The WHERE clause of the clean-up DELETE of [handleVerifyOTP]. *)
Definition unused_sibling (e : string) (rowid : Z) (r : AdminSession) : bool :=
  (String.eqb (email r) e && is_null (session_token r)
   && negb (id r =? rowid))%bool.

Definition delete_where (p : AdminSession -> bool) (db : D1Database)
  : D1Database :=
  mkD1 (filter (fun r => negb (p r)) (admin_sessions db)) (sqlite_sequence db).

(** The WHERE clause of [validateAdminSession]. *)
Definition session_matches (token now : string) (r : AdminSession) : bool :=
  (sql_eq (session_token r) token && sql_gt (session_expires_at r) now)%bool.

(** The WHERE clause of the second DELETE of [cleanupExpiredData]. *)
Definition expired_row (now : string) (r : AdminSession) : bool :=
  (text_lt (otp_expires_at r) now && is_null (session_token r)
   || negb (is_null (session_expires_at r))
      && sql_lt (session_expires_at r) now)%bool.

(* ================================================================== *)
(** * Requests, responses and the effects of a handler *)
(* ================================================================== *)

(** The prepared statements of the subsystem, by call site. *)
Inductive Statement : Type :=
| CountOtpRequests      (* checkOTPRateLimit *)
| CountFailedAttempts   (* checkVerifyRateLimit *)
| InsertOtp             (* handleSendOTP *)
| SelectOtp             (* handleVerifyOTP, lookup *)
| UpdateSession         (* handleVerifyOTP, token and OTP invalidation *)
| DeleteUnused          (* handleVerifyOTP, clean-up *)
| SelectSession         (* validateAdminSession *)
| DeleteSession         (* handleLogout *)
| DeleteExpiredRequests (* cleanupExpiredData, swag_requests *)
| DeleteExpiredSessions (* cleanupExpiredData, admin_sessions *).

(** How the [fetch] of [sendEmail] ends. *)
Inductive FetchResult : Type :=
| FetchOk        (* response.ok *)
| FetchNotOk     (* a response that is not ok *)
| FetchRejected  (* the promise rejects *).

(** What one request reads from its surroundings.  One clock reading
    serves the whole request: [Date.now()], [new Date()], [datetime('now')]
    and [CURRENT_TIMESTAMP]. *)
Record Ambient : Type := mkAmbient {
  clock : Z;
  random_u32 : Z;
  random_bytes : list Z;
  d1_ok : Statement -> bool;
  resend : FetchResult
}.

Record World : Type := mkWorld {
  DB : D1Database;
  console : list string
}.

Definition empty_world : World := mkWorld empty_db [].

Inductive Completion (A : Type) : Type :=
| Returned (a : A)
| Thrown (reason : string).
Arguments Returned {A} a.
Arguments Thrown {A} reason.

(** An asynchronous computation: it may change the world before it
    returns or throws; what it changed stays changed. *)
Definition Async (A : Type) : Type := World -> Completion A * World.

Definition ret {A : Type} (a : A) : Async A := fun w => (Returned a, w).

Definition throw {A : Type} (reason : string) : Async A :=
  fun w => (Thrown reason, w).

Definition bind {A B : Type} (m : Async A) (k : A -> Async B) : Async B :=
  fun w =>
    match m w with
    | (Returned a, w') => k a w'
    | (Thrown e, w') => (Thrown e, w')
    end.

Definition try_catch {A : Type} (m : Async A) (handler : string -> Async A)
  : Async A :=
  fun w =>
    match m w with
    | (Returned a, w') => (Returned a, w')
    | (Thrown e, w') => handler e w'
    end.

Notation "x <- m ;; k" := (bind m (fun x => k))
  (at level 61, m at next level, right associativity).
Notation "m ;;; k" := (bind m (fun _ => k))
  (at level 61, right associativity).

(** [console.error(line)]. *)
Definition console_error (line : string) : Async unit :=
  fun w => (Returned tt, mkWorld (DB w) (console w ++ [line])).

(** A statement that reads: [.first()]. *)
Definition d1_first {A : Type} (amb : Ambient) (s : Statement)
  (q : D1Database -> A) : Async A :=
  fun w => if d1_ok amb s then (Returned (q (DB w)), w)
           else (Thrown "D1_ERROR", w).

(** A statement that writes: [.run()]. *)
Definition d1_run (amb : Ambient) (s : Statement)
  (q : D1Database -> D1Database) : Async unit :=
  fun w => if d1_ok amb s then (Returned tt, mkWorld (q (DB w)) (console w))
           else (Thrown "D1_ERROR", w).

(** The parts of a [Request] the handlers read.  [json = None] is a body
    that [request.json()] rejects. *)
Record Request (Body : Type) : Type := mkRequest {
  url : string;
  X_Forwarded_Proto : option string;
  Cookie : option string;
  json : option Body
}.
Arguments mkRequest {Body} url X_Forwarded_Proto Cookie json.
Arguments url {Body} r.
Arguments X_Forwarded_Proto {Body} r.
Arguments Cookie {Body} r.
Arguments json {Body} r.

Definition request_json {Body : Type} (request : Request Body) : Async Body :=
  match json request with
  | Some data => ret data
  | None => throw "SyntaxError"
  end.

Record OTPInput : Type := mkOTPInput { OTPInput_email : option string }.

Record VerifyOTPInput : Type := mkVerifyOTPInput {
  VerifyOTPInput_email : option string;
  VerifyOTPInput_otp : option string
}.

(** The JSON bodies the handlers answer with. *)
Inductive Json : Type :=
| JsonError (error : string) (retryAfter : option Z)
| JsonSuccess (message : option string)
| JsonAuthenticated.

Record Response : Type := mkResponse {
  status : Z;
  body : Json;
  Set_Cookie : option string
}.

(** utils/response.ts *)
Definition jsonResponse (data : Json) (status : Z) (set_cookie : option string)
  : Response := mkResponse status data set_cookie.

(* ================================================================== *)
(** * utils/email.ts *)
(* ================================================================== *)

Definition sendEmail (amb : Ambient) : Async bool :=
  match resend amb with
  | FetchOk => ret true
  | FetchNotOk => ret false
  | FetchRejected => console_error "Failed to send email:" ;;; ret false
  end.

(* ================================================================== *)
(** * utils/session.ts *)
(* ================================================================== *)

(** The longest prefix without [;]. *)
Fixpoint until_semicolon (s : string) : string :=
  match s with
  | EmptyString => EmptyString
  | String c s' =>
      if Ascii.eqb c ";" then EmptyString else String c (until_semicolon s')
  end.

Fixpoint strip_prefix (p s : string) : option string :=
  match p, s with
  | EmptyString, _ => Some s
  | String a p', String b s' =>
      if Ascii.eqb a b then strip_prefix p' s' else None
  | String _ _, EmptyString => None
  end.

(** [cookie.match(/admin_session=([^;]+)/)]: the first place where the
    name is followed by at least one character other than [;]. *)
Fixpoint match_admin_session (cookie : string) : option string :=
  let here :=
    match strip_prefix "admin_session=" cookie with
    | Some rest =>
        match until_semicolon rest with
        | EmptyString => None
        | v => Some v
        end
    | None => None
    end in
  match here, cookie with
  | Some v, _ => Some v
  | None, String _ cookie' => match_admin_session cookie'
  | None, EmptyString => None
  end.

Definition getSessionToken {Body : Type} (request : Request Body)
  : option string :=
  match Cookie request with
  | None => None
  | Some cookie => if js_not cookie then None else match_admin_session cookie
  end.

Definition validateAdminSession (amb : Ambient) (sessionToken : option string)
  : Async bool :=
  match sessionToken with
  | None => ret false
  | Some token =>
      if js_not token then ret false
      else
        let now := toISOString (clock amb) in
        session <- d1_first amb SelectSession
                     (fun db => find (session_matches token now)
                                  (admin_sessions db)) ;;
        ret (negb (is_null session))
  end.

(* ================================================================== *)
(** * db/index.ts *)
(* ================================================================== *)

(** The [swag_requests] table is outside this model: its DELETE can only
    fail. *)
Definition cleanupExpiredData (amb : Ambient) : Async unit :=
  let now := toISOString (clock amb) in
  d1_run amb DeleteExpiredRequests (fun db => db) ;;;
  d1_run amb DeleteExpiredSessions (delete_where (expired_row now)).

(* ================================================================== *)
(** * handlers/admin.ts *)
(* ================================================================== *)

Definition MAX_OTP_REQUESTS_PER_HOUR : Z := 5.
Definition MAX_OTP_VERIFY_ATTEMPTS : Z := 5.
Definition RATE_LIMIT_WINDOW_MS : Z := 60 * 60 * 1000.

Record OTPRateLimit : Type := mkOTPRateLimit {
  allowed : bool;
  remaining : Z
}.

Definition checkOTPRateLimit (amb : Ambient) (e : string)
  : Async OTPRateLimit :=
  let windowStart := toISOString (clock amb - RATE_LIMIT_WINDOW_MS) in
  count <- d1_first amb CountOtpRequests
             (count_where (otp_request_in_window e windowStart)) ;;
  ret (mkOTPRateLimit (count <? MAX_OTP_REQUESTS_PER_HOUR)
         (Z.max 0 (MAX_OTP_REQUESTS_PER_HOUR - count))).

(** Returns the field [allowed]. *)
Definition checkVerifyRateLimit (amb : Ambient) (e : string) : Async bool :=
  let windowStart := toISOString (clock amb - 15 * 60 * 1000) in
  count <- d1_first amb CountFailedAttempts
             (count_where
                (failed_attempt_in_window e windowStart
                   (sqlite_datetime (clock amb)))) ;;
  ret (count <? MAX_OTP_VERIFY_ATTEMPTS).

(** [request.headers.get(name) === v]. *)
Definition header_is (header : option string) (v : string) : bool :=
  match header with
  | Some x => String.eqb x v
  | None => false
  end.

Definition getSecureCookieString {Body : Type} (request : Request Body)
  (sessionToken : string) (maxAge : Z) : string :=
  let isSecure :=
    (startsWith (url request) "https://"
     || header_is (X_Forwarded_Proto request) "https")%bool in
  let secureFlag := if isSecure then "; Secure" else "" in
  "admin_session=" ++ sessionToken ++ "; Path=/; HttpOnly; SameSite=Strict"
  ++ secureFlag ++ "; Max-Age=" ++ Number_toString maxAge.

Section Handlers.

(** [validator.isEmail] with the options [validateEmail] passes; the
    validator.js package is not part of the repository. *)
Variable isEmail : string -> bool.

Definition validateEmail (e : string) : bool := isEmail e.

Definition handleSendOTP (amb : Ambient) (request : Request OTPInput)
  : Async Response :=
  try_catch
    (data <- request_json request ;;
     let e := toLowerCase (trim (or_empty (OTPInput_email data))) in
     if (js_not e || negb (validateEmail e))%bool then
       ret (jsonResponse
              (JsonError "Please provide a valid email address" None) 400 None)
     else if negb (endsWith e "@cloudflare.com") then
       ret (jsonResponse
              (JsonError "Only @cloudflare.com email addresses are allowed"
                 None) 403 None)
     else
       rateLimit <- checkOTPRateLimit amb e ;;
       if negb (allowed rateLimit) then
         ret (jsonResponse
                (JsonError "Too many OTP requests. Please try again later."
                   (Some 3600)) 429 None)
       else
         let code := generateOTP (random_u32 amb) in
         let otpExpiresAt := toISOString (clock amb + 10 * 60 * 1000) in
         d1_run amb InsertOtp (insert_otp (clock amb) e code otpExpiresAt) ;;;
         emailSent <- sendEmail amb ;;
         (if negb emailSent
          then console_error ("Failed to send OTP email to " ++ e)
          else ret tt) ;;;
         ret (jsonResponse (JsonSuccess (Some "OTP sent successfully")) 200
                None))
    (fun _ =>
       console_error "Error sending OTP:" ;;;
       ret (jsonResponse
              (JsonError "Failed to send OTP. Please try again." None) 500
              None)).

Definition handleVerifyOTP (amb : Ambient) (request : Request VerifyOTPInput)
  : Async Response :=
  try_catch
    (data <- request_json request ;;
     let e := toLowerCase (trim (or_empty (VerifyOTPInput_email data))) in
     let code := trim (or_empty (VerifyOTPInput_otp data)) in
     if (js_not e || js_not code)%bool then
       ret (jsonResponse (JsonError "Email and OTP are required" None) 400
              None)
     else if negb (validateOTP code) then
       ret (jsonResponse (JsonError "Invalid OTP format" None) 400 None)
     else
       rateLimit <- checkVerifyRateLimit amb e ;;
       if negb rateLimit then
         ret (jsonResponse
                (JsonError
                   "Too many failed attempts. Please request a new OTP."
                   (Some 900)) 429 None)
       else
         let now := toISOString (clock amb) in
         session <- d1_first amb SelectOtp (select_otp e code now) ;;
         match session with
         | None =>
             ret (jsonResponse (JsonError "Invalid or expired OTP" None) 401
                    None)
         | Some session =>
             let sessionToken := generateSessionToken (random_bytes amb) in
             let sessionExpiresAt :=
               toISOString (clock amb + 24 * 60 * 60 * 1000) in
             d1_run amb UpdateSession
               (update_session sessionToken sessionExpiresAt (id session)) ;;;
             d1_run amb DeleteUnused
               (delete_where (unused_sibling e (id session))) ;;;
             ret (jsonResponse (JsonSuccess (Some "Login successful")) 200
                    (Some (getSecureCookieString request sessionToken 86400)))
         end)
    (fun _ =>
       console_error "Error verifying OTP:" ;;;
       ret (jsonResponse
              (JsonError "Failed to verify OTP. Please try again." None) 500
              None)).

Definition handleCheckAuth (amb : Ambient) (request : Request unit)
  : Async Response :=
  let sessionToken := getSessionToken request in
  isValid <- validateAdminSession amb sessionToken ;;
  if negb isValid then
    ret (jsonResponse (JsonError "Unauthorized" None) 401 None)
  else ret (jsonResponse JsonAuthenticated 200 None).

Definition handleLogout (amb : Ambient) (request : Request unit)
  : Async Response :=
  let sessionToken := getSessionToken request in
  (match sessionToken with
   | Some token =>
       if js_not token then ret tt
       else d1_run amb DeleteSession
              (delete_where (fun r => sql_eq (session_token r) token))
   | None => ret tt
   end) ;;;
  ret (jsonResponse (JsonSuccess None) 200
         (Some (getSecureCookieString request "" 0))).

(* ================================================================== *)
(** * Histories of requests *)
(* ================================================================== *)

(** The operations that touch [admin_sessions]. *)
Inductive Call : Type :=
| SendOTP (request : Request OTPInput)
| VerifyOTP (request : Request VerifyOTPInput)
| CheckAuth (request : Request unit)
| Logout (request : Request unit)
| CleanupExpired.

(** The world after one operation has run to its end, whatever it
    answered. *)
Definition serve (amb : Ambient) (c : Call) (w : World) : World :=
  match c with
  | SendOTP request => snd (handleSendOTP amb request w)
  | VerifyOTP request => snd (handleVerifyOTP amb request w)
  | CheckAuth request => snd (handleCheckAuth amb request w)
  | Logout request => snd (handleLogout amb request w)
  | CleanupExpired => snd (cleanupExpiredData amb w)
  end.

(** The world after a history of operations, oldest first. *)
Fixpoint run (history : list (Ambient * Call)) (w : World) : World :=
  match history with
  | [] => w
  | (amb, c) :: rest => run rest (serve amb c w)
  end.

(** The normalized address a send-OTP request is about. *)
Definition send_otp_email (request : Request OTPInput) : string :=
  match json request with
  | Some data => toLowerCase (trim (or_empty (OTPInput_email data)))
  | None => ""
  end.

End Handlers.

(* ================================================================== *)
(** * Vocabulary of the statements *)
(* ================================================================== *)

(** ** Calendar *)

(** Dates in chronological order. *)
Definition date_lt (a b : Z * Z * Z) : Prop :=
  let '(y1, m1, d1) := a in
  let '(y2, m2, d2) := b in
  y1 < y2 \/ (y1 = y2 /\ (m1 < m2 \/ (m1 = m2 /\ d1 < d2))).

(** The stages of [civil_from_days], by name: year of the era from the
    day of the era, day of the (March-based) year, month index and day of
    the month. *)
Definition yoe_of (doe : Z) : Z :=
  (doe - doe / 1460 + doe / 36524 - doe / 146096) / 365.
Definition doy_of (doe : Z) : Z :=
  doe - (365 * yoe_of doe + yoe_of doe / 4 - yoe_of doe / 100).
Definition mp_of (doy : Z) : Z := (5 * doy + 2) / 153.
Definition dom_of (doy : Z) : Z := doy - (153 * mp_of doy + 2) / 5 + 1.

(** Day numbers of 0000-01-01 .. 9999-12-31. *)
Definition day_ok (z : Z) : Prop := -719528 <= z <= 2932896.

(** Lexicographic combination of two comparisons. *)
Definition then_cmp (c d : comparison) : comparison :=
  match c with
  | Eq => d
  | _ => c
  end.

(** ** Rows and tables *)

(** A row as [handleSendOTP] writes it at some clock reading [t]:
    [created_at] in SQLite's format, [otp_expires_at] ten minutes later in
    JavaScript's. *)
Definition issued_row (r : AdminSession) : Prop :=
  exists t, clock_ok t
            /\ created_at r = sqlite_datetime t
            /\ otp_expires_at r = toISOString (t + 10 * 60 * 1000).

(** A row that SQLite stamped at some clock reading not after [now]. *)
Definition stamped_by (now : Z) (r : AdminSession) : Prop :=
  exists t, four_digit_year t /\ t <= now
            /\ created_at r = sqlite_datetime t.

(** What the PRIMARY KEY AUTOINCREMENT column guarantees. *)
Definition well_keyed (db : D1Database) : Prop :=
  NoDup (map id (admin_sessions db))
  /\ forall r, In r (admin_sessions db) -> id r <= sqlite_sequence db.

(** The normalized address and code of a verify-OTP request. *)
Definition verify_email (request : Request VerifyOTPInput) : string :=
  match json request with
  | Some data => toLowerCase (trim (or_empty (VerifyOTPInput_email data)))
  | None => ""
  end.

Definition verify_code (request : Request VerifyOTPInput) : string :=
  match json request with
  | Some data => trim (or_empty (VerifyOTPInput_otp data))
  | None => ""
  end.

(** The answers of the handlers. *)
Definition invalid_or_expired : Response :=
  jsonResponse (JsonError "Invalid or expired OTP" None) 401 None.

Definition verify_rate_limited : Response :=
  jsonResponse
    (JsonError "Too many failed attempts. Please request a new OTP."
       (Some 900)) 429 None.

Definition verify_failed : Response :=
  jsonResponse (JsonError "Failed to verify OTP. Please try again." None) 500
    None.

Definition login_successful (request : Request VerifyOTPInput)
  (sessionToken : string) : Response :=
  jsonResponse (JsonSuccess (Some "Login successful")) 200
    (Some (getSecureCookieString request sessionToken 86400)).

Definition otp_sent : Response :=
  jsonResponse (JsonSuccess (Some "OTP sent successfully")) 200 None.

Definition send_rate_limited : Response :=
  jsonResponse
    (JsonError "Too many OTP requests. Please try again later." (Some 3600))
    429 None.

Definition logged_out (request : Request unit) : Response :=
  jsonResponse (JsonSuccess None) 200
    (Some (getSecureCookieString request "" 0)).

Definition send_failed : Response :=
  jsonResponse (JsonError "Failed to send OTP. Please try again." None) 500
    None.

(** The world after [console.error(line)]. *)
Definition log_line (line : string) (w : World) : World :=
  mkWorld (DB w) (console w ++ [line]).

(** The count [checkOTPRateLimit] reads. *)
Definition otp_requests (amb : Ambient) (e : string) (db : D1Database) : Z :=
  count_where
    (otp_request_in_window e (toISOString (clock amb - RATE_LIMIT_WINDOW_MS)))
    db.

(** The count [checkVerifyRateLimit] reads. *)
Definition failed_attempts (amb : Ambient) (e : string) (db : D1Database)
  : Z :=
  count_where
    (failed_attempt_in_window e (toISOString (clock amb - 15 * 60 * 1000))
       (sqlite_datetime (clock amb)))
    db.

(** The row [handleSendOTP] inserts. *)
Definition new_otp_row (amb : Ambient) (e : string) (rowid : Z)
  : AdminSession :=
  mkAdminSession rowid e (generateOTP (random_u32 amb)) None
    (toISOString (clock amb + 10 * 60 * 1000)) None
    (sqlite_datetime (clock amb)).

(** The ways one operation can change the table. *)
Inductive table_step (amb : Ambient) (c : Call) (db : D1Database)
  : D1Database -> Prop :=
| step_none : table_step amb c db db
| step_insert request :
    c = SendOTP request ->
    table_step amb c db
      (mkD1 (admin_sessions db
             ++ [new_otp_row amb (send_otp_email request) (next_rowid db)])
         (next_rowid db))
| step_consume tok exp session :
    In session (admin_sessions db) -> session_token session = None ->
    table_step amb c db (update_session tok exp (id session) db)
| step_consume_cleanup tok exp session p :
    In session (admin_sessions db) -> session_token session = None ->
    table_step amb c db
      (delete_where p (update_session tok exp (id session) db))
| step_delete p :
    table_step amb c db (delete_where p db).

(** Row [r0], while it is in the table, is as it was. *)
Definition kept_as_is (r0 : AdminSession) (db : D1Database) : Prop :=
  forall x, In x (admin_sessions db) -> id x = id r0 -> x = r0.

(** All statements of a request complete. *)
Definition d1_up (amb : Ambient) : Prop := forall s, d1_ok amb s = true.

(** No operation of the history issues the code [code] to the address
    [e]. *)
Definition never_reissues (e code : string)
  (history : list (Ambient * Call)) : Prop :=
  Forall (fun ac =>
            match snd ac with
            | SendOTP request =>
                send_otp_email request = e ->
                generateOTP (random_u32 (fst ac)) <> code
            | _ => True
            end) history.

Definition clocks_ok (history : list (Ambient * Call)) : Prop :=
  Forall (fun ac => clock_ok (clock (fst ac))) history.

(** Consecutive verify-OTP requests: their completions and the world they
    leave. *)
Fixpoint verify_all (attempts : list (Ambient * Request VerifyOTPInput))
  (w : World) : list (Completion Response) * World :=
  match attempts with
  | [] => ([], w)
  | (amb, request) :: rest =>
      let '(c, w') := handleVerifyOTP amb request w in
      let '(cs, w'') := verify_all rest w' in
      (c :: cs, w'')
  end.

(** What the clean-up of a successful verification makes of each row. *)
Definition after_verification (e sessionToken sessionExpiresAt : string)
  (rowid : Z) (r : AdminSession) : list AdminSession :=
  if id r =? rowid then [consume sessionToken sessionExpiresAt r]
  else if (String.eqb (email r) e && is_null (session_token r))%bool then []
  else [r].

(** The unconsumed rows of address [e] come from [handleSendOTP] and hold
    codes other than [code]. *)
Definition no_live_code (e code : string) (r : AdminSession) : Prop :=
  email r = e -> session_token r = None -> issued_row r /\ otp r <> code.

(** Row [rowid], if present, is consumed. *)
Definition spent (rowid : Z) (r : AdminSession) : Prop :=
  id r = rowid -> otp r = "" /\ session_token r <> None.

(** ** Codes and random cells *)

(** The number a code of [generateOTP] reads as. *)
Definition otp_number (array0 : Z) : Z := 100000 + Uint32 array0 mod 900000.

(** How many of the 2^32 cells give the code number [c]. *)
Definition otp_multiplicity (c : Z) : nat :=
  if c - 100000 <? 167296 then 4773%nat else 4772%nat.

(** The cells that give the code number [c]. *)
Definition otp_preimages (c : Z) : list Z :=
  map (fun k => c - 100000 + 900000 * Z.of_nat k)
    (seq 0 (otp_multiplicity c)).

(** ** A concrete setting for the examples *)

(** [validator.isEmail] on the one address the examples use; the
    repository's tests send OTPs to it. *)
Definition isEmail_example (s : string) : bool :=
  String.eqb s "admin@cloudflare.com".

Definition all_statements_ok (s : Statement) : bool := true.

(** 2024-01-01T12:00:00.000Z *)
Definition noon : Z := 1704110400000.

Definition minutes (n : Z) : Z := n * 60 * 1000.

Definition ambient_at (t array0 : Z) : Ambient :=
  mkAmbient t array0 [] all_statements_ok FetchOk.

Definition send_request : Request OTPInput :=
  mkRequest "https://swag.example/api/admin/send-otp" None None
    (Some (mkOTPInput (Some "admin@cloudflare.com"))).

Definition verify_request (code : string) : Request VerifyOTPInput :=
  mkRequest "https://swag.example/api/admin/verify-otp" None None
    (Some (mkVerifyOTPInput (Some "admin@cloudflare.com") (Some code))).

(** Five OTP requests for one address, one minute apart from noon. *)
Definition five_requests : list (Ambient * Call) :=
  [ (ambient_at noon 1, SendOTP send_request);
    (ambient_at (noon + minutes 1) 2, SendOTP send_request);
    (ambient_at (noon + minutes 2) 3, SendOTP send_request);
    (ambient_at (noon + minutes 3) 4, SendOTP send_request);
    (ambient_at (noon + minutes 4) 5, SendOTP send_request) ].

(** The world after one OTP request at noon and its verification a minute
    later. *)
Definition logged_in_world : World :=
  run isEmail_example
    [ (ambient_at noon 1, SendOTP send_request);
      (ambient_at (noon + minutes 1) 1, VerifyOTP (verify_request "100001")) ]
    empty_world.

(** The token [generateSessionToken] makes of 32 zero bytes. *)
Definition zero_token : string :=
  "0000000000000000000000000000000000000000000000000000000000000000".

Definition cookie_request (cookie : string) : Request unit :=
  mkRequest "https://swag.example/api/admin/logout" None (Some cookie) None.

(** The world after one OTP request at noon: one row, code 100001. *)
Definition issued_world : World :=
  run isEmail_example [ (ambient_at noon 1, SendOTP send_request) ]
    empty_world.

Definition issued_row_at_noon : AdminSession :=
  mkAdminSession 1 "admin@cloudflare.com" "100001" None
    "2024-01-01T12:10:00.000Z" None "2024-01-01 12:00:00".

(** A database on which only the clean-up DELETE of [handleVerifyOTP]
    fails. *)
Definition cleanup_fails (s : Statement) : bool :=
  match s with
  | DeleteUnused => false
  | _ => true
  end.

(** The clock readings of [five_requests]. *)
Definition five_times : list Z :=
  [noon; noon + minutes 1; noon + minutes 2; noon + minutes 3;
   noon + minutes 4].

(** The world after [five_requests]. *)
Definition five_codes_world : World :=
  run isEmail_example five_requests empty_world.

(** What the rate limits look at in a row. *)
Definition rate_limit_view (r : AdminSession)
  : string * option string * string * string :=
  (email r, session_token r, created_at r, otp_expires_at r).

From Stdlib Require Import Permutation Sorted.

(* ================================================================== *)
(** * Further vocabulary: tokens and cookies *)
(* ================================================================== *)

(** A lowercase hexadecimal digit. *)
Definition is_hex (c : ascii) : bool :=
  let n := N_of_ascii c in
  (N.leb 48 n && N.leb n 57 || N.leb 97 n && N.leb n 102)%bool.

Definition not_semicolon (c : ascii) : bool := negb (Ascii.eqb c ";").

(** The 32 cells of the [Uint8Array] of [generateSessionToken]. *)
Definition token_bytes (array : list Z) : list Z :=
  map (fun i => Uint8 (nth i array 0)) (seq 0 32).

(** Two characters for one byte: [byte.toString(16).padStart(2, '0')]. *)
Definition byte_hex (b : Z) : string := padStart (hex_toString b) 2 "0".

(** The answer of [handleCheckAuth] to a valid session. *)
Definition authenticated : Response := jsonResponse JsonAuthenticated 200 None.

Definition unauthorized : Response :=
  jsonResponse (JsonError "Unauthorized" None) 401 None.

(** A row without session token has no session expiry either. *)
Definition expiry_follows_token (r : AdminSession) : Prop :=
  session_token r = None -> session_expires_at r = None.

(* ================================================================== *)
(** * The table [swag_requests] (db/schema.sql, types.ts) *)
(* ================================================================== *)

(** From here on the embedding covers the rest of the site: the table
    [swag_requests], the submission handler ([handlers/swag.ts]) with
    [validateSwagRequest] and [validatePhone] ([utils/validation.ts]),
    the request-management handlers of [handlers/admin.ts]
    ([handleGetRequests], [handleApproveRequest], [handleDeleteRequest],
    [handleExportCSV]) and [cleanupExpiredData] with its first DELETE.
    A [Site] carries the [World] of the admin subsystem unchanged, so
    everything above applies to it as it stands.  The router of
    [index.ts], the analytics handlers and the table [request_analytics]
    are not embedded. *)

Inductive RequestStatus : Type := pending | approved | rejected.

Record SwagRequest : Type := mkSwagRequest {
  SwagRequest_id : Z;
  SwagRequest_name : string;
  SwagRequest_email : string;
  SwagRequest_phone : string;
  SwagRequest_address : string;
  SwagRequest_promo_code : option string;
  SwagRequest_status : RequestStatus;
  SwagRequest_created_at : string;
  SwagRequest_expires_at : string
}.

(** The body of a submission; [None] is a field that is absent or not a
    string. *)
Record SwagRequestInput : Type := mkSwagRequestInput {
  SwagRequestInput_name : option string;
  SwagRequestInput_email : option string;
  SwagRequestInput_phone : option string;
  SwagRequestInput_address : option string;
  SwagRequestInput_promo_code : option string
}.

(** The whole site: the world of the admin subsystem, the table
    [swag_requests] in rowid order and the largest rowid it ever handed
    out.  The table [request_analytics] is outside this model: its INSERT
    can only fail. *)
Record Site : Type := mkSite {
  world : World;
  swag_requests : list SwagRequest;
  swag_requests_sequence : Z
}.

Definition empty_site : Site := mkSite empty_world [] 0.

(** The prepared statements on [swag_requests] and [request_analytics],
    by call site. *)
Inductive RequestStatement : Type :=
| CountRequests    (* handleSwagRequestSubmission, limit *)
| InsertRequest    (* handleSwagRequestSubmission *)
| InsertAnalytics  (* handleSwagRequestSubmission, request_analytics *)
| SelectRequests   (* handleGetRequests *)
| SelectRequest    (* handleApproveRequest, lookup *)
| UpdateStatus     (* handleApproveRequest *)
| DeleteRequest    (* handleDeleteRequest *)
| SelectApproved   (* handleExportCSV *).

(** What one request reads from its surroundings, with the outcome of
    the statements above. *)
Record SiteAmbient : Type := mkSiteAmbient {
  ambient : Ambient;
  requests_ok : RequestStatement -> bool
}.

(** An asynchronous computation on the site. *)
Definition Task (A : Type) : Type := Site -> Completion A * Site.

Definition Task_ret {A : Type} (a : A) : Task A := fun s => (Returned a, s).

Definition Task_throw {A : Type} (reason : string) : Task A :=
  fun s => (Thrown reason, s).

Definition Task_bind {A B : Type} (m : Task A) (k : A -> Task B) : Task B :=
  fun s =>
    match m s with
    | (Returned a, s') => k a s'
    | (Thrown e, s') => (Thrown e, s')
    end.

Definition Task_try_catch {A : Type} (m : Task A) (handler : string -> Task A)
  : Task A :=
  fun s =>
    match m s with
    | (Returned a, s') => (Returned a, s')
    | (Thrown e, s') => handler e s'
    end.

Notation "'await' x ':=' m 'in' k" := (Task_bind m (fun x => k))
  (at level 10, x name, m at level 100, k at level 200).
Notation "m '>>' k" := (Task_bind m (fun _ => k))
  (at level 61, right associativity).

(** A computation of the admin subsystem, run on the site. *)
Definition lift {A : Type} (m : Async A) : Task A :=
  fun s =>
    let '(c, w) := m (world s) in
    (c, mkSite w (swag_requests s) (swag_requests_sequence s)).

(** A statement on [swag_requests] that reads: [.first()], [.all()]. *)
Definition requests_read {A : Type} (samb : SiteAmbient)
  (st : RequestStatement) (q : list SwagRequest -> A) : Task A :=
  fun s => if requests_ok samb st then (Returned (q (swag_requests s)), s)
           else (Thrown "D1_ERROR", s).

(** A statement that writes: [.run()]; [A] is what the caller reads of
    [result.meta]. *)
Definition requests_run {A : Type} (samb : SiteAmbient)
  (st : RequestStatement) (q : Site -> A * Site) : Task A :=
  fun s => if requests_ok samb st then (Returned (fst (q s)), snd (q s))
           else (Thrown "D1_ERROR", s).

(** The rowid an [AUTOINCREMENT] insert into [swag_requests] gets. *)
Definition next_request_id (s : Site) : Z :=
  1 + fold_right Z.max (swag_requests_sequence s)
        (map SwagRequest_id (swag_requests s)).

(** The default of [expires_at]: [datetime('now', '+30 days')]. *)
Definition REQUEST_LIFETIME_MS : Z := 30 * MS_PER_DAY.

(** [INSERT INTO swag_requests (name, email, phone, address, promo_code)
    VALUES (?, ?, ?, ?, ?)] executed at clock reading [t]; the result is
    [meta.last_row_id]. *)
Definition insert_request (t : Z) (name e phone address : string)
  (promo_code : option string) (s : Site) : Z * Site :=
  let rowid := next_request_id s in
  (rowid,
   mkSite (world s)
     (swag_requests s
      ++ [mkSwagRequest rowid name e phone address promo_code pending
            (sqlite_datetime t) (sqlite_datetime (t + REQUEST_LIFETIME_MS))])
     rowid).

(** [SELECT COUNT( * ) as count FROM swag_requests WHERE email = ?]. *)
Definition count_requests (e : string) (rows : list SwagRequest) : Z :=
  Z.of_nat (List.length
              (filter (fun r => String.eqb (SwagRequest_email r) e) rows)).

Definition with_status (st : RequestStatus) (r : SwagRequest) : SwagRequest :=
  mkSwagRequest (SwagRequest_id r) (SwagRequest_name r) (SwagRequest_email r)
    (SwagRequest_phone r) (SwagRequest_address r) (SwagRequest_promo_code r)
    st (SwagRequest_created_at r) (SwagRequest_expires_at r).

(** [UPDATE swag_requests SET status = ? WHERE id = ?]. *)
Definition update_status (st : RequestStatus) (requestId : Z) (s : Site)
  : unit * Site :=
  (tt,
   mkSite (world s)
     (map (fun r => if SwagRequest_id r =? requestId then with_status st r
                    else r) (swag_requests s))
     (swag_requests_sequence s)).

(** [DELETE FROM swag_requests WHERE id = ?]; the result is
    [meta.changes]. *)
Definition delete_request (requestId : Z) (s : Site) : Z * Site :=
  (Z.of_nat (List.length
               (filter (fun r => SwagRequest_id r =? requestId)
                  (swag_requests s))),
   mkSite (world s)
     (filter (fun r => negb (SwagRequest_id r =? requestId))
        (swag_requests s))
     (swag_requests_sequence s)).

(** [ORDER BY created_at DESC].  SQL leaves the order among rows of equal
    [created_at] open; the model keeps them in rowid order, and no
    statement below depends on it. *)
Fixpoint insert_by_created_at (r : SwagRequest) (sorted : list SwagRequest)
  : list SwagRequest :=
  match sorted with
  | [] => [r]
  | x :: rest =>
      if text_lt (SwagRequest_created_at r) (SwagRequest_created_at x)
      then x :: insert_by_created_at r rest
      else r :: x :: rest
  end.

Definition order_by_created_at_desc (rows : list SwagRequest)
  : list SwagRequest := fold_right insert_by_created_at [] rows.

(** The WHERE clause of [handleGetRequests]; [sql_now] is
    [datetime('now')]. *)
Definition unexpired (sql_now : string) (r : SwagRequest) : bool :=
  text_gt (SwagRequest_expires_at r) sql_now.

Definition is_approved (r : SwagRequest) : bool :=
  match SwagRequest_status r with
  | approved => true
  | _ => false
  end.

(** The WHERE clause of [handleExportCSV]. *)
Definition approved_unexpired (sql_now : string) (r : SwagRequest) : bool :=
  (is_approved r && text_gt (SwagRequest_expires_at r) sql_now)%bool.

(** The WHERE clause of the first DELETE of [cleanupExpiredData]. *)
Definition expired_request (now : string) (r : SwagRequest) : bool :=
  text_lt (SwagRequest_expires_at r) now.

(* ================================================================== *)
(** * The answers of the request handlers *)
(* ================================================================== *)

Inductive SiteResponse : Type :=
| JsonAnswer (response : Response)
    (* jsonResponse of an object *)
| RequestsAnswer (requests : list SwagRequest)
    (* jsonResponse of the rows, status 200 *)
| CsvAnswer (csv Content_Disposition : string)
    (* new Response(csv, ...), Content-Type text/csv, status 200 *).

Definition status_of (r : SiteResponse) : Z :=
  match r with
  | JsonAnswer response => status response
  | RequestsAnswer _ => 200
  | CsvAnswer _ _ => 200
  end.

(* ================================================================== *)
(** * handlers/admin.ts: request management *)
(* ================================================================== *)

Definition double_quote : ascii := "034"%char.
Definition line_feed : ascii := "010"%char.

(** [s.replace] of every double quote by two double quotes. *)
Fixpoint double_the_quotes (s : string) : string :=
  match s with
  | EmptyString => EmptyString
  | String c s' =>
      if Ascii.eqb c double_quote
      then String double_quote (String double_quote (double_the_quotes s'))
      else String c (double_the_quotes s')
  end.

(** A template literal that puts [s] between double quotes. *)
Definition in_quotes (s : string) : string :=
  String double_quote (s ++ String double_quote EmptyString).

Definition csv_headers : list string :=
  ["Name"; "Email"; "Phone"; "Address"; "Created At"].

Definition csv_row (r : SwagRequest) : list string :=
  [ in_quotes (double_the_quotes (SwagRequest_name r));
    in_quotes (double_the_quotes (SwagRequest_email r));
    in_quotes (double_the_quotes (SwagRequest_phone r));
    in_quotes (double_the_quotes (SwagRequest_address r));
    in_quotes (SwagRequest_created_at r) ].

Definition csv_of (requests : list SwagRequest) : string :=
  String.concat (String line_feed EmptyString)
    (String.concat "," csv_headers
     :: map (fun r => String.concat "," (csv_row r)) requests).

(** [s.split('T')[0]]. *)
Fixpoint before_T (s : string) : string :=
  match s with
  | EmptyString => EmptyString
  | String c s' =>
      if Ascii.eqb c "T" then EmptyString else String c (before_T s')
  end.

Definition handleGetRequests (samb : SiteAmbient) (request : Request unit)
  : Task SiteResponse :=
  let sessionToken := getSessionToken request in
  await isValid := lift (validateAdminSession (ambient samb) sessionToken) in
  if negb isValid then
    Task_ret (JsonAnswer (jsonResponse (JsonError "Unauthorized" None) 401
                            None))
  else
    Task_try_catch
      (await requests :=
         requests_read samb SelectRequests
           (fun rows =>
              order_by_created_at_desc
                (filter (unexpired (sqlite_datetime (clock (ambient samb))))
                   rows)) in
       Task_ret (RequestsAnswer requests))
      (fun _ =>
         lift (console_error "Error fetching requests:") >>
         Task_ret (JsonAnswer (jsonResponse
                                 (JsonError "Failed to fetch requests" None)
                                 500 None))).

Definition handleApproveRequest (samb : SiteAmbient) (request : Request unit)
  (requestId : Z) : Task SiteResponse :=
  let sessionToken := getSessionToken request in
  await isValid := lift (validateAdminSession (ambient samb) sessionToken) in
  if negb isValid then
    Task_ret (JsonAnswer (jsonResponse (JsonError "Unauthorized" None) 401
                            None))
  else
    Task_try_catch
      (await swagRequest :=
         requests_read samb SelectRequest
           (find (fun r => SwagRequest_id r =? requestId)) in
       match swagRequest with
       | None =>
           Task_ret (JsonAnswer (jsonResponse
                                   (JsonError "Request not found" None) 404
                                   None))
       | Some _ =>
           requests_run samb UpdateStatus (update_status approved requestId) >>
           lift (sendEmail (ambient samb)) >>
           Task_ret (JsonAnswer (jsonResponse
                                   (JsonSuccess (Some "Request approved")) 200
                                   None))
       end)
      (fun _ =>
         lift (console_error "Error approving request:") >>
         Task_ret (JsonAnswer (jsonResponse
                                 (JsonError "Failed to approve request" None)
                                 500 None))).

Definition handleDeleteRequest (samb : SiteAmbient) (request : Request unit)
  (requestId : Z) : Task SiteResponse :=
  let sessionToken := getSessionToken request in
  await isValid := lift (validateAdminSession (ambient samb) sessionToken) in
  if negb isValid then
    Task_ret (JsonAnswer (jsonResponse (JsonError "Unauthorized" None) 401
                            None))
  else
    Task_try_catch
      (await changes :=
         requests_run samb DeleteRequest (delete_request requestId) in
       if changes =? 0 then
         Task_ret (JsonAnswer (jsonResponse
                                 (JsonError "Request not found" None) 404
                                 None))
       else
         Task_ret (JsonAnswer (jsonResponse
                                 (JsonSuccess (Some "Request deleted")) 200
                                 None)))
      (fun _ =>
         lift (console_error "Error deleting request:") >>
         Task_ret (JsonAnswer (jsonResponse
                                 (JsonError "Failed to delete request" None)
                                 500 None))).

Definition handleExportCSV (samb : SiteAmbient) (request : Request unit)
  : Task SiteResponse :=
  let sessionToken := getSessionToken request in
  await isValid := lift (validateAdminSession (ambient samb) sessionToken) in
  if negb isValid then
    Task_ret (JsonAnswer (jsonResponse (JsonError "Unauthorized" None) 401
                            None))
  else
    Task_try_catch
      (await requests :=
         requests_read samb SelectApproved
           (fun rows =>
              order_by_created_at_desc
                (filter
                   (approved_unexpired
                      (sqlite_datetime (clock (ambient samb)))) rows)) in
       let csv := csv_of requests in
       Task_ret (CsvAnswer csv
                   ("attachment; filename="
                    ++ in_quotes
                         ("approved-requests-"
                          ++ before_T (toISOString (clock (ambient samb)))
                          ++ ".csv"))))
      (fun _ =>
         lift (console_error "Error exporting CSV:") >>
         Task_ret (JsonAnswer (jsonResponse
                                 (JsonError "Failed to export CSV" None) 500
                                 None))).

(* ================================================================== *)
(** * db/index.ts, with the table [swag_requests] *)
(* ================================================================== *)

(** [cleanupExpiredData] on the whole site: its first DELETE now has its
    table. *)
Definition Site_cleanupExpiredData (amb : Ambient) : Task unit :=
  let now := toISOString (clock amb) in
  (fun s =>
     if d1_ok amb DeleteExpiredRequests
     then (Returned tt,
           mkSite (world s)
             (filter (fun r => negb (expired_request now r))
                (swag_requests s))
             (swag_requests_sequence s))
     else (Thrown "D1_ERROR", s)) >>
  lift (d1_run amb DeleteExpiredSessions (delete_where (expired_row now))).

(* ================================================================== *)
(** * handlers/swag.ts *)
(* ================================================================== *)

(** [data.field.trim()]: a [TypeError] when the field is not there. *)
Definition trimmed (field : option string) : Task string :=
  match field with
  | Some s => Task_ret (trim s)
  | None => Task_throw "TypeError"
  end.

(** [data.promo_code?.trim() || null]. *)
Definition promo_code_or_null (field : option string) : option string :=
  match field with
  | Some s => if js_not (trim s) then None else Some (trim s)
  | None => None
  end.

Definition MAX_REQUESTS_PER_EMAIL : Z := 10.

Section Submission.

Variable isEmail : string -> bool.

(** [validateSwagRequest] of utils/validation.ts, which rests on the
    validator.js package: [None] for [{ valid: true }], the error
    otherwise. *)
Variable validateSwagRequest : SwagRequestInput -> option string.

Definition handleSwagRequestSubmission (samb : SiteAmbient)
  (request : Request SwagRequestInput) : Task SiteResponse :=
  Task_try_catch
    (await data := lift (request_json request) in
     match validateSwagRequest data with
     | Some error =>
         Task_ret (JsonAnswer (jsonResponse (JsonError error None) 400 None))
     | None =>
         await e0 := trimmed (SwagRequestInput_email data) in
         let e := toLowerCase e0 in
         await existingCount :=
           requests_read samb CountRequests (count_requests e) in
         if MAX_REQUESTS_PER_EMAIL <=? existingCount then
           Task_ret (JsonAnswer (jsonResponse
             (JsonError
                "You have reached the maximum limit of 10 swag requests. Please wait for your existing requests to expire or be processed."
                None) 400 None))
         else
           await name := trimmed (SwagRequestInput_name data) in
           await phone := trimmed (SwagRequestInput_phone data) in
           await address := trimmed (SwagRequestInput_address data) in
           let promo_code :=
             promo_code_or_null (SwagRequestInput_promo_code data) in
           await requestId :=
             requests_run samb InsertRequest
               (insert_request (clock (ambient samb)) name e phone address
                  promo_code) in
           (if negb (requestId =? 0)
            then requests_run samb InsertAnalytics (fun s => (tt, s))
            else Task_ret tt) >>
           Task_ret (JsonAnswer (jsonResponse
             (JsonSuccess (Some "Swag request submitted successfully")) 200
             None))
     end)
    (fun _ =>
       lift (console_error "Error submitting swag request:") >>
       Task_ret (JsonAnswer (jsonResponse
         (JsonError "Failed to submit request. Please try again." None) 500
         None))).

(** The operations of the site. *)
Inductive SiteCall : Type :=
| SubmitRequest (request : Request SwagRequestInput)
| GetRequests (request : Request unit)
| ApproveRequest (request : Request unit) (requestId : Z)
| DeleteRequestCall (request : Request unit) (requestId : Z)
| ExportCSV (request : Request unit)
| AdminCall (c : Call).

(** The site after one operation has run to its end, whatever it
    answered. *)
Definition Site_serve (samb : SiteAmbient) (c : SiteCall) (s : Site) : Site :=
  match c with
  | SubmitRequest request => snd (handleSwagRequestSubmission samb request s)
  | GetRequests request => snd (handleGetRequests samb request s)
  | ApproveRequest request requestId =>
      snd (handleApproveRequest samb request requestId s)
  | DeleteRequestCall request requestId =>
      snd (handleDeleteRequest samb request requestId s)
  | ExportCSV request => snd (handleExportCSV samb request s)
  | AdminCall CleanupExpired =>
      snd (Site_cleanupExpiredData (ambient samb) s)
  | AdminCall c =>
      mkSite (serve isEmail (ambient samb) c (world s)) (swag_requests s)
        (swag_requests_sequence s)
  end.

(** The site after a history of operations, oldest first. *)
Fixpoint Site_run (history : list (SiteAmbient * SiteCall)) (s : Site)
  : Site :=
  match history with
  | [] => s
  | (samb, c) :: rest => Site_run rest (Site_serve samb c s)
  end.

(** The normalized address of a submission. *)
Definition submission_email (request : Request SwagRequestInput) : string :=
  match json request with
  | Some data =>
      match SwagRequestInput_email data with
      | Some s => toLowerCase (trim s)
      | None => ""
      end
  | None => ""
  end.

End Submission.

(* ================================================================== *)
(** * Vocabulary of the statements on the site *)
(* ================================================================== *)

(** The site after [console.error(line)]. *)
Definition Site_log (line : string) (s : Site) : Site :=
  mkSite (log_line line (world s)) (swag_requests s)
    (swag_requests_sequence s).

(** How [validateAdminSession] completes for a request. *)
Definition session_check (amb : Ambient) (request : Request unit) (s : Site)
  : Completion bool :=
  fst (validateAdminSession amb (getSessionToken request) (world s)).

Definition answer (data : Json) (status : Z) : SiteResponse :=
  JsonAnswer (jsonResponse data status None).

Definition not_authorized : SiteResponse :=
  answer (JsonError "Unauthorized" None) 401.

Definition request_not_found : SiteResponse :=
  answer (JsonError "Request not found" None) 404.

(** Newest first: no row is older than a row after it. *)
Definition newest_first (a b : SwagRequest) : Prop :=
  text_lt (SwagRequest_created_at a) (SwagRequest_created_at b) = false.

(** The columns [handleExportCSV] selects. *)
Definition exported_columns (r : SwagRequest)
  : string * string * string * string * string :=
  (SwagRequest_name r, SwagRequest_email r, SwagRequest_phone r,
   SwagRequest_address r, SwagRequest_created_at r).

Definition no_double_quote (s : string) : Prop :=
  all_chars (fun c => negb (Ascii.eqb c double_quote)) s = true.

(** ** A concrete setting for the examples on the site *)

Definition example_input : SwagRequestInput :=
  mkSwagRequestInput (Some " Ada Lovelace ") (Some "Ada@Example.com")
    (Some "+15551234567") (Some "12 Analytical Street, London") None.

(** [validateSwagRequest] on the one body the examples submit. *)
Definition validateSwagRequest_example (data : SwagRequestInput)
  : option string :=
  if (String.eqb (or_empty (SwagRequestInput_name data)) " Ada Lovelace "
      && String.eqb (or_empty (SwagRequestInput_email data)) "Ada@Example.com"
      && String.eqb (or_empty (SwagRequestInput_phone data)) "+15551234567"
      && String.eqb (or_empty (SwagRequestInput_address data))
           "12 Analytical Street, London")%bool
  then None else Some "Name is required".

Definition submit_request : Request SwagRequestInput :=
  mkRequest "https://swag.example/api/swag-request" None None
    (Some example_input).

Definition all_requests_ok (st : RequestStatement) : bool := true.

Definition site_ambient_at (t : Z) : SiteAmbient :=
  mkSiteAmbient (ambient_at t 0) all_requests_ok.

(** A request that carries the session cookie of [logged_in_world]. *)
Definition admin_request : Request unit :=
  cookie_request ("admin_session=" ++ zero_token).

(** A logged-in administrator and no request yet. *)
Definition admin_site : Site := mkSite logged_in_world [] 0.

(** The site after one submission two minutes past noon. *)
Definition submitted_site : Site :=
  Site_run isEmail_example validateSwagRequest_example
    [ (site_ambient_at (noon + minutes 2), SubmitRequest submit_request) ]
    admin_site.

Definition example_row : SwagRequest :=
  mkSwagRequest 1 "Ada Lovelace" "ada@example.com" "+15551234567"
    "12 Analytical Street, London" None pending "2024-01-01 12:02:00"
    "2024-01-31 12:02:00".

(** The lines of the export after the header line. *)
Fixpoint csv_lines (requests : list SwagRequest) : string :=
  match requests with
  | [] => EmptyString
  | r :: rest =>
      String line_feed (String.concat "," (csv_row r) ++ csv_lines rest)
  end.

(** A text that does not begin with a double quote. *)
Definition no_quote_ahead (s : string) : Prop :=
  forall rest, s <> String double_quote rest.

(** The row [handleSwagRequestSubmission] inserts for the body [data] at
    clock reading [t]. *)
Definition new_request (t : Z) (data : SwagRequestInput) (rowid : Z)
  : SwagRequest :=
  mkSwagRequest rowid
    (trim (or_empty (SwagRequestInput_name data)))
    (toLowerCase (trim (or_empty (SwagRequestInput_email data))))
    (trim (or_empty (SwagRequestInput_phone data)))
    (trim (or_empty (SwagRequestInput_address data)))
    (promo_code_or_null (SwagRequestInput_promo_code data))
    pending (sqlite_datetime t) (sqlite_datetime (t + REQUEST_LIFETIME_MS)).

Definition limit_reached : SiteResponse :=
  answer
    (JsonError
       "You have reached the maximum limit of 10 swag requests. Please wait for your existing requests to expire or be processed."
       None) 400.

Definition request_submitted : SiteResponse :=
  answer (JsonSuccess (Some "Swag request submitted successfully")) 200.

Definition submission_failed : SiteResponse :=
  answer (JsonError "Failed to submit request. Please try again." None) 500.

(** The ways one operation can change the table [swag_requests]; [valid]
    is what the validation found of an inserted body. *)
Inductive requests_step (valid : SwagRequestInput -> Prop) (t : Z)
  (rows : list SwagRequest) : list SwagRequest -> Prop :=
| requests_same : requests_step valid t rows rows
| requests_insert data rowid :
    valid data ->
    count_requests (SwagRequest_email (new_request t data rowid)) rows
    < MAX_REQUESTS_PER_EMAIL ->
    (forall r, In r rows -> SwagRequest_id r < rowid) ->
    requests_step valid t rows (rows ++ [new_request t data rowid])
| requests_approve requestId :
    requests_step valid t rows
      (map (fun r => if SwagRequest_id r =? requestId
                     then with_status approved r else r) rows)
| requests_delete p :
    requests_step valid t rows (filter p rows).

(** What holds of every row the handlers have written. *)
Definition well_formed_request (r : SwagRequest) : Prop :=
  SwagRequest_status r <> rejected
  /\ exists t, SwagRequest_created_at r = sqlite_datetime t
               /\ SwagRequest_expires_at r
                  = sqlite_datetime (t + REQUEST_LIFETIME_MS).

(** What holds of the table [swag_requests] in every site the handlers
    have built. *)
Definition requests_ok_table (rows : list SwagRequest) : Prop :=
  (forall e, count_requests e rows <= MAX_REQUESTS_PER_EMAIL)
  /\ NoDup (map SwagRequest_id rows)
  /\ Forall well_formed_request rows.

(** 2024-01-31T00:00:00.000Z, the start of the day on which
    [example_row] expires. *)
Definition expiry_midnight : Z := noon + 30 * MS_PER_DAY - 12 * 3600 * 1000.

(** Ten submissions of the example body, one minute apart from noon. *)
Definition ten_submissions : list (SiteAmbient * SiteCall) :=
  map (fun i => (site_ambient_at (noon + minutes (Z.of_nat i)),
                 SubmitRequest submit_request)) (seq 0 10).

(** The operations of a history that are on the admin subsystem. *)
Fixpoint admin_calls (history : list (SiteAmbient * SiteCall))
  : list (Ambient * Call) :=
  match history with
  | [] => []
  | (samb, AdminCall c) :: rest => (ambient samb, c) :: admin_calls rest
  | _ :: rest => admin_calls rest
  end.

(* ================================================================== *)
(** * utils/validation.ts: the validation of a submission *)
(* ================================================================== *)

Definition MAX_NAME_LENGTH : nat := 100.
Definition MIN_NAME_LENGTH : nat := 2.
Definition MAX_EMAIL_LENGTH : nat := 254.
Definition MAX_PHONE_LENGTH : nat := 30.
Definition MIN_PHONE_LENGTH : nat := 7.
Definition MAX_ADDRESS_LENGTH : nat := 500.
Definition MIN_ADDRESS_LENGTH : nat := 10.
Definition MAX_PROMO_CODE_LENGTH : nat := 50.

(** [validator.isEmpty(s)]. *)
Definition isEmpty (s : string) : bool := String.eqb s "".

(** [validator.isLength(s, { min })] and [validator.isLength(s, { max })]. *)
Definition isLength_min (s : string) (min : nat) : bool :=
  Nat.leb min (String.length s).

Definition isLength_max (s : string) (max : nat) : bool :=
  Nat.leb (String.length s) max.

(** [validator.matches(s, /^[...]+$/)] for a character class [p]. *)
Definition matches_plus (p : ascii -> bool) (s : string) : bool :=
  (negb (String.eqb s "") && all_chars p s)%bool.

(** [s.replace(/[...]/g, '')] for a character class [p]. *)
Fixpoint remove_chars (p : ascii -> bool) (s : string) : string :=
  match s with
  | EmptyString => EmptyString
  | String c s' =>
      if p c then remove_chars p s' else String c (remove_chars p s')
  end.

Definition is_letter (c : ascii) : bool :=
  let n := N_of_ascii c in
  (N.leb 65 n && N.leb n 90 || N.leb 97 n && N.leb n 122)%bool.

(** The class of the name pattern: letters, white space, hyphen,
    apostrophe and period. *)
Definition is_name_char (c : ascii) : bool :=
  (is_letter c || is_space c || Ascii.eqb c "-" || Ascii.eqb c "'"
   || Ascii.eqb c ".")%bool.

(** The class that [validatePhone] strips: white space, hyphen,
    parentheses and period. *)
Definition is_phone_formatting (c : ascii) : bool :=
  (is_space c || Ascii.eqb c "-" || Ascii.eqb c "(" || Ascii.eqb c ")"
   || Ascii.eqb c ".")%bool.

(** The class of the general phone pattern. *)
Definition is_phone_char (c : ascii) : bool :=
  (is_digit c || is_space c || Ascii.eqb c "+" || Ascii.eqb c "-"
   || Ascii.eqb c "(" || Ascii.eqb c ")" || Ascii.eqb c ".")%bool.

(** The pattern of the cleaned phone number: an optional plus sign, then
    7 to 15 digits. *)
Definition plus_and_digits (s : string) : bool :=
  let digits :=
    match s with
    | String c s' => if Ascii.eqb c "+" then s' else s
    | EmptyString => s
    end in
  (all_chars is_digit digits && Nat.leb 7 (String.length digits)
   && Nat.leb (String.length digits) 15)%bool.

Definition is_alphanumeric_char (c : ascii) : bool :=
  (is_digit c || is_letter c)%bool.

(** [validator.isAlphanumeric(s)], locale en-US. *)
Definition isAlphanumeric (s : string) : bool :=
  matches_plus is_alphanumeric_char s.

Definition is_hyphen_or_underscore (c : ascii) : bool :=
  (Ascii.eqb c "-" || Ascii.eqb c "_")%bool.

(** A field that is a string and not the empty one: neither
    [!data.field] nor [typeof data.field !== 'string']. *)
Definition present (field : option string) : option string :=
  match field with
  | Some s => if js_not s then None else Some s
  | None => None
  end.

Section Validation.

(** [validator.isEmail] with the options [validateSwagRequest] passes,
    and [validator.isMobilePhone(s, 'any', { strictMode: false })]; the
    validator.js package is not part of the repository. *)
Variable isEmail_default : string -> bool.
Variable isMobilePhone : string -> bool.

Definition validatePhone (phone : string) : bool :=
  let cleaned := remove_chars is_phone_formatting phone in
  (isMobilePhone cleaned
   || isLength phone MIN_PHONE_LENGTH MAX_PHONE_LENGTH
      && matches_plus is_phone_char phone
      && plus_and_digits cleaned)%bool.

(** The promo code part of [validateSwagRequest]; a [promo_code] that is
    there but not a string is outside the model. *)
Definition validate_promo_code (field : option string) : option string :=
  match present field with
  | None => None
  | Some raw =>
      let promoCode := trim raw in
      if isEmpty promoCode then None
      else if negb (isLength_max promoCode MAX_PROMO_CODE_LENGTH) then
        Some "Promo code must be less than 50 characters"
      else if negb (isAlphanumeric
                      (remove_chars is_hyphen_or_underscore promoCode)) then
        Some "Promo code can only contain letters, numbers, hyphens and underscores"
      else None
  end.

Definition validate_address (field : option string) : option string :=
  match present field with
  | None => Some "Address is required"
  | Some raw =>
      let address := trim raw in
      if isEmpty address then Some "Address is required"
      else if negb (isLength_min address MIN_ADDRESS_LENGTH) then
        Some "Please provide a complete shipping address"
      else if negb (isLength_max address MAX_ADDRESS_LENGTH) then
        Some "Address must be less than 500 characters"
      else None
  end.

Definition validate_phone (field : option string) : option string :=
  match present field with
  | None => Some "Phone number is required"
  | Some raw =>
      let phone := trim raw in
      if isEmpty phone then Some "Phone number is required"
      else if negb (isLength_max phone MAX_PHONE_LENGTH) then
        Some "Phone number must be less than 30 characters"
      else if negb (validatePhone phone) then
        Some "Please provide a valid phone number"
      else None
  end.

Definition validate_email (field : option string) : option string :=
  match present field with
  | None => Some "Email is required"
  | Some raw =>
      let e := toLowerCase (trim raw) in
      if isEmpty e then Some "Email is required"
      else if negb (isLength_max e MAX_EMAIL_LENGTH) then
        Some "Email must be less than 254 characters"
      else if negb (isEmail_default e) then
        Some "Please provide a valid email address"
      else None
  end.

Definition validate_name (field : option string) : option string :=
  match present field with
  | None => Some "Name is required"
  | Some raw =>
      let name := trim raw in
      if isEmpty name then Some "Name is required"
      else if negb (isLength_min name MIN_NAME_LENGTH) then
        Some "Name must be at least 2 characters"
      else if negb (isLength_max name MAX_NAME_LENGTH) then
        Some "Name must be less than 100 characters"
      else if negb (matches_plus is_name_char name) then
        Some "Name contains invalid characters"
      else None
  end.

(** [validateSwagRequest]: the checks in the order of the source, the
    first failure decides; [None] is [{ valid: true }]. *)
Definition validateSwagRequest (data : SwagRequestInput) : option string :=
  match validate_name (SwagRequestInput_name data) with
  | Some error => Some error
  | None =>
      match validate_email (SwagRequestInput_email data) with
      | Some error => Some error
      | None =>
          match validate_phone (SwagRequestInput_phone data) with
          | Some error => Some error
          | None =>
              match validate_address (SwagRequestInput_address data) with
              | Some error => Some error
              | None =>
                  validate_promo_code (SwagRequestInput_promo_code data)
              end
          end
      end
  end.

(** What the validation guarantees of a stored request. *)
Definition validated_request (r : SwagRequest) : Prop :=
  (2 <= String.length (SwagRequest_name r) <= 100)%nat
  /\ all_chars is_name_char (SwagRequest_name r) = true
  /\ (1 <= String.length (SwagRequest_email r) <= 254)%nat
  /\ isEmail_default (SwagRequest_email r) = true
  /\ (1 <= String.length (SwagRequest_phone r) <= 30)%nat
  /\ validatePhone (SwagRequest_phone r) = true
  /\ (10 <= String.length (SwagRequest_address r) <= 500)%nat
  /\ match SwagRequest_promo_code r with
     | None => True
     | Some code =>
         (1 <= String.length code <= 50)%nat
         /\ all_chars (fun c => (is_alphanumeric_char c
                                 || is_hyphen_or_underscore c)%bool) code
            = true
     end.

End Validation.

(** [validator.isEmail] and [validator.isMobilePhone] on the values the
    examples use. *)
Definition isEmail_default_example (s : string) : bool :=
  String.eqb s "ada@example.com".

Definition isMobilePhone_example (s : string) : bool :=
  String.eqb s "+15551234567".

(* ================================================================== *)
(** * The model on concrete inputs *)
(* ================================================================== *)

Example civil_from_days_epoch : civil_from_days 0 = (1970, 1, 1).
Proof. reflexivity. Qed.

Example civil_from_days_leap_day : civil_from_days 11016 = (2000, 2, 29).
Proof. reflexivity. Qed.

Example civil_from_days_no_leap_day_in_2100 :
  civil_from_days 47540 = (2100, 2, 28) /\ civil_from_days 47541 = (2100, 3, 1).
Proof. split; reflexivity. Qed.

Example civil_from_days_before_epoch : civil_from_days (-1) = (1969, 12, 31).
Proof. reflexivity. Qed.

Example toISOString_noon : toISOString noon = "2024-01-01T12:00:00.000Z".
Proof. reflexivity. Qed.

Example toISOString_last_four_digit_year :
  toISOString 253402300799999 = "9999-12-31T23:59:59.999Z".
Proof. reflexivity. Qed.

Example toISOString_expanded_year :
  toISOString 253402300800000 = "+010000-01-01T00:00:00.000Z".
Proof. reflexivity. Qed.

Example sqlite_datetime_noon :
  sqlite_datetime (noon + 999) = "2024-01-01 12:00:00".
Proof. reflexivity. Qed.

(** A row stamped at noon does not compare after a window that started at
    11:00 the same day. *)
Example stamp_of_noon_against_window_of_eleven :
  text_gt (sqlite_datetime noon) (toISOString (noon - RATE_LIMIT_WINDOW_MS))
  = false.
Proof. reflexivity. Qed.

Example generateOTP_of_zero : generateOTP 0 = "100000".
Proof. reflexivity. Qed.

Example generateOTP_of_largest_residue : generateOTP 899999 = "999999".
Proof. vm_compute. reflexivity. Qed.

Example generateOTP_of_largest_cell : generateOTP (2 ^ 32 - 1) = "267295".
Proof. vm_compute. reflexivity. Qed.

Example generateSessionToken_zero_bytes :
  generateSessionToken [] = zero_token.
Proof. reflexivity. Qed.

Example generateSessionToken_bytes :
  String.substring 0 8 (generateSessionToken [255; 16; 1; 171]) = "ff1001ab".
Proof. reflexivity. Qed.

Example normalized_email :
  toLowerCase (trim "  Admin@CloudFlare.com ") = "admin@cloudflare.com".
Proof. reflexivity. Qed.

Example validateOTP_examples :
  validateOTP "123456" = true /\ validateOTP "12345" = false
  /\ validateOTP "12345a" = false /\ validateOTP "1234567" = false.
Proof. repeat split. Qed.

Example getSessionToken_examples :
  getSessionToken (cookie_request "theme=dark; admin_session=abc; x=y")
  = Some "abc"
  /\ getSessionToken (cookie_request "admin_session=; admin_session=abc")
     = Some "abc"
  /\ getSessionToken (cookie_request "admin_session=") = None
  /\ getSessionToken (cookie_request "") = None.
Proof. repeat split. Qed.

Example getSecureCookieString_example :
  getSecureCookieString (cookie_request "") "abc" 86400
  = "admin_session=abc; Path=/; HttpOnly; SameSite=Strict; Secure; Max-Age=86400".
Proof. vm_compute. reflexivity. Qed.


(* ================================================================== *)
(** * Lemmas: calendar and text order of timestamps *)
(* ================================================================== *)

(** Names every quotient by a constant and keeps its two bounds, so that
    [lia] sees linear facts only. *)
Ltac name_quotient a c :=
  let q := fresh "q" in
  pose proof (Z.mul_div_le a c ltac:(lia));
  pose proof (Z.mul_succ_div_gt a c ltac:(lia));
  set (q := a / c) in *; clearbody q.

Ltac quotients :=
  repeat match goal with
         | |- context [Z.div ?a ?c] => name_quotient a c
         | H : context [Z.div ?a ?c] |- _ => name_quotient a c
         end.

Lemma yoe_of_mono a b : 0 <= a -> a <= b -> b < 146097 -> yoe_of a <= yoe_of b.
Proof.
  intros. unfold yoe_of. apply Z.div_le_mono; [lia|]. quotients. lia.
Qed.

Lemma yoe_of_range a : 0 <= a < 146097 -> 0 <= yoe_of a <= 399.
Proof. intros. unfold yoe_of. quotients. lia. Qed.

Lemma doy_of_range a : 0 <= a < 146097 -> 0 <= doy_of a <= 365.
Proof. intros. unfold doy_of, yoe_of. quotients. lia. Qed.

Lemma month_day_range doy : 0 <= doy <= 365 ->
  0 <= mp_of doy <= 11 /\ 1 <= dom_of doy <= 31.
Proof. intros. unfold dom_of, mp_of. quotients. lia. Qed.

Lemma month_day_lt a b : 0 <= a -> a < b ->
  mp_of a < mp_of b \/ (mp_of a = mp_of b /\ dom_of a < dom_of b).
Proof.
  intros. unfold dom_of.
  assert (C : mp_of a <= mp_of b) by (apply Z.div_le_mono; lia).
  destruct (Z.eq_dec (mp_of a) (mp_of b)) as [E|E]; [right|left; lia].
  split; [exact E|]. rewrite E. lia.
Qed.

Lemma civil_from_days_eq z :
  civil_from_days z =
  let doe := (z + 719468) mod 146097 in
  let era := (z + 719468) / 146097 in
  let mp := mp_of (doy_of doe) in
  let m := if mp <? 10 then mp + 3 else mp - 9 in
  (yoe_of doe + era * 400 + (if m <=? 2 then 1 else 0), m, dom_of (doy_of doe)).
Proof.
  unfold civil_from_days, dom_of, mp_of, doy_of, yoe_of. cbv zeta.
  replace (z + 719468 - (z + 719468) / 146097 * 146097) with ((z + 719468) mod 146097)
    by (rewrite Z.mod_eq; lia).
  reflexivity.
Qed.

Lemma civil_from_days_lt z1 z2 :
  z1 < z2 -> date_lt (civil_from_days z1) (civil_from_days z2).
Proof.
  intros H. rewrite !civil_from_days_eq. cbv zeta.
  set (Z1 := z1 + 719468). set (Z2 := z2 + 719468).
  assert (HZ : Z1 < Z2) by (unfold Z1, Z2; lia).
  pose proof (Z.mod_pos_bound Z1 146097 ltac:(lia)) as B1.
  pose proof (Z.mod_pos_bound Z2 146097 ltac:(lia)) as B2.
  pose proof (Z.div_mod Z1 146097 ltac:(lia)) as E1.
  pose proof (Z.div_mod Z2 146097 ltac:(lia)) as E2.
  set (doe1 := Z1 mod 146097) in *. set (doe2 := Z2 mod 146097) in *.
  set (era1 := Z1 / 146097) in *. set (era2 := Z2 / 146097) in *.
  clearbody doe1 doe2 era1 era2.
  pose proof (yoe_of_range doe1 B1) as Y1. pose proof (yoe_of_range doe2 B2) as Y2.
  pose proof (doy_of_range doe1 B1) as D1. pose proof (doy_of_range doe2 B2) as D2.
  pose proof (month_day_range _ D1) as [M1 N1]. pose proof (month_day_range _ D2) as [M2 N2].
  assert (L : era1 < era2 \/
              (era1 = era2 /\
               (yoe_of doe1 < yoe_of doe2 \/
                (yoe_of doe1 = yoe_of doe2 /\
                 (mp_of (doy_of doe1) < mp_of (doy_of doe2) \/
                  (mp_of (doy_of doe1) = mp_of (doy_of doe2) /\
                   dom_of (doy_of doe1) < dom_of (doy_of doe2))))))).
  { assert (era1 < era2 \/ (era1 = era2 /\ doe1 < doe2)) as [He | [He Hd]] by lia;
      [left; exact He | right; split; [exact He|]].
    pose proof (yoe_of_mono doe1 doe2 ltac:(lia) ltac:(lia) ltac:(lia)) as Hy.
    destruct (Z.eq_dec (yoe_of doe1) (yoe_of doe2)) as [Ey|Ey]; [right|left; lia].
    split; [exact Ey|].
    apply month_day_lt; [lia|]. unfold doy_of. rewrite Ey. lia. }
  set (y1 := yoe_of doe1) in *. set (y2 := yoe_of doe2) in *.
  set (p1 := mp_of (doy_of doe1)) in *. set (p2 := mp_of (doy_of doe2)) in *.
  set (n1 := dom_of (doy_of doe1)) in *. set (n2 := dom_of (doy_of doe2)) in *.
  clearbody y1 y2 p1 p2 n1 n2.
  clear - Y1 Y2 M1 M2 N1 N2 L.
  unfold date_lt.
  destruct (Z.ltb_spec p1 10); destruct (Z.ltb_spec p2 10);
    repeat match goal with |- context [?a <=? ?b] => destruct (Z.leb_spec a b) end; lia.
Qed.

Lemma civil_from_days_month_day z :
  let '(_, m, d) := civil_from_days z in 1 <= m <= 12 /\ 1 <= d <= 31.
Proof.
  rewrite civil_from_days_eq. cbv zeta.
  pose proof (Z.mod_pos_bound (z + 719468) 146097 ltac:(lia)) as B1.
  pose proof (doy_of_range _ B1) as D1.
  pose proof (month_day_range _ D1) as [M1 N1].
  split; [|exact N1].
  destruct (Z.ltb_spec (mp_of (doy_of ((z + 719468) mod 146097))) 10); lia.
Qed.

Lemma civil_from_days_year z :
  -719528 <= z <= 2932896 -> 0 <= fst (fst (civil_from_days z)) <= 9999.
Proof.
  intros [Hlo Hhi].
  split.
  - destruct (Z.eq_dec z (-719528)) as [->|N]; [vm_compute; discriminate|].
    pose proof (civil_from_days_lt (-719528) z ltac:(lia)) as L.
    change (civil_from_days (-719528)) with (0, 1, 1) in L.
    destruct (civil_from_days z) as [[y m] d]. unfold date_lt in L. simpl. lia.
  - destruct (Z.eq_dec z 2932896) as [->|N]; [vm_compute; discriminate|].
    pose proof (civil_from_days_lt z 2932896 ltac:(lia)) as L.
    change (civil_from_days 2932896) with (9999, 12, 31) in L.
    destruct (civil_from_days z) as [[y m] d]. unfold date_lt in L. simpl. lia.
Qed.

(** ** Text comparison, field by field *)

Lemma length_app (a b : string) :
  String.length (a ++ b) = (String.length a + String.length b)%nat.
Proof. induction a as [|c a IH]; simpl; [reflexivity | now rewrite IH]. Qed.

Lemma compare_refl (a : string) : String.compare a a = Eq.
Proof.
  induction a as [|c a IH]; simpl; [reflexivity|].
  unfold Ascii.compare. now rewrite N.compare_refl.
Qed.

Lemma compare_app (a a' b b' : string) :
  String.length a = String.length a' ->
  String.compare (a ++ b) (a' ++ b')
  = then_cmp (String.compare a a') (String.compare b b').
Proof.
  revert a'. induction a as [|c a IH]; intros [|c' a'] L; simpl in L;
    try discriminate; simpl; [reflexivity|].
  destruct (Ascii.compare c c'); simpl; auto.
Qed.

Lemma compare_sep (sep a b : string) :
  String.compare (sep ++ a) (sep ++ b) = String.compare a b.
Proof. rewrite compare_app by reflexivity. now rewrite compare_refl. Qed.

Lemma length_pad k x : String.length (pad k x) = k.
Proof.
  revert x. induction k as [|k IH]; intros x; simpl; [reflexivity|].
  rewrite length_app, IH. simpl. lia.
Qed.

Lemma digit_compare a b :
  0 <= a <= 9 -> 0 <= b <= 9 ->
  Ascii.compare (digit a) (digit b) = (a ?= b).
Proof.
  intros Ha Hb. unfold Ascii.compare, digit.
  rewrite !N_ascii_embedding.
  - rewrite !Z.mod_small by lia.
    rewrite <- N2Z.inj_compare, !N2Z.inj_add, !Z2N.id by lia.
    apply Z.add_compare_mono_l.
  - assert (0 <= b mod 10 < 10) by (apply Z.mod_pos_bound; lia). lia.
  - assert (0 <= a mod 10 < 10) by (apply Z.mod_pos_bound; lia). lia.
Qed.

Lemma compare_by_digits x y :
  (x ?= y) = then_cmp (x / 10 ?= y / 10) (x mod 10 ?= y mod 10).
Proof.
  pose proof (Z.div_mod x 10 ltac:(lia)). pose proof (Z.div_mod y 10 ltac:(lia)).
  pose proof (Z.mod_pos_bound x 10 ltac:(lia)). pose proof (Z.mod_pos_bound y 10 ltac:(lia)).
  destruct (Z.compare_spec (x / 10) (y / 10)); simpl.
  - destruct (Z.compare_spec (x mod 10) (y mod 10)).
    + apply Z.compare_eq_iff. lia.
    + apply Z.compare_lt_iff. lia.
    + apply Z.compare_gt_iff. lia.
  - apply Z.compare_lt_iff. lia.
  - apply Z.compare_gt_iff. lia.
Qed.

Lemma pad_compare k x y :
  0 <= x < 10 ^ Z.of_nat k -> 0 <= y < 10 ^ Z.of_nat k ->
  String.compare (pad k x) (pad k y) = (x ?= y).
Proof.
  revert x y. induction k as [|k IH]; intros x y Hx Hy.
  - simpl in *. assert (x = 0) by lia. assert (y = 0) by lia. subst.
    reflexivity.
  - cbn [pad]. rewrite compare_app by now rewrite !length_pad.
    rewrite Nat2Z.inj_succ, Z.pow_succ_r in Hx, Hy by lia.
    rewrite IH by (split; [apply Z.div_pos; lia | apply Z.div_lt_upper_bound; lia]).
    cbn [String.compare].
    assert (D : forall v, digit v = digit (v mod 10)).
    { intros v. unfold digit. now rewrite Z.mod_mod by lia. }
    rewrite (D x), (D y).
    rewrite digit_compare by (apply Z.mod_pos_bound || (pose proof (Z.mod_pos_bound x 10); pose proof (Z.mod_pos_bound y 10); lia)).
    rewrite (compare_by_digits x y).
    destruct (x / 10 ?= y / 10); simpl; try reflexivity.
    destruct (x mod 10 ?= y mod 10); reflexivity.
Qed.

Lemma then_cmp_assoc a b c : then_cmp (then_cmp a b) c = then_cmp a (then_cmp b c).
Proof. now destruct a. Qed.

Lemma compare_by_div c x y :
  0 < c -> (x ?= y) = then_cmp (x / c ?= y / c) (x mod c ?= y mod c).
Proof.
  intros Hc.
  pose proof (Z.div_mod x c ltac:(lia)). pose proof (Z.div_mod y c ltac:(lia)).
  pose proof (Z.mod_pos_bound x c ltac:(lia)). pose proof (Z.mod_pos_bound y c ltac:(lia)).
  destruct (Z.compare_spec (x / c) (y / c)); simpl.
  - destruct (Z.compare_spec (x mod c) (y mod c)).
    + apply Z.compare_eq_iff. congruence.
    + apply Z.compare_lt_iff. nia.
    + apply Z.compare_gt_iff. nia.
  - apply Z.compare_lt_iff. nia.
  - apply Z.compare_gt_iff. nia.
Qed.

Lemma four_digit_year_day t : four_digit_year t -> day_ok (t / MS_PER_DAY).
Proof.
  unfold four_digit_year, day_ok, MS_PER_DAY. intros H. quotients. lia.
Qed.

Lemma date_text_eq z :
  day_ok z ->
  date_text z =
  pad 4 (fst (fst (civil_from_days z))) ++ "-"
  ++ pad 2 (snd (fst (civil_from_days z))) ++ "-"
  ++ pad 2 (snd (civil_from_days z)).
Proof.
  intros H. unfold date_text.
  pose proof (civil_from_days_year z H) as Hy.
  destruct (civil_from_days z) as [[y m] d]. simpl in *.
  unfold year_text.
  destruct (Z.leb_spec 0 y); [|lia]. destruct (Z.leb_spec y 9999); [|lia].
  reflexivity.
Qed.

Lemma length_date_text z : day_ok z -> String.length (date_text z) = 10%nat.
Proof.
  intros H. rewrite date_text_eq by assumption.
  rewrite !length_app, !length_pad. reflexivity.
Qed.

Lemma date_text_compare a b :
  day_ok a -> day_ok b ->
  String.compare (date_text a) (date_text b) = (a ?= b).
Proof.
  intros Ha Hb. rewrite !date_text_eq by assumption.
  pose proof (civil_from_days_year a Ha) as Ya.
  pose proof (civil_from_days_year b Hb) as Yb.
  pose proof (civil_from_days_month_day a) as Ma.
  pose proof (civil_from_days_month_day b) as Mb.
  assert (L : forall u v, u < v -> date_lt (civil_from_days u) (civil_from_days v))
    by (intros; now apply civil_from_days_lt).
  pose proof (L a b) as Lab. pose proof (L b a) as Lba. clear L.
  assert (E : a = b -> civil_from_days a = civil_from_days b) by congruence.
  destruct (civil_from_days a) as [[y1 m1] d1], (civil_from_days b) as [[y2 m2] d2].
  cbn [fst snd] in *. unfold date_lt in *.
  rewrite compare_app by now rewrite !length_pad.
  rewrite compare_sep.
  rewrite compare_app by now rewrite !length_pad.
  rewrite compare_sep.
  rewrite !pad_compare by (simpl; lia).
  destruct (Z.compare_spec a b) as [C|C|C].
  - specialize (E C). inversion E; subst. now rewrite !Z.compare_refl.
  - specialize (Lab C).
    destruct (Z.compare_spec y1 y2); simpl; try lia; try reflexivity.
    destruct (Z.compare_spec m1 m2); simpl; try lia; try reflexivity.
    destruct (Z.compare_spec d1 d2); simpl; try lia; try reflexivity.
  - specialize (Lba C).
    destruct (Z.compare_spec y1 y2); simpl; try lia; try reflexivity.
    destruct (Z.compare_spec m1 m2); simpl; try lia; try reflexivity.
    destruct (Z.compare_spec d1 d2); simpl; try lia; try reflexivity.
Qed.

Lemma length_clock_text s : String.length (clock_text s) = 8%nat.
Proof. unfold clock_text. rewrite !length_app, !length_pad. reflexivity. Qed.

Lemma clock_text_compare s s' :
  0 <= s < 86400 -> 0 <= s' < 86400 ->
  String.compare (clock_text s) (clock_text s') = (s ?= s').
Proof.
  intros Hs Hs'. unfold clock_text.
  rewrite compare_app by now rewrite !length_pad.
  rewrite compare_sep.
  rewrite compare_app by now rewrite !length_pad.
  rewrite compare_sep.
  assert (B : forall v, 0 <= v < 86400 ->
                        0 <= v / 3600 < 100 /\ 0 <= v / 60 mod 60 < 100
                        /\ 0 <= v mod 60 < 100).
  { intros v Hv. pose proof (Z.mod_pos_bound (v / 60) 60 ltac:(lia)).
    pose proof (Z.mod_pos_bound v 60 ltac:(lia)).
    repeat split; try lia; quotients; lia. }
  destruct (B s Hs) as (? & ? & ?), (B s' Hs') as (? & ? & ?).
  rewrite !pad_compare by (simpl; lia).
  rewrite (compare_by_div 60 s s') by lia.
  rewrite (compare_by_div 60 (s / 60) (s' / 60)) by lia.
  rewrite !Z.div_div by lia. change (60 * 60) with 3600.
  now rewrite then_cmp_assoc.
Qed.

Lemma seconds_of_day_range t : 0 <= t mod MS_PER_DAY / 1000 < 86400.
Proof.
  unfold MS_PER_DAY. pose proof (Z.mod_pos_bound t 86400000 ltac:(lia)).
  quotients. lia.
Qed.

Lemma mod_day_mod_1000 t : (t mod MS_PER_DAY) mod 1000 = t mod 1000.
Proof.
  unfold MS_PER_DAY.
  rewrite (Z.mod_eq t 86400000), (Z.mod_eq t 1000), Z.mod_eq by lia.
  quotients. lia.
Qed.

Lemma toISOString_compare a b :
  four_digit_year a -> four_digit_year b ->
  String.compare (toISOString a) (toISOString b) = (a ?= b).
Proof.
  intros Ha Hb. unfold toISOString.
  pose proof (four_digit_year_day a Ha) as Da.
  pose proof (four_digit_year_day b Hb) as Db.
  rewrite compare_app by now rewrite !length_date_text.
  rewrite compare_sep.
  rewrite compare_app by now rewrite !length_clock_text.
  rewrite compare_sep.
  rewrite compare_app by now rewrite !length_pad.
  rewrite compare_refl.
  rewrite date_text_compare by assumption.
  rewrite clock_text_compare by apply seconds_of_day_range.
  rewrite pad_compare by (simpl; apply Z.mod_pos_bound; lia).
  rewrite (compare_by_div MS_PER_DAY a b) by (unfold MS_PER_DAY; lia).
  rewrite (compare_by_div 1000 (a mod MS_PER_DAY) (b mod MS_PER_DAY)) by lia.
  rewrite !mod_day_mod_1000.
  destruct (a / MS_PER_DAY ?= b / MS_PER_DAY); simpl; try reflexivity.
  destruct (a mod MS_PER_DAY / 1000 ?= b mod MS_PER_DAY / 1000); simpl; try reflexivity.
  destruct (a mod 1000 ?= b mod 1000); reflexivity.
Qed.

Lemma sqlite_datetime_compare a b :
  four_digit_year a -> four_digit_year b ->
  String.compare (sqlite_datetime a) (sqlite_datetime b) = (a / 1000 ?= b / 1000).
Proof.
  intros Ha Hb. unfold sqlite_datetime.
  pose proof (four_digit_year_day a Ha) as Da.
  pose proof (four_digit_year_day b Hb) as Db.
  rewrite compare_app by now rewrite !length_date_text.
  rewrite compare_sep.
  rewrite date_text_compare by assumption.
  rewrite clock_text_compare by apply seconds_of_day_range.
  rewrite (compare_by_div 86400 (a / 1000) (b / 1000)) by lia.
  rewrite !Z.div_div by lia. change (1000 * 86400) with MS_PER_DAY.
  assert (E : forall v, v mod MS_PER_DAY / 1000 = (v / 1000) mod 86400).
  { intros v. unfold MS_PER_DAY.
    rewrite (Z.mod_eq v 86400000), (Z.mod_eq (v / 1000) 86400) by lia.
    rewrite Z.div_div by lia. change (1000 * 86400) with 86400000.
    quotients. lia. }
  now rewrite !E.
Qed.

Lemma sqlite_datetime_vs_toISOString a b :
  four_digit_year a -> four_digit_year b ->
  String.compare (sqlite_datetime a) (toISOString b)
  = then_cmp (a / MS_PER_DAY ?= b / MS_PER_DAY) Lt.
Proof.
  intros Ha Hb. unfold sqlite_datetime, toISOString.
  pose proof (four_digit_year_day a Ha) as Da.
  pose proof (four_digit_year_day b Hb) as Db.
  rewrite compare_app by now rewrite !length_date_text.
  rewrite date_text_compare by assumption.
  reflexivity.
Qed.

Lemma text_lt_toISOString a b :
  four_digit_year a -> four_digit_year b ->
  text_lt (toISOString a) (toISOString b) = (a <? b).
Proof.
  intros Ha Hb. unfold text_lt, String.ltb, Z.ltb.
  now rewrite toISOString_compare.
Qed.

Lemma text_gt_toISOString a b :
  four_digit_year a -> four_digit_year b ->
  text_gt (toISOString a) (toISOString b) = (b <? a).
Proof. intros Ha Hb. unfold text_gt. now apply text_lt_toISOString. Qed.

(** A row stamped by SQLite lies after a JavaScript window start only when
    it was stamped on a later day: on the same day the space of
    [YYYY-MM-DD HH:MM:SS] sorts before the [T] of the ISO text. *)
Lemma text_gt_sqlite_iso a b :
  four_digit_year a -> four_digit_year b ->
  text_gt (sqlite_datetime a) (toISOString b)
  = (b / MS_PER_DAY <? a / MS_PER_DAY).
Proof.
  intros Ha Hb. unfold text_gt, String.ltb.
  rewrite String.compare_antisym, sqlite_datetime_vs_toISOString by assumption.
  rewrite Z.ltb_antisym, Z.leb_compare.
  destruct (a / MS_PER_DAY ?= b / MS_PER_DAY); reflexivity.
Qed.

(** An ISO expiry lies before SQLite's [datetime('now')] only when it
    falls on an earlier day. *)
Lemma text_lt_iso_sqlite a b :
  four_digit_year a -> four_digit_year b ->
  text_lt (toISOString a) (sqlite_datetime b)
  = (a / MS_PER_DAY <? b / MS_PER_DAY).
Proof.
  intros Ha Hb. unfold text_lt, String.ltb.
  rewrite String.compare_antisym, sqlite_datetime_vs_toISOString by assumption.
  rewrite Z.ltb_antisym, Z.leb_compare.
  destruct (b / MS_PER_DAY ?= a / MS_PER_DAY); reflexivity.
Qed.

Lemma text_lt_sqlite_datetime a b :
  four_digit_year a -> four_digit_year b ->
  text_lt (sqlite_datetime a) (sqlite_datetime b) = (a / 1000 <? b / 1000).
Proof.
  intros Ha Hb. unfold text_lt, String.ltb, Z.ltb.
  now rewrite sqlite_datetime_compare.
Qed.

Lemma text_lt_irrefl a : text_lt a a = false.
Proof. unfold text_lt, String.ltb. now rewrite compare_refl. Qed.

Lemma ascii_compare_trans a b c :
  Ascii.compare a b = Lt -> Ascii.compare b c = Lt -> Ascii.compare a c = Lt.
Proof.
  unfold Ascii.compare. rewrite !N.compare_lt_iff. apply N.lt_trans.
Qed.

Lemma compare_lt_trans a b c :
  String.compare a b = Lt -> String.compare b c = Lt ->
  String.compare a c = Lt.
Proof.
  revert b c. induction a as [|x a IH]; intros [|y b] [|z c]; simpl;
    try congruence.
  destruct (Ascii.compare x y) eqn:Exy; try discriminate.
  - apply Ascii.compare_eq_iff in Exy. subst y.
    destruct (Ascii.compare x z); try congruence. apply IH.
  - intros _. destruct (Ascii.compare y z) eqn:Eyz; try discriminate.
    + apply Ascii.compare_eq_iff in Eyz. subst z. now rewrite Exy.
    + intros _. now rewrite (ascii_compare_trans x y z).
Qed.

Lemma text_lt_asym a b : text_lt a b = true -> text_lt b a = false.
Proof.
  unfold text_lt, String.ltb. rewrite (String.compare_antisym b a).
  destruct (String.compare a b); simpl; congruence.
Qed.

Lemma text_not_lt_trans a b c :
  text_lt a b = false -> text_lt b c = false -> text_lt a c = false.
Proof.
  intros Hab Hbc.
  destruct (text_lt a c) eqn:Hac; [|reflexivity].
  (* a < c, not a < b, not b < c *)
  unfold text_lt, String.ltb in *.
  destruct (String.compare a b) eqn:Eab; try discriminate.
  - apply String.compare_eq_iff in Eab. subst b.
    destruct (String.compare a c); discriminate.
  - destruct (String.compare b c) eqn:Ebc; try discriminate.
    + apply String.compare_eq_iff in Ebc. subst c.
      rewrite Eab in Hac. discriminate.
    + assert (String.compare c b = Lt)
        by (rewrite String.compare_antisym, Ebc; reflexivity).
      assert (String.compare b a = Lt)
        by (rewrite String.compare_antisym, Eab; reflexivity).
      assert (L : String.compare c a = Lt)
        by (eapply compare_lt_trans; eassumption).
      rewrite String.compare_antisym, L in Hac. discriminate.
Qed.

(* ================================================================== *)
(** * Lemmas: the handlers, path by path *)
(* ================================================================== *)

Lemma handleVerifyOTP_eq amb request w :
  handleVerifyOTP amb request w =
  match json request with
  | None => (Returned verify_failed, log_line "Error verifying OTP:" w)
  | Some _ =>
      let e := verify_email request in
      let code := verify_code request in
      if (js_not e || js_not code)%bool then
        (Returned (jsonResponse (JsonError "Email and OTP are required" None)
                     400 None), w)
      else if negb (validateOTP code) then
        (Returned (jsonResponse (JsonError "Invalid OTP format" None) 400
                     None), w)
      else if negb (d1_ok amb CountFailedAttempts) then
        (Returned verify_failed, log_line "Error verifying OTP:" w)
      else if negb (failed_attempts amb e (DB w) <? MAX_OTP_VERIFY_ATTEMPTS)
      then (Returned verify_rate_limited, w)
      else if negb (d1_ok amb SelectOtp) then
        (Returned verify_failed, log_line "Error verifying OTP:" w)
      else
        match select_otp e code (toISOString (clock amb)) (DB w) with
        | None => (Returned invalid_or_expired, w)
        | Some session =>
            let tok := generateSessionToken (random_bytes amb) in
            let exp := toISOString (clock amb + 24 * 60 * 60 * 1000) in
            let db1 := update_session tok exp (id session) (DB w) in
            if negb (d1_ok amb UpdateSession) then
              (Returned verify_failed, log_line "Error verifying OTP:" w)
            else if negb (d1_ok amb DeleteUnused) then
              (Returned verify_failed,
               log_line "Error verifying OTP:" (mkWorld db1 (console w)))
            else
              (Returned (login_successful request tok),
               mkWorld (delete_where (unused_sibling e (id session)) db1)
                 (console w))
        end
  end.
Proof.
  unfold handleVerifyOTP, verify_email, verify_code, checkVerifyRateLimit,
    request_json, failed_attempts, try_catch, d1_first, d1_run,
    console_error, log_line, bind, ret, throw.
  destruct (json request) as [data|]; [|reflexivity]. cbv beta iota zeta.
  destruct (js_not _ || js_not _)%bool; [reflexivity|].
  destruct (validateOTP _); [|reflexivity]. cbn [negb].
  destruct (d1_ok amb CountFailedAttempts); [|reflexivity]. cbn [negb].
  destruct (_ <? MAX_OTP_VERIFY_ATTEMPTS); [|reflexivity]. cbn [negb].
  destruct (d1_ok amb SelectOtp); [|reflexivity]. cbn [negb].
  destruct (select_otp _ _ _ _) as [session|]; [|reflexivity].
  destruct (d1_ok amb UpdateSession); [|reflexivity]. cbn [negb DB console].
  destruct (d1_ok amb DeleteUnused); reflexivity.
Qed.

Section HandlerPaths.

Variable isEmail : string -> bool.

Lemma handleSendOTP_eq amb request w :
  handleSendOTP isEmail amb request w =
  match json request with
  | None => (Returned send_failed, log_line "Error sending OTP:" w)
  | Some _ =>
      let e := send_otp_email request in
      if (js_not e || negb (isEmail e))%bool then
        (Returned (jsonResponse
                     (JsonError "Please provide a valid email address" None)
                     400 None), w)
      else if negb (endsWith e "@cloudflare.com") then
        (Returned (jsonResponse
                     (JsonError
                        "Only @cloudflare.com email addresses are allowed"
                        None) 403 None), w)
      else if negb (d1_ok amb CountOtpRequests) then
        (Returned send_failed, log_line "Error sending OTP:" w)
      else if negb (otp_requests amb e (DB w) <? MAX_OTP_REQUESTS_PER_HOUR)
      then (Returned send_rate_limited, w)
      else if negb (d1_ok amb InsertOtp) then
        (Returned send_failed, log_line "Error sending OTP:" w)
      else
        let db1 :=
          mkD1 (admin_sessions (DB w)
                ++ [new_otp_row amb e (next_rowid (DB w))])
            (next_rowid (DB w)) in
        (Returned otp_sent,
         mkWorld db1
           match resend amb with
           | FetchOk => console w
           | FetchNotOk => console w ++ ["Failed to send OTP email to " ++ e]
           | FetchRejected =>
               (console w ++ ["Failed to send email:"])
               ++ ["Failed to send OTP email to " ++ e]
           end)
  end.
Proof.
  unfold handleSendOTP, send_otp_email, validateEmail, checkOTPRateLimit,
    request_json, otp_requests, sendEmail, try_catch, d1_first, d1_run,
    console_error, log_line, insert_otp, new_otp_row, bind, ret, throw.
  destruct (json request) as [data|]; [|reflexivity]. cbv beta iota zeta.
  destruct (js_not _ || negb _)%bool; [reflexivity|].
  destruct (endsWith _ _); [|reflexivity]. cbn [negb].
  destruct (d1_ok amb CountOtpRequests); [|reflexivity]. cbn [negb allowed].
  destruct (_ <? MAX_OTP_REQUESTS_PER_HOUR); [|reflexivity]. cbn [negb].
  destruct (d1_ok amb InsertOtp); [|reflexivity]. cbn [negb DB console].
  destruct (resend amb); reflexivity.
Qed.

End HandlerPaths.

Lemma validateAdminSession_eq amb sessionToken w :
  validateAdminSession amb sessionToken w =
  match sessionToken with
  | None => (Returned false, w)
  | Some token =>
      if js_not token then (Returned false, w)
      else if d1_ok amb SelectSession then
        (Returned (existsb (session_matches token (toISOString (clock amb)))
                     (admin_sessions (DB w))), w)
      else (Thrown "D1_ERROR", w)
  end.
Proof.
  unfold validateAdminSession, bind, d1_first, ret.
  destruct sessionToken as [token|]; [|reflexivity].
  destruct (js_not token); [reflexivity|].
  destruct (d1_ok amb SelectSession); [|reflexivity].
  f_equal. f_equal.
  induction (admin_sessions (DB w)) as [|r rows IH]; simpl; [reflexivity|].
  destruct (session_matches _ _ r); simpl; [reflexivity | exact IH].
Qed.

Lemma handleLogout_eq amb request w :
  handleLogout amb request w =
  match getSessionToken request with
  | None => (Returned (logged_out request), w)
  | Some token =>
      if js_not token then (Returned (logged_out request), w)
      else if d1_ok amb DeleteSession then
        (Returned (logged_out request),
         mkWorld (delete_where (fun r => sql_eq (session_token r) token)
                    (DB w)) (console w))
      else (Thrown "D1_ERROR", w)
  end.
Proof.
  unfold handleLogout, bind, d1_run, ret.
  destruct (getSessionToken request) as [token|]; [|reflexivity].
  destruct (js_not token); [reflexivity|].
  destruct (d1_ok amb DeleteSession); reflexivity.
Qed.

(* ================================================================== *)
(** * Lemmas: the statements on the table *)
(* ================================================================== *)

Lemma order_by_created_at_desc_first_None rows :
  order_by_created_at_desc_first rows = None -> rows = [].
Proof.
  destruct rows as [|r rows]; simpl; [reflexivity|].
  destruct (order_by_created_at_desc_first rows) as [r'|]; [|discriminate].
  destruct (text_lt _ _); discriminate.
Qed.

Lemma order_by_created_at_desc_first_Some rows r :
  order_by_created_at_desc_first rows = Some r ->
  In r rows
  /\ forall r', In r' rows -> text_lt (created_at r) (created_at r') = false.
Proof.
  revert r. induction rows as [|x rows IH]; intros r; simpl; [discriminate|].
  destruct (order_by_created_at_desc_first rows) as [best|] eqn:E.
  - destruct (IH best eq_refl) as [Hin Hmax].
    destruct (text_lt (created_at x) (created_at best)) eqn:L;
      intros [= <-].
    + split; [now right|]. intros r' [<-|Hr']; [|now apply Hmax].
      now apply text_lt_asym.
    + split; [now left|]. intros r' [<-|Hr']; [apply text_lt_irrefl|].
      apply text_not_lt_trans with (created_at best); [exact L|].
      now apply Hmax.
  - intros [= <-]. apply order_by_created_at_desc_first_None in E. subst rows.
    split; [now left|]. intros r' [<-|[]]. apply text_lt_irrefl.
Qed.

Lemma otp_matches_spec e code now r :
  otp_matches e code now r = true <->
  email r = e /\ otp r = code /\ text_gt (otp_expires_at r) now = true
  /\ session_token r = None.
Proof.
  unfold otp_matches. rewrite !andb_true_iff, !String.eqb_eq.
  destruct (session_token r); simpl; intuition congruence.
Qed.

Lemma select_otp_None e code now db :
  select_otp e code now db = None <->
  forall r, In r (admin_sessions db) -> otp_matches e code now r = false.
Proof.
  unfold select_otp. split.
  - intros H r Hr. apply order_by_created_at_desc_first_None in H.
    destruct (otp_matches e code now r) eqn:M; [|reflexivity].
    assert (In r (filter (otp_matches e code now) (admin_sessions db)))
      by (apply filter_In; auto).
    rewrite H in *. contradiction.
  - intros H.
    replace (filter (otp_matches e code now) (admin_sessions db)) with
      (@nil AdminSession); [reflexivity|].
    symmetry. induction (admin_sessions db) as [|x rows IH]; simpl;
      [reflexivity|].
    rewrite (H x) by now left. apply IH. intros r Hr. apply H. now right.
Qed.

Lemma select_otp_Some e code now db r :
  select_otp e code now db = Some r ->
  In r (admin_sessions db) /\ otp_matches e code now r = true
  /\ forall r', In r' (admin_sessions db) -> otp_matches e code now r' = true ->
                text_lt (created_at r) (created_at r') = false.
Proof.
  unfold select_otp. intros H.
  apply order_by_created_at_desc_first_Some in H. destruct H as [Hin Hmax].
  apply filter_In in Hin. destruct Hin as [Hin M].
  repeat split; auto.
  intros r' Hr' M'. apply Hmax. apply filter_In. auto.
Qed.

Lemma unused_sibling_consume e rowid tok exp r :
  unused_sibling e rowid (consume tok exp r) = false.
Proof.
  unfold unused_sibling, consume; simpl. now rewrite andb_false_r.
Qed.

(** The UPDATE followed by the clean-up DELETE, row by row. *)
Lemma verified_rows e tok exp rowid db :
  admin_sessions
    (delete_where (unused_sibling e rowid) (update_session tok exp rowid db))
  = flat_map (after_verification e tok exp rowid) (admin_sessions db).
Proof.
  unfold delete_where, update_session. cbn [admin_sessions].
  induction (admin_sessions db) as [|r rows IH]; [reflexivity|].
  cbn [map filter flat_map]. rewrite IH.
  generalize (flat_map (after_verification e tok exp rowid) rows) as rest.
  intros rest. unfold after_verification.
  destruct (id r =? rowid) eqn:E.
  - now rewrite unused_sibling_consume.
  - unfold unused_sibling. rewrite E. cbn [negb]. rewrite andb_true_r.
    destruct (String.eqb (email r) e && is_null (session_token r))%bool;
      reflexivity.
Qed.

Lemma count_where_zero p db :
  (forall r, In r (admin_sessions db) -> p r = false) -> count_where p db = 0.
Proof.
  intros H. unfold count_where.
  induction (admin_sessions db) as [|r rows IH]; simpl; [reflexivity|].
  rewrite (H r) by now left. apply IH. intros x Hx. apply H. now right.
Qed.

Lemma clock_ok_four_digit_year t d :
  clock_ok t -> -3600000 <= d <= 86400000 -> four_digit_year (t + d).
Proof. unfold clock_ok, four_digit_year. lia. Qed.

(** No row written by [handleSendOTP] is ever a failed attempt for
    [checkVerifyRateLimit]: the row would have to be stamped on a later day
    than the window start and to expire on an earlier day than now. *)
Lemma failed_attempt_issued e now r :
  issued_row r -> clock_ok now ->
  failed_attempt_in_window e (toISOString (now - 15 * 60 * 1000))
    (sqlite_datetime now) r = false.
Proof.
  intros (t & Ht & Hc & Hx) Hnow. unfold failed_attempt_in_window.
  rewrite Hc, Hx.
  assert (F0 : four_digit_year t)
    by (replace t with (t + 0) by lia; apply clock_ok_four_digit_year;
        [assumption | lia]).
  assert (F1 : four_digit_year (now - 15 * 60 * 1000))
    by (apply (clock_ok_four_digit_year now (- (15 * 60 * 1000)));
        [assumption | lia]).
  assert (F2 : four_digit_year (t + 10 * 60 * 1000))
    by (apply clock_ok_four_digit_year; [assumption | lia]).
  assert (F3 : four_digit_year now)
    by (replace now with (now + 0) by lia; apply clock_ok_four_digit_year;
        [assumption | lia]).
  rewrite text_gt_sqlite_iso, text_lt_iso_sqlite by assumption.
  destruct (Z.ltb_spec ((now - 15 * 60 * 1000) / MS_PER_DAY) (t / MS_PER_DAY));
    [|now rewrite andb_false_r].
  destruct (Z.ltb_spec ((t + 10 * 60 * 1000) / MS_PER_DAY) (now / MS_PER_DAY));
    [|now rewrite andb_false_r].
  exfalso. unfold MS_PER_DAY in *. quotients. lia.
Qed.

Lemma failed_attempts_issued amb e db :
  clock_ok (clock amb) ->
  (forall r, In r (admin_sessions db) -> email r = e ->
             session_token r = None -> issued_row r) ->
  failed_attempts amb e db = 0.
Proof.
  intros Hc H. apply count_where_zero. intros r Hr.
  destruct (String.eqb_spec (email r) e) as [He|He].
  - destruct (session_token r) eqn:Ht.
    + unfold failed_attempt_in_window. rewrite Ht. cbn [is_null].
      now rewrite andb_false_r.
    + apply failed_attempt_issued; [now apply H | exact Hc].
  - unfold failed_attempt_in_window.
    destruct (String.eqb_spec (email r) e); [contradiction|reflexivity].
Qed.

(* ================================================================== *)
(** * Lemmas: what histories preserve *)
(* ================================================================== *)

Lemma next_rowid_gt db : sqlite_sequence db < next_rowid db.
Proof.
  unfold next_rowid.
  induction (map id (admin_sessions db)) as [|x l IH]; cbn [fold_right]; lia.
Qed.

Lemma table_step_sequence amb c db db' :
  table_step amb c db db' -> sqlite_sequence db <= sqlite_sequence db'.
Proof.
  intros []; simpl; try lia. pose proof (next_rowid_gt db). lia.
Qed.

(** A property of rows that consumption keeps and that the inserted row
    has is kept by every operation. *)
Lemma table_step_rows (R : AdminSession -> Prop) amb c db db' :
  table_step amb c db db' ->
  (forall tok exp r, R r -> R (consume tok exp r)) ->
  (forall request, c = SendOTP request ->
                   R (new_otp_row amb (send_otp_email request)
                        (next_rowid db))) ->
  Forall R (admin_sessions db) -> Forall R (admin_sessions db').
Proof.
  intros Hstep Hconsume Hnew Hall.
  assert (U : forall tok exp rowid,
             Forall R (admin_sessions (update_session tok exp rowid db))).
  { intros tok exp rowid. unfold update_session; cbn [admin_sessions].
    apply Forall_map. revert Hall. apply Forall_impl. intros r Hr.
    destruct (id r =? rowid); auto. }
  assert (D : forall p d, Forall R (admin_sessions d) ->
                          Forall R (admin_sessions (delete_where p d))).
  { intros p d. unfold delete_where; cbn [admin_sessions].
    apply incl_Forall, incl_filter. }
  destruct Hstep; auto.
  cbn [admin_sessions]. apply Forall_app. split; [assumption|].
  constructor; [|constructor]. now apply Hnew.
Qed.

Lemma NoDup_map_id_eq (rows : list AdminSession) a b :
  NoDup (map id rows) -> In a rows -> In b rows -> id a = id b -> a = b.
Proof.
  induction rows as [|x rows IH]; intros N Ha Hb E; [contradiction|].
  cbn [map] in N. inversion N as [|? ? Hx Hrest]; subst.
  destruct Ha as [->|Ha], Hb as [->|Hb]; auto.
  - exfalso. apply Hx. rewrite E. now apply in_map.
  - exfalso. apply Hx. rewrite <- E. now apply in_map.
Qed.

(** A row that carries a session token is never written again: every
    operation leaves it as it is or deletes it, and its rowid is never
    handed out again. *)
Lemma table_step_kept amb c db db' r0 :
  table_step amb c db db' ->
  session_token r0 <> None ->
  id r0 <= sqlite_sequence db -> kept_as_is r0 db ->
  id r0 <= sqlite_sequence db' /\ kept_as_is r0 db'.
Proof.
  intros Hstep Htok Hseq Hkept.
  assert (U : forall tok exp session,
             In session (admin_sessions db) -> session_token session = None ->
             kept_as_is r0 (update_session tok exp (id session) db)).
  { intros tok exp session Hin Hnone x Hx E.
    unfold update_session in Hx; cbn [admin_sessions] in Hx.
    apply in_map_iff in Hx. destruct Hx as (y & <- & Hy).
    destruct (Z.eqb_spec (id y) (id session)) as [Ey|Ey].
    - exfalso. cbn [consume id] in E.
      assert (session = r0) by (apply Hkept; [exact Hin | congruence]).
      subst session. contradiction.
    - now apply Hkept. }
  assert (D : forall p d, kept_as_is r0 d -> kept_as_is r0 (delete_where p d)).
  { intros p d K x Hx. unfold delete_where in Hx; cbn [admin_sessions] in Hx.
    apply filter_In in Hx. now apply K. }
  split; [pose proof (table_step_sequence _ _ _ _ Hstep); lia|].
  destruct Hstep; auto.
  intros x Hx E. cbn [admin_sessions] in Hx. apply in_app_or in Hx.
  destruct Hx as [Hx|[<-|[]]]; [now apply Hkept|].
  cbn [new_otp_row id] in E. pose proof (next_rowid_gt db). lia.
Qed.

Lemma issued_row_consume tok exp r :
  issued_row r -> issued_row (consume tok exp r).
Proof. intros (t & ? & ? & ?). exists t. auto. Qed.

Lemma issued_row_new amb e rowid :
  clock_ok (clock amb) -> issued_row (new_otp_row amb e rowid).
Proof. intros H. exists (clock amb). auto. Qed.

Section Histories.

Variable isEmail : string -> bool.

Lemma handleCheckAuth_world amb request w :
  snd (handleCheckAuth amb request w) = w.
Proof.
  unfold handleCheckAuth, bind. rewrite validateAdminSession_eq.
  destruct (getSessionToken request) as [token|]; [|reflexivity].
  destruct (js_not token); [reflexivity|].
  destruct (d1_ok amb SelectSession); [|reflexivity].
  destruct (existsb _ _); reflexivity.
Qed.

(** Every operation changes the table in one of the ways of
    [table_step]. *)
Lemma serve_table_step amb c w :
  table_step amb c (DB w) (DB (serve isEmail amb c w)).
Proof.
  destruct c as [request|request|request|request|]; unfold serve.
  - rewrite handleSendOTP_eq.
    destruct (json request); [|apply step_none]. cbv zeta.
    repeat match goal with
           | |- context [if ?b then _ else _] => destruct b
           end; try apply step_none.
    cbn [snd DB]. now eapply step_insert.
  - rewrite handleVerifyOTP_eq.
    destruct (json request); [|apply step_none]. cbv zeta.
    destruct (select_otp (verify_email request) (verify_code request)
                (toISOString (clock amb)) (DB w)) as [session|] eqn:S.
    + apply select_otp_Some in S. destruct S as (Hin & Hm & _).
      apply otp_matches_spec in Hm. destruct Hm as (_ & _ & _ & Ht).
      repeat match goal with
             | |- context [if ?b then _ else _] => destruct b
             end;
        cbn [snd DB log_line];
        first [apply step_none | now apply step_consume
               | now apply step_consume_cleanup].
    + repeat match goal with
             | |- context [if ?b then _ else _] => destruct b
             end; apply step_none.
  - rewrite handleCheckAuth_world. apply step_none.
  - rewrite handleLogout_eq.
    destruct (getSessionToken request) as [token|]; [|apply step_none].
    destruct (js_not token); [apply step_none|].
    destruct (d1_ok amb DeleteSession); [|apply step_none].
    cbn [snd DB]. apply step_delete.
  - unfold cleanupExpiredData, bind, d1_run.
    destruct (d1_ok amb DeleteExpiredRequests); [|apply step_none].
    cbn [DB console].
    destruct (d1_ok amb DeleteExpiredSessions); cbn [snd DB];
      [apply step_delete | apply step_none].
Qed.

(** Every row of a table that only the handlers wrote is a row of
    [handleSendOTP], consumed or not. *)
Lemma run_issued history w :
  clocks_ok history ->
  Forall issued_row (admin_sessions (DB w)) ->
  Forall issued_row (admin_sessions (DB (run isEmail history w))).
Proof.
  revert w. induction history as [|[amb c] history IH]; intros w Hc Hw;
    [exact Hw|].
  inversion Hc as [|? ? Hamb Hrest]; subst. cbn [run]. apply IH; [exact Hrest|].
  eapply table_step_rows; [apply serve_table_step | | | exact Hw].
  - intros. now apply issued_row_consume.
  - intros. now apply issued_row_new.
Qed.

(** Through every history a row that carries a session token stays as it
    is until it is deleted. *)
Lemma run_kept history w r0 :
  session_token r0 <> None ->
  id r0 <= sqlite_sequence (DB w) -> kept_as_is r0 (DB w) ->
  kept_as_is r0 (DB (run isEmail history w)).
Proof.
  intros Htok. revert w.
  induction history as [|[amb c] history IH]; intros w Hs Hk; [exact Hk|].
  cbn [run].
  destruct (table_step_kept amb c (DB w) (DB (serve isEmail amb c w)) r0
              (serve_table_step amb c w) Htok Hs Hk) as [Hs' Hk'].
  now apply IH.
Qed.

End Histories.

(* ================================================================== *)
(** * utils/crypto.ts: the codes of [generateOTP] *)
(* ================================================================== *)

Lemma pad_inj k x y :
  0 <= x < 10 ^ Z.of_nat k -> 0 <= y < 10 ^ Z.of_nat k ->
  pad k x = pad k y -> x = y.
Proof.
  intros Hx Hy E. apply Z.compare_eq. rewrite <- (pad_compare k) by assumption.
  rewrite E. apply compare_refl.
Qed.

(** [String(n)] has exactly as many digits as [n] needs. *)
Lemma decimal_pad k fuel n :
  (k < fuel)%nat -> 10 ^ Z.of_nat k <= n < 10 ^ Z.of_nat (S k) ->
  decimal fuel n = pad (S k) n.
Proof.
  revert fuel n. induction k as [|k IH]; intros fuel n Hf Hn.
  - destruct fuel as [|fuel]; [lia|]. cbn [decimal pad].
    change (10 ^ Z.of_nat 0) with 1 in Hn. change (10 ^ Z.of_nat 1) with 10 in Hn.
    destruct (Z.ltb_spec n 10); [reflexivity | lia].
  - destruct fuel as [|fuel]; [lia|].
    rewrite !Nat2Z.inj_succ, !Z.pow_succ_r in Hn by lia.
    rewrite Nat2Z.inj_succ in IH.
    assert (P : 0 < 10 ^ Z.of_nat k) by (apply Z.pow_pos_nonneg; lia).
    cbn [decimal]. destruct (Z.ltb_spec n 10); [lia|].
    rewrite (IH fuel (n / 10)); [reflexivity | lia |].
    rewrite Z.pow_succ_r by lia.
    split; [apply Z.div_le_lower_bound; lia | apply Z.div_lt_upper_bound; lia].
Qed.

Lemma otp_number_range array0 : 100000 <= otp_number array0 <= 999999.
Proof.
  unfold otp_number.
  pose proof (Z.mod_pos_bound (Uint32 array0) 900000 ltac:(lia)). lia.
Qed.

Lemma generateOTP_pad array0 : generateOTP array0 = pad 6 (otp_number array0).
Proof.
  unfold generateOTP. fold (otp_number array0).
  pose proof (otp_number_range array0) as R.
  unfold Number_toString.
  rewrite (decimal_pad 5) by (simpl Z.of_nat; lia).
  unfold padStart. now rewrite length_pad.
Qed.

Lemma all_digits_pad k x : all_chars is_digit (pad k x) = true.
Proof.
  revert x. induction k as [|k IH]; intros x; [reflexivity|]. cbn [pad].
  assert (A : forall a b, all_chars is_digit (a ++ b)
                          = (all_chars is_digit a && all_chars is_digit b)%bool).
  { intros a b. induction a as [|c a IHa]; simpl; [reflexivity|].
    now rewrite IHa, andb_assoc. }
  rewrite A, IH. cbn [all_chars andb].
  unfold is_digit, digit.
  pose proof (Z.mod_pos_bound x 10 ltac:(lia)).
  rewrite N_ascii_embedding by lia.
  rewrite andb_true_r. apply andb_true_intro. split; apply N.leb_le; lia.
Qed.

Lemma validateOTP_pad x : validateOTP (pad 6 x) = true.
Proof.
  unfold validateOTP, isNumeric_no_symbols, isLength.
  rewrite all_digits_pad, length_pad.
  destruct (String.eqb_spec (pad 6 x) "") as [E|E]; [|reflexivity].
  apply (f_equal String.length) in E. rewrite length_pad in E. discriminate.
Qed.

(** The cells of one code number: a residue modulo 900000 and a number of
    full turns that keeps the cell below 2^32 = 4772 * 900000 + 167296. *)
Lemma otp_preimages_spec c cell :
  100000 <= c <= 999999 -> 0 <= cell < 2 ^ 32 ->
  (otp_number cell = c <-> In cell (otp_preimages c)).
Proof.
  intros Hc Hcell. unfold otp_number, Uint32, otp_preimages, otp_multiplicity.
  rewrite (Z.mod_small cell) by assumption.
  change (2 ^ 32) with 4294967296 in Hcell.
  rewrite in_map_iff. split.
  - intros E. exists (Z.to_nat (cell / 900000)).
    pose proof (Z.div_mod cell 900000 ltac:(lia)).
    pose proof (Z.mod_pos_bound cell 900000 ltac:(lia)).
    assert (0 <= cell / 900000) by (apply Z.div_pos; lia).
    split; [rewrite Z2Nat.id by assumption; lia|].
    apply in_seq.
    destruct (Z.ltb_spec (c - 100000) 167296); lia.
  - intros (k & E & Hk). apply in_seq in Hk. subst cell.
    rewrite Z.add_comm, Z.mul_comm, Z.mod_add by lia.
    rewrite Z.mod_small by lia. lia.
Qed.

Lemma NoDup_map_injective {A B : Type} (f : A -> B) (l : list A) :
  (forall a b, f a = f b -> a = b) -> NoDup l -> NoDup (map f l).
Proof.
  intros Hf. induction 1 as [|x l Hx Hl IH]; simpl; constructor; [|exact IH].
  rewrite in_map_iff. intros (y & E & Hy). apply Hf in E. now subst y.
Qed.

Lemma otp_preimages_NoDup c : NoDup (otp_preimages c).
Proof.
  unfold otp_preimages. apply NoDup_map_injective; [|apply seq_NoDup].
  intros a b E. lia.
Qed.

Lemma otp_preimages_length c :
  List.length (otp_preimages c) = otp_multiplicity c.
Proof. unfold otp_preimages. now rewrite length_map, length_seq. Qed.

(** C2 (as amended).  [generateOTP] always returns six decimal digits, but
    they read as [100000 + array[0] mod 900000]: every code from 100000 to
    999999 is possible, no code below 100000 is, and the 2^32 cells are
    spread nearly evenly, 4773 cells for each of the 167296 lowest codes and
    4772 for each other one. *)
Theorem generateOTP_codes :
  (forall array0,
      generateOTP array0 = pad 6 (otp_number array0)
      /\ 100000 <= otp_number array0 <= 999999
      /\ validateOTP (generateOTP array0) = true)
  /\ (forall c,
         100000 <= c <= 999999 ->
         (exists cell, 0 <= cell < 2 ^ 32 /\ generateOTP cell = pad 6 c)
         /\ (forall cell, 0 <= cell < 2 ^ 32 ->
                          (generateOTP cell = pad 6 c
                           <-> In cell (otp_preimages c)))
         /\ NoDup (otp_preimages c)
         /\ List.length (otp_preimages c)
            = (if c <? 267296 then 4773%nat else 4772%nat))
  /\ (forall c array0, 0 <= c < 100000 -> generateOTP array0 <> pad 6 c).
Proof.
  split; [|split].
  - intros array0. rewrite generateOTP_pad.
    repeat split; try apply otp_number_range. apply validateOTP_pad.
  - intros c Hc.
    assert (S : forall cell, 0 <= cell < 2 ^ 32 ->
                (generateOTP cell = pad 6 c <-> In cell (otp_preimages c))).
    { intros cell Hcell. rewrite generateOTP_pad.
      rewrite <- otp_preimages_spec by assumption.
      pose proof (otp_number_range cell).
      split; [|now intros ->].
      apply pad_inj; simpl; lia. }
    repeat split.
    + exists (c - 100000).
      assert (R : 0 <= c - 100000 < 2 ^ 32)
        by (change (2 ^ 32) with 4294967296; lia).
      split; [exact R|]. apply S; [exact R|].
      apply otp_preimages_spec; [assumption | exact R |].
      unfold otp_number, Uint32. change (2 ^ 32) with 4294967296 in *.
      rewrite (Z.mod_small (c - 100000) 4294967296) by lia.
      rewrite Z.mod_small by lia. lia.
    + apply S; assumption.
    + apply S; assumption.
    + apply otp_preimages_NoDup.
    + rewrite otp_preimages_length. unfold otp_multiplicity.
      destruct (Z.ltb_spec (c - 100000) 167296), (Z.ltb_spec c 267296);
        try reflexivity; lia.
  - intros c array0 Hc. rewrite generateOTP_pad.
    pose proof (otp_number_range array0).
    intros E. apply pad_inj in E; simpl; lia.
Qed.

(** C2, as stated, fails: no random cell yields the code 000000, and the
    cells are not spread evenly (code 100000 has 4773, code 999999 has
    4772). *)
Lemma generateOTP_misses_000000 :
  (forall array0, generateOTP array0 <> "000000")
  /\ List.length (otp_preimages 100000) <> List.length (otp_preimages 999999).
Proof.
  split.
  - intros array0. rewrite generateOTP_pad.
    pose proof (otp_number_range array0).
    change "000000" with (pad 6 0).
    intros E. apply pad_inj in E; simpl; lia.
  - rewrite !otp_preimages_length. vm_compute. discriminate.
Qed.

Lemma generateOTP_codes_witness :
  exists cell, 0 <= cell < 2 ^ 32 /\ generateOTP cell = "123456".
Proof.
  destruct generateOTP_codes as (_ & H & _).
  destruct (H 123456 ltac:(lia)) as (W & _).
  exact W.
Defined.

(* ================================================================== *)
(** * utils/session.ts: session validation *)
(* ================================================================== *)

Lemma existsb_session_matches token now rows :
  existsb (session_matches token now) rows = true <->
  exists r, In r rows /\ session_token r = Some token
            /\ exists x, session_expires_at r = Some x
                         /\ text_gt x now = true.
Proof.
  rewrite existsb_exists. unfold session_matches, sql_eq, sql_gt.
  split; intros (r & Hr & H); exists r; (split; [exact Hr|]).
  - apply andb_prop in H. destruct H as [H1 H2].
    destruct (session_token r) as [t|]; [|discriminate].
    apply String.eqb_eq in H1. subst t. split; [reflexivity|].
    destruct (session_expires_at r) as [x|]; [|discriminate].
    now exists x.
  - destruct H as (-> & x & -> & H). now rewrite String.eqb_refl.
Qed.

(** C5.  [validateAdminSession] answers [false] for an absent or empty
    token without executing a statement (the answer is the same when every
    statement would fail); for a non-empty token it answers [true] exactly
    when some row carries that token and an expiry that compares after
    the current time, which for ISO renderings is the order of the clock
    readings; neither the validation nor [handleCheckAuth] changes the
    world, and through every history of operations a row that carries a
    session token stays as it was written at verification until it is
    deleted: no use of a session moves its expiry. *)
Theorem validateAdminSession_read_only
  (isEmail : string -> bool) amb sessionToken w :
  ((sessionToken = None \/ sessionToken = Some "") ->
   validateAdminSession amb sessionToken w = (Returned false, w))
  /\ (forall token,
         sessionToken = Some token -> token <> "" ->
         d1_ok amb SelectSession = true ->
         exists b,
           validateAdminSession amb sessionToken w = (Returned b, w)
           /\ (b = true <->
               exists r, In r (admin_sessions (DB w))
                         /\ session_token r = Some token
                         /\ exists x, session_expires_at r = Some x
                                      /\ text_gt x (toISOString (clock amb))
                                         = true))
  /\ (forall t,
         four_digit_year t -> four_digit_year (clock amb) ->
         (text_gt (toISOString t) (toISOString (clock amb)) = true
          <-> clock amb < t))
  /\ snd (validateAdminSession amb sessionToken w) = w
  /\ (forall request, snd (handleCheckAuth amb request w) = w)
  /\ (forall history r0,
         well_keyed (DB w) ->
         In r0 (admin_sessions (DB w)) -> session_token r0 <> None ->
         kept_as_is r0 (DB (run isEmail history w))).
Proof.
  rewrite validateAdminSession_eq. repeat split.
  - intros [->| ->]; reflexivity.
  - intros token -> Hne Hok.
    unfold js_not. destruct (String.eqb_spec token "") as [E|_];
      [contradiction|].
    rewrite Hok. eexists. split; [reflexivity|].
    apply existsb_session_matches.
  - rewrite text_gt_toISOString by assumption. apply Z.ltb_lt.
  - rewrite text_gt_toISOString by assumption. apply Z.ltb_lt.
  - destruct sessionToken as [token|]; [|reflexivity].
    destruct (js_not token); [reflexivity|].
    destruct (d1_ok amb SelectSession); reflexivity.
  - intros request. apply handleCheckAuth_world.
  - intros history r0 [Hnodup Hkeys] Hin Htok.
    apply run_kept; [exact Htok | now apply Hkeys |].
    intros x Hx E. now apply (NoDup_map_id_eq (admin_sessions (DB w))).
Qed.

Lemma validateAdminSession_read_only_witness :
  exists b,
    validateAdminSession (ambient_at (noon + minutes 2) 0) (Some zero_token)
      logged_in_world = (Returned b, logged_in_world)
    /\ (b = true <->
        exists r, In r (admin_sessions (DB logged_in_world))
                  /\ session_token r = Some zero_token
                  /\ exists x, session_expires_at r = Some x
                               /\ text_gt x
                                    (toISOString
                                       (clock (ambient_at (noon + minutes 2) 0)))
                                  = true).
Proof.
  destruct (validateAdminSession_read_only isEmail_example
              (ambient_at (noon + minutes 2) 0) (Some zero_token)
              logged_in_world) as (_ & H & _).
  apply (H zero_token); [reflexivity | discriminate | reflexivity].
Defined.

(* ================================================================== *)
(** * handlers/admin.ts: logout *)
(* ================================================================== *)

Lemma filter_filter_same {A : Type} (p : A -> bool) (l : list A) :
  filter p (filter p l) = filter p l.
Proof.
  induction l as [|x l IH]; simpl; [reflexivity|].
  destruct (p x) eqn:E; simpl; [rewrite E; f_equal|]; exact IH.
Qed.

Lemma delete_where_twice p db :
  delete_where p (delete_where p db) = delete_where p db.
Proof.
  unfold delete_where; cbn [admin_sessions sqlite_sequence].
  now rewrite filter_filter_same.
Qed.

Lemma match_admin_session_nonempty cookie token :
  match_admin_session cookie = Some token -> token <> "".
Proof.
  induction cookie as [|c cookie IH].
  - cbn. discriminate.
  - cbn [match_admin_session].
    destruct (strip_prefix "admin_session=" (String c cookie)) as [rest|];
      [|exact IH].
    destruct (until_semicolon rest) as [|a v]; [exact IH|].
    intros [= <-]. discriminate.
Qed.

Lemma getSessionToken_nonempty {Body : Type} (request : Request Body) token :
  getSessionToken request = Some token -> js_not token = false.
Proof.
  unfold getSessionToken, js_not.
  destruct (Cookie request) as [cookie|]; [|discriminate].
  destruct (String.eqb cookie ""); [discriminate|].
  intros H. apply match_admin_session_nonempty in H.
  now apply String.eqb_neq.
Qed.

(** C9.  Whatever the table holds, [handleLogout] answers success (200,
    the cookie cleared) once its DELETE has run: with a token in the cookie
    the rows carrying that token are gone and every other row is kept,
    without one the world is untouched; a second logout with the same
    cookie answers the same and changes nothing more; and the token no
    longer validates, at any later clock reading. *)
Theorem handleLogout_idempotent amb1 amb2 amb3 request w :
  d1_ok amb1 DeleteSession = true ->
  d1_ok amb2 DeleteSession = true ->
  d1_ok amb3 SelectSession = true ->
  exists w1,
    handleLogout amb1 request w = (Returned (logged_out request), w1)
    /\ status (logged_out request) = 200
    /\ (forall token,
           getSessionToken request = Some token ->
           admin_sessions (DB w1)
           = filter (fun r => negb (sql_eq (session_token r) token))
               (admin_sessions (DB w)))
    /\ (getSessionToken request = None -> w1 = w)
    /\ handleLogout amb2 request w1 = (Returned (logged_out request), w1)
    /\ validateAdminSession amb3 (getSessionToken request) w1
       = (Returned false, w1).
Proof.
  intros H1 H2 H3. rewrite handleLogout_eq, H1.
  destruct (getSessionToken request) as [token|] eqn:T.
  - pose proof (getSessionToken_nonempty request token T) as J. rewrite J.
    eexists. repeat split.
    + intros t [= <-]. reflexivity.
    + discriminate.
    + rewrite handleLogout_eq, T, J, H2. cbn [DB console].
      now rewrite delete_where_twice.
    + rewrite validateAdminSession_eq, J, H3.
      cbn [DB admin_sessions delete_where]. do 2 f_equal.
      induction (admin_sessions (DB w)) as [|r rows IH]; [reflexivity|].
      cbn [filter]. destruct (sql_eq (session_token r) token) eqn:E;
        cbn [negb]; [exact IH|].
      cbn [existsb]. unfold session_matches at 1. rewrite E. exact IH.
  - exists w. repeat split.
    + discriminate.
    + rewrite handleLogout_eq, T. reflexivity.
Qed.

Lemma handleLogout_idempotent_witness :
  exists w1,
    handleLogout (ambient_at (noon + minutes 2) 0)
      (cookie_request ("admin_session=" ++ zero_token)) logged_in_world
    = (Returned (logged_out (cookie_request ("admin_session=" ++ zero_token))),
       w1)
    /\ admin_sessions (DB w1) = []
    /\ validateAdminSession (ambient_at (noon + minutes 3) 0)
         (Some zero_token) w1 = (Returned false, w1).
Proof.
  destruct (handleLogout_idempotent (ambient_at (noon + minutes 2) 0)
              (ambient_at (noon + minutes 2) 0)
              (ambient_at (noon + minutes 3) 0)
              (cookie_request ("admin_session=" ++ zero_token))
              logged_in_world eq_refl eq_refl eq_refl)
    as (w1 & E & _ & R & _ & _ & V).
  exists w1. split; [exact E|]. split; [|exact V].
  rewrite (R zero_token eq_refl). reflexivity.
Defined.

(* ================================================================== *)
(** * handlers/admin.ts: issuing a code *)
(* ================================================================== *)

(** C6.  For an address that passes the validation, the domain check and
    the rate limit, and with the two statements of the handler completing,
    [handleSendOTP] appends one row (the code, an expiry ten minutes after
    the clock reading, no session field) and answers success, whatever
    becomes of the email: when the dispatch fails the row stays, the answer
    stays, and the failure is on the console. *)
Theorem handleSendOTP_dispatch_is_best_effort
  (isEmail : string -> bool) amb request w data :
  json request = Some data ->
  js_not (send_otp_email request) = false ->
  isEmail (send_otp_email request) = true ->
  endsWith (send_otp_email request) "@cloudflare.com" = true ->
  d1_ok amb CountOtpRequests = true ->
  d1_ok amb InsertOtp = true ->
  otp_requests amb (send_otp_email request) (DB w)
  < MAX_OTP_REQUESTS_PER_HOUR ->
  exists w',
    handleSendOTP isEmail amb request w = (Returned otp_sent, w')
    /\ status otp_sent = 200
    /\ admin_sessions (DB w')
       = (admin_sessions (DB w)
          ++ [mkAdminSession (next_rowid (DB w)) (send_otp_email request)
                (generateOTP (random_u32 amb)) None
                (toISOString (clock amb + 10 * 60 * 1000)) None
                (sqlite_datetime (clock amb))])%list
    /\ (resend amb = FetchOk -> console w' = console w)
    /\ (resend amb <> FetchOk ->
        In ("Failed to send OTP email to " ++ send_otp_email request)
          (console w')).
Proof.
  intros Hj He Hv Hd Hc Hi Hr. rewrite handleSendOTP_eq, Hj. cbv zeta.
  rewrite He, Hv, Hd, Hc, Hi. cbn [negb orb].
  apply Z.ltb_lt in Hr. rewrite Hr. cbn [negb].
  eexists. split; [reflexivity|]. repeat split.
  - cbn [console]. now intros ->.
  - cbn [console]. intros Hn. destruct (resend amb); [contradiction| |];
      apply in_or_app; right; now left.
Qed.

Lemma handleSendOTP_dispatch_is_best_effort_witness :
  exists w',
    handleSendOTP isEmail_example
      (mkAmbient noon 7 [] all_statements_ok FetchRejected) send_request
      empty_world = (Returned otp_sent, w')
    /\ List.length (admin_sessions (DB w')) = 1%nat
    /\ In "Failed to send OTP email to admin@cloudflare.com" (console w').
Proof.
  destruct (handleSendOTP_dispatch_is_best_effort isEmail_example
              (mkAmbient noon 7 [] all_statements_ok FetchRejected)
              send_request empty_world
              (mkOTPInput (Some "admin@cloudflare.com"))
              eq_refl eq_refl eq_refl eq_refl eq_refl eq_refl eq_refl)
    as (w' & E & _ & R & _ & L).
  exists w'. split; [exact E|]. split.
  - rewrite R. reflexivity.
  - apply L. discriminate.
Defined.

(** How [checkOTPRateLimit] sees a row stamped by SQLite at clock reading
    [t]: the row counts when it was stamped on a later day than the window
    start, whatever the hour. *)
Lemma otp_request_in_window_by_day e now t r :
  four_digit_year t -> four_digit_year (now - RATE_LIMIT_WINDOW_MS) ->
  created_at r = sqlite_datetime t ->
  otp_request_in_window e (toISOString (now - RATE_LIMIT_WINDOW_MS)) r
  = (String.eqb (email r) e
     && ((now - RATE_LIMIT_WINDOW_MS) / MS_PER_DAY <? t / MS_PER_DAY))%bool.
Proof.
  intros Ht Hn Hc. unfold otp_request_in_window.
  now rewrite Hc, text_gt_sqlite_iso.
Qed.

(** From 01:00 UTC on, when the window start falls on the current day, no
    row stamped up to now counts: the limit of [checkOTPRateLimit] cannot
    be reached. *)
Lemma otp_requests_after_one_am amb e db :
  four_digit_year (clock amb - RATE_LIMIT_WINDOW_MS) ->
  (clock amb - RATE_LIMIT_WINDOW_MS) / MS_PER_DAY = clock amb / MS_PER_DAY ->
  Forall (stamped_by (clock amb)) (admin_sessions db) ->
  otp_requests amb e db = 0.
Proof.
  intros Hw Hday Hrows. apply count_where_zero. intros r Hr.
  rewrite Forall_forall in Hrows. destruct (Hrows r Hr) as (t & Ht & Hle & Hc).
  rewrite (otp_request_in_window_by_day e (clock amb) t r) by assumption.
  rewrite Hday.
  assert (t / MS_PER_DAY <= clock amb / MS_PER_DAY)
    by (apply Z.div_le_mono; [unfold MS_PER_DAY; lia | exact Hle]).
  destruct (Z.ltb_spec (clock amb / MS_PER_DAY) (t / MS_PER_DAY)); [lia|].
  apply andb_false_r.
Qed.

(** C3 at its failing input.  Five OTP requests for one address are served
    between 12:00 and 12:04; at 12:05 the count of [checkOTPRateLimit] is 0,
    and the sixth request is served and stored instead of being answered
    429. *)
Lemma sixth_otp_request_within_the_hour_is_served :
  let amb := ambient_at (noon + minutes 5) 6 in
  let result := handleSendOTP isEmail_example amb send_request
                  five_codes_world in
  map rate_limit_view (admin_sessions (DB five_codes_world))
  = map (fun t => ("admin@cloudflare.com", None, sqlite_datetime t,
                   toISOString (t + minutes 10))) five_times
  /\ Forall (fun t => clock amb - RATE_LIMIT_WINDOW_MS < t <= clock amb)
       five_times
  /\ otp_requests amb "admin@cloudflare.com" (DB five_codes_world) = 0
  /\ fst result = Returned otp_sent
  /\ fst result <> Returned send_rate_limited
  /\ List.length (admin_sessions (DB (snd result))) = 6%nat.
Proof.
  cbv zeta. split; [vm_compute; reflexivity|].
  split; [repeat constructor; vm_compute; congruence|].
  split; [vm_compute; reflexivity|].
  split; [vm_compute; reflexivity|].
  split; [vm_compute; discriminate | vm_compute; reflexivity].
Qed.

(* ================================================================== *)
(** * handlers/admin.ts: verifying a code *)
(* ================================================================== *)

(** The handler past its format checks and its rate limit, with every
    statement completing. *)
Lemma handleVerifyOTP_past_checks amb request w data :
  json request = Some data ->
  js_not (verify_email request) = false ->
  js_not (verify_code request) = false ->
  validateOTP (verify_code request) = true ->
  failed_attempts amb (verify_email request) (DB w)
  < MAX_OTP_VERIFY_ATTEMPTS ->
  d1_ok amb CountFailedAttempts = true ->
  d1_ok amb SelectOtp = true ->
  handleVerifyOTP amb request w =
  match select_otp (verify_email request) (verify_code request)
          (toISOString (clock amb)) (DB w) with
  | None => (Returned invalid_or_expired, w)
  | Some session =>
      let tok := generateSessionToken (random_bytes amb) in
      let exp := toISOString (clock amb + 24 * 60 * 60 * 1000) in
      let db1 := update_session tok exp (id session) (DB w) in
      if negb (d1_ok amb UpdateSession) then
        (Returned verify_failed, log_line "Error verifying OTP:" w)
      else if negb (d1_ok amb DeleteUnused) then
        (Returned verify_failed,
         log_line "Error verifying OTP:" (mkWorld db1 (console w)))
      else
        (Returned (login_successful request tok),
         mkWorld
           (delete_where (unused_sibling (verify_email request) (id session))
              db1) (console w))
  end.
Proof.
  intros Hj He Hc Hv Hr H1 H2. rewrite handleVerifyOTP_eq, Hj. cbv zeta.
  rewrite He, Hc, Hv, H1, H2. cbn [negb orb].
  apply Z.ltb_lt in Hr. rewrite Hr. reflexivity.
Qed.

(** C4.  Past the format checks and the rate limit, and with its
    statements completing, [handleVerifyOTP] succeeds exactly when some row
    has the normalized address, the very code, an expiry that compares
    after the current time and no session token; it then consumes a row
    whose [created_at] no other such row exceeds; when no row qualifies,
    for whatever reason, the answer is the one error 401 Invalid or expired
    OTP and nothing changes.  For ISO expiries the comparison is the order
    of the clock readings, and for SQLite stamps the order of the
    seconds. *)
Theorem handleVerifyOTP_lookup amb request w data :
  json request = Some data ->
  js_not (verify_email request) = false ->
  js_not (verify_code request) = false ->
  validateOTP (verify_code request) = true ->
  failed_attempts amb (verify_email request) (DB w)
  < MAX_OTP_VERIFY_ATTEMPTS ->
  d1_up amb ->
  let e := verify_email request in
  let tok := generateSessionToken (random_bytes amb) in
  let exp := toISOString (clock amb + 24 * 60 * 60 * 1000) in
  let matching := fun r =>
    In r (admin_sessions (DB w))
    /\ email r = e /\ otp r = verify_code request
    /\ text_gt (otp_expires_at r) (toISOString (clock amb)) = true
    /\ session_token r = None in
  exists resp w',
    handleVerifyOTP amb request w = (Returned resp, w')
    /\ (status resp = 200 <-> exists r, matching r)
    /\ ((exists r, matching r) ->
        exists r,
          matching r
          /\ (forall r', matching r' ->
                         text_lt (created_at r) (created_at r') = false)
          /\ resp = login_successful request tok
          /\ admin_sessions (DB w')
             = flat_map (after_verification e tok exp (id r))
                 (admin_sessions (DB w)))
    /\ ((forall r, ~ matching r) -> resp = invalid_or_expired /\ w' = w)
    /\ (forall r t,
           otp_expires_at r = toISOString t ->
           four_digit_year t -> four_digit_year (clock amb) ->
           (text_gt (otp_expires_at r) (toISOString (clock amb)) = true
            <-> clock amb < t))
    /\ (forall t t',
           four_digit_year t -> four_digit_year t' ->
           (text_lt (sqlite_datetime t) (sqlite_datetime t') = false
            <-> t' / 1000 <= t / 1000)).
Proof.
  intros Hj He Hc Hv Hr Hup e tok exp matching. subst e tok exp.
  rewrite (handleVerifyOTP_past_checks amb request w data) by auto.
  rewrite !Hup. cbv zeta. cbn [negb].
  assert (M : forall r, matching r <->
                        In r (admin_sessions (DB w))
                        /\ otp_matches (verify_email request)
                             (verify_code request)
                             (toISOString (clock amb)) r = true).
  { intros r. unfold matching. rewrite otp_matches_spec. tauto. }
  assert (T1 : forall r t,
             otp_expires_at r = toISOString t ->
             four_digit_year t -> four_digit_year (clock amb) ->
             (text_gt (otp_expires_at r) (toISOString (clock amb)) = true
              <-> clock amb < t)).
  { intros r t -> Ht Hn. rewrite text_gt_toISOString by assumption.
    apply Z.ltb_lt. }
  assert (T2 : forall t t',
             four_digit_year t -> four_digit_year t' ->
             (text_lt (sqlite_datetime t) (sqlite_datetime t') = false
              <-> t' / 1000 <= t / 1000)).
  { intros t t' Ht Ht'. rewrite text_lt_sqlite_datetime by assumption.
    rewrite Z.ltb_ge. tauto. }
  destruct (select_otp (verify_email request) (verify_code request)
              (toISOString (clock amb)) (DB w)) as [session|] eqn:S.
  - apply select_otp_Some in S. destruct S as (Hin & Hm & Hmax).
    assert (Hs : matching session) by (apply M; auto).
    do 2 eexists. split; [reflexivity|].
    split; [split; [intros _; now exists session | reflexivity]|].
    split; [|split; [|split; [exact T1 | exact T2]]].
    + intros _. exists session. split; [exact Hs|].
      split; [|split; [reflexivity|]].
      * intros r' Hx. apply M in Hx. now apply Hmax.
      * cbn [DB]. apply verified_rows.
    + intros Hno. exfalso. now apply (Hno session).
  - rewrite select_otp_None in S.
    do 2 eexists. split; [reflexivity|].
    split; [split; [discriminate|]|].
    + intros (r & Hx). apply M in Hx. destruct Hx as [Hx Hm].
      rewrite (S r Hx) in Hm. discriminate.
    + split; [|split; [auto | split; [exact T1 | exact T2]]].
      intros (r & Hx). apply M in Hx. destruct Hx as [Hx Hm].
      rewrite (S r Hx) in Hm. discriminate.
Qed.

Lemma handleVerifyOTP_lookup_witness :
  exists resp w',
    handleVerifyOTP (ambient_at (noon + minutes 9) 0)
      (verify_request "100001") issued_world = (Returned resp, w')
    /\ status resp = 200.
Proof.
  destruct (handleVerifyOTP_lookup (ambient_at (noon + minutes 9) 0)
              (verify_request "100001") issued_world
              (mkVerifyOTPInput (Some "admin@cloudflare.com")
                 (Some "100001"))
              eq_refl eq_refl eq_refl eq_refl eq_refl (fun _ => eq_refl))
    as (resp & w' & E & I & _).
  exists resp, w'. split; [exact E|]. apply I.
  exists issued_row_at_noon.
  split; [left; reflexivity|]. repeat split.
Defined.

(** C7 at its failing input.  The five codes issued between 12:00 and
    12:04 have all expired at 12:14:30, none was consumed, and all were
    issued within the last 15 minutes; the count of [checkVerifyRateLimit]
    is 0 all the same, and a verify-OTP request is answered 401 after the
    lookup instead of 429. *)
Lemma five_expired_codes_do_not_limit_verification :
  let amb := ambient_at (noon + minutes 14 + 30000) 0 in
  let result := handleVerifyOTP amb (verify_request "999999")
                  five_codes_world in
  map rate_limit_view (admin_sessions (DB five_codes_world))
  = map (fun t => ("admin@cloudflare.com", None, sqlite_datetime t,
                   toISOString (t + minutes 10))) five_times
  /\ Forall (fun t => clock amb - minutes 15 < t /\ t + minutes 10 < clock amb)
       five_times
  /\ failed_attempts amb "admin@cloudflare.com" (DB five_codes_world) = 0
  /\ result = (Returned invalid_or_expired, five_codes_world)
  /\ fst result <> Returned verify_rate_limited.
Proof.
  cbv zeta. split; [vm_compute; reflexivity|].
  split; [repeat constructor; vm_compute; congruence|].
  split; [vm_compute; reflexivity|].
  split; [vm_compute; reflexivity | vm_compute; discriminate].
Qed.

Lemma after_verification_cases e tok exp rowid r x :
  In x (after_verification e tok exp rowid r) <->
  (id r = rowid /\ x = consume tok exp r)
  \/ (id r <> rowid /\ ~ (email r = e /\ session_token r = None) /\ x = r).
Proof.
  unfold after_verification.
  destruct (Z.eqb_spec (id r) rowid) as [E|E].
  - simpl. intuition congruence.
  - destruct (String.eqb_spec (email r) e) as [He|He];
      destruct (session_token r) as [t|] eqn:T; simpl;
      intuition congruence.
Qed.

(** C8 (as amended).  When the lookup of [handleVerifyOTP] selects a row
    and the UPDATE completes, the clean-up DELETE removes exactly the other
    rows of the same address that have no session token: the selected row
    stays as consumed, rows of other addresses and rows with a token stay
    as they were, and no other row appears.  When the clean-up statement
    fails, the handler's single try/catch answers 500 Failed to verify OTP;
    the consumption made by the UPDATE stays in the table. *)
Theorem handleVerifyOTP_cleanup amb request w data session :
  json request = Some data ->
  js_not (verify_email request) = false ->
  js_not (verify_code request) = false ->
  validateOTP (verify_code request) = true ->
  failed_attempts amb (verify_email request) (DB w)
  < MAX_OTP_VERIFY_ATTEMPTS ->
  d1_ok amb CountFailedAttempts = true ->
  d1_ok amb SelectOtp = true ->
  d1_ok amb UpdateSession = true ->
  select_otp (verify_email request) (verify_code request)
    (toISOString (clock amb)) (DB w) = Some session ->
  let e := verify_email request in
  let tok := generateSessionToken (random_bytes amb) in
  let exp := toISOString (clock amb + 24 * 60 * 60 * 1000) in
  let rows := admin_sessions (DB w) in
  (d1_ok amb DeleteUnused = true ->
   exists w',
     handleVerifyOTP amb request w
     = (Returned (login_successful request tok), w')
     /\ admin_sessions (DB w')
        = flat_map (after_verification e tok exp (id session)) rows
     /\ (forall r, In r rows -> id r = id session ->
                   In (consume tok exp r) (admin_sessions (DB w')))
     /\ (forall r, In r rows -> id r <> id session ->
                   email r = e -> session_token r = None ->
                   ~ In r (admin_sessions (DB w')))
     /\ (forall r, In r rows -> id r <> id session ->
                   email r <> e \/ session_token r <> None ->
                   In r (admin_sessions (DB w')))
     /\ (forall x, In x (admin_sessions (DB w')) ->
                   In x rows
                   \/ exists r, In r rows /\ id r = id session
                                /\ x = consume tok exp r))
  /\ (d1_ok amb DeleteUnused = false ->
      handleVerifyOTP amb request w
      = (Returned verify_failed,
         log_line "Error verifying OTP:"
           (mkWorld (update_session tok exp (id session) (DB w))
              (console w)))
      /\ status verify_failed = 500).
Proof.
  intros Hj He Hc Hv Hr H1 H2 H3 S e tok exp rows. subst e tok exp rows.
  rewrite (handleVerifyOTP_past_checks amb request w data) by auto.
  rewrite S, H3. cbv zeta. cbn [negb]. split; intros H4; rewrite H4;
    cbn [negb]; [|split; reflexivity].
  eexists. split; [reflexivity|]. cbn [DB]. rewrite verified_rows.
  split; [reflexivity|]. repeat split.
  - intros r Hin Hid. apply in_flat_map. exists r. split; [exact Hin|].
    apply after_verification_cases. now left.
  - intros r Hin Hid Hmail Htok Hx. apply in_flat_map in Hx.
    destruct Hx as (x & Hx & Hr'). apply after_verification_cases in Hr'.
    destruct Hr' as [[_ ->] | (_ & Hn & ->)].
    + discriminate.
    + apply Hn. now split.
  - intros r Hin Hid Hor. apply in_flat_map. exists r. split; [exact Hin|].
    apply after_verification_cases. right. repeat split; auto.
    intros [A B]. destruct Hor; contradiction.
  - intros x Hx. apply in_flat_map in Hx. destruct Hx as (r & Hin & Hr').
    apply after_verification_cases in Hr'.
    destruct Hr' as [[Hid ->] | (_ & _ & ->)]; [right | left; exact Hin].
    now exists r.
Qed.

(** C8, as stated, fails: with the clean-up DELETE failing, a verification
    whose code is right is answered 500, not success; the row is consumed
    all the same. *)
Lemma handleVerifyOTP_cleanup_failure_is_an_error :
  let amb := mkAmbient (noon + minutes 1) 0 [] cleanup_fails FetchOk in
  let result := handleVerifyOTP amb (verify_request "100001") issued_world in
  fst result = Returned verify_failed
  /\ status verify_failed = 500
  /\ map session_token (admin_sessions (DB (snd result))) = [Some zero_token].
Proof. vm_compute. repeat split. Qed.

Lemma handleVerifyOTP_cleanup_witness :
  exists w',
    handleVerifyOTP (ambient_at (noon + minutes 1) 0)
      (verify_request "100001") issued_world
    = (Returned (login_successful (verify_request "100001") zero_token), w')
    /\ In (consume zero_token "2024-01-02T12:01:00.000Z" issued_row_at_noon)
         (admin_sessions (DB w')).
Proof.
  destruct (handleVerifyOTP_cleanup (ambient_at (noon + minutes 1) 0)
              (verify_request "100001") issued_world
              (mkVerifyOTPInput (Some "admin@cloudflare.com")
                 (Some "100001"))
              issued_row_at_noon
              eq_refl eq_refl eq_refl eq_refl eq_refl eq_refl eq_refl eq_refl
              eq_refl) as [H _].
  destruct (H eq_refl) as (w' & E & _ & C & _).
  exists w'. split; [exact E|].
  apply (C issued_row_at_noon); [left|]; reflexivity.
Defined.

(* ================================================================== *)
(** * Histories: wrong codes and spent codes *)
(* ================================================================== *)

Lemma verify_email_json request :
  js_not (verify_email request) = false -> exists data, json request = Some data.
Proof.
  unfold verify_email. destruct (json request) as [data|]; [now exists data|].
  discriminate.
Qed.

(** A verify-OTP request for an address whose unconsumed rows were all
    written by [handleSendOTP] and hold other codes is answered 401 and
    changes nothing. *)
Lemma handleVerifyOTP_wrong_code amb request w :
  clock_ok (clock amb) -> d1_up amb ->
  js_not (verify_email request) = false ->
  validateOTP (verify_code request) = true ->
  (forall r, In r (admin_sessions (DB w)) ->
             email r = verify_email request -> session_token r = None ->
             issued_row r /\ otp r <> verify_code request) ->
  failed_attempts amb (verify_email request) (DB w) = 0
  /\ handleVerifyOTP amb request w = (Returned invalid_or_expired, w).
Proof.
  intros Hc Hup He Hv Hrows.
  assert (F : failed_attempts amb (verify_email request) (DB w) = 0).
  { apply failed_attempts_issued; [exact Hc|].
    intros r Hr E T. now apply Hrows. }
  split; [exact F|].
  destruct (verify_email_json request He) as [data Hj].
  assert (Hcode : js_not (verify_code request) = false).
  { unfold js_not. destruct (String.eqb_spec (verify_code request) "") as [E|E];
      [|reflexivity].
    rewrite E in Hv. discriminate. }
  rewrite (handleVerifyOTP_past_checks amb request w data); auto.
  - replace (select_otp _ _ _ _) with (@None AdminSession); [reflexivity|].
    symmetry. apply select_otp_None. intros r Hr.
    destruct (otp_matches _ _ _ r) eqn:M; [|reflexivity].
    apply otp_matches_spec in M. destruct M as (E & C & _ & T).
    destruct (Hrows r Hr E T) as [_ N]. contradiction.
  - rewrite F. reflexivity.
Qed.

(** What a successful answer of [handleVerifyOTP] tells. *)
Lemma handleVerifyOTP_success amb request w resp w1 :
  handleVerifyOTP amb request w = (Returned resp, w1) ->
  status resp = 200 ->
  exists session,
    js_not (verify_email request) = false
    /\ validateOTP (verify_code request) = true
    /\ select_otp (verify_email request) (verify_code request)
         (toISOString (clock amb)) (DB w) = Some session
    /\ resp = login_successful request
                (generateSessionToken (random_bytes amb))
    /\ DB w1
       = delete_where (unused_sibling (verify_email request) (id session))
           (update_session (generateSessionToken (random_bytes amb))
              (toISOString (clock amb + 24 * 60 * 60 * 1000)) (id session)
              (DB w)).
Proof.
  rewrite handleVerifyOTP_eq.
  destruct (json request) as [data|];
    [|intros [= <- <-]; discriminate]. cbv zeta.
  destruct (js_not (verify_email request)) eqn:He;
    [intros [= <- <-]; discriminate|].
  destruct (js_not (verify_code request)) eqn:Hc;
    [intros [= <- <-]; discriminate|]. cbn [orb].
  destruct (validateOTP (verify_code request)) eqn:Hv;
    [|intros [= <- <-]; discriminate]. cbn [negb].
  destruct (d1_ok amb CountFailedAttempts);
    [|intros [= <- <-]; discriminate]. cbn [negb].
  destruct (_ <? MAX_OTP_VERIFY_ATTEMPTS);
    [|intros [= <- <-]; discriminate]. cbn [negb].
  destruct (d1_ok amb SelectOtp);
    [|intros [= <- <-]; discriminate]. cbn [negb].
  destruct (select_otp _ _ _ _) as [session|] eqn:S;
    [|intros [= <- <-]; discriminate].
  destruct (d1_ok amb UpdateSession);
    [|intros [= <- <-]; discriminate]. cbn [negb].
  destruct (d1_ok amb DeleteUnused);
    [|intros [= <- <-]; discriminate]. cbn [negb].
  intros [= <- <-] _. exists session. repeat split; auto.
Qed.

Section SpentCodes.

Variable isEmail : string -> bool.

Lemma run_no_live_code e code history w :
  clocks_ok history -> never_reissues e code history ->
  Forall (no_live_code e code) (admin_sessions (DB w)) ->
  Forall (no_live_code e code)
    (admin_sessions (DB (run isEmail history w))).
Proof.
  revert w. induction history as [|[amb c] history IH]; intros w Hc Hn Hw;
    [exact Hw|].
  inversion Hc as [|? ? Hamb Hrest]; subst.
  inversion Hn as [|? ? Hcode Hnrest]; subst.
  cbn [run]. apply IH; [exact Hrest | exact Hnrest |].
  eapply table_step_rows; [apply serve_table_step | | | exact Hw].
  - intros tok exp r _ _ T. discriminate.
  - intros request -> E _. cbn [fst snd] in *. split.
    + now apply issued_row_new.
    + apply Hcode. exact E.
Qed.

Lemma run_spent rowid history w :
  rowid <= sqlite_sequence (DB w) ->
  Forall (spent rowid) (admin_sessions (DB w)) ->
  rowid <= sqlite_sequence (DB (run isEmail history w))
  /\ Forall (spent rowid) (admin_sessions (DB (run isEmail history w))).
Proof.
  revert w. induction history as [|[amb c] history IH]; intros w Hs Hw;
    [now split|].
  cbn [run]. apply IH.
  - pose proof (table_step_sequence amb c _ _ (serve_table_step isEmail amb c w)).
    lia.
  - eapply table_step_rows; [apply serve_table_step | | | exact Hw].
    + intros tok exp r _ _. split; [reflexivity | discriminate].
    + intros request _ E. cbn [new_otp_row id] in E.
      pose proof (next_rowid_gt (DB w)). lia.
Qed.

(** C10.  In a world that the handlers built from the empty table, at
    clock readings with four-digit years, consecutive verify-OTP requests
    for an address with codes that no row of the address holds are each
    answered 401 Invalid or expired OTP, never 429, and leave the world as
    it was; the count that [checkVerifyRateLimit] reads is 0 at each of
    them.  This holds at every clock reading, so in particular while an
    unexpired, unconsumed row of the address exists. *)
Theorem wrong_codes_are_never_rate_limited history e attempts :
  clocks_ok history ->
  e <> "" ->
  let w := run isEmail history empty_world in
  Forall (fun a =>
            clock_ok (clock (fst a)) /\ d1_up (fst a)
            /\ verify_email (snd a) = e
            /\ validateOTP (verify_code (snd a)) = true
            /\ forall r, In r (admin_sessions (DB w)) -> email r = e ->
                         otp r <> verify_code (snd a)) attempts ->
  verify_all attempts w
  = (map (fun _ => Returned invalid_or_expired) attempts, w)
  /\ Forall (fun a => failed_attempts (fst a) e (DB w) = 0) attempts
  /\ invalid_or_expired <> verify_rate_limited.
Proof.
  intros Hh He w Ha.
  assert (I : Forall issued_row (admin_sessions (DB w)))
    by (apply run_issued; [exact Hh | constructor]).
  rewrite Forall_forall in I.
  split; [|split; [|discriminate]].
  - induction Ha as [|[amb request] attempts (Hc & Hup & Hm & Hv & Hw) _ IH];
      [reflexivity|].
    cbn [fst snd] in *. cbn [verify_all map].
    destruct (handleVerifyOTP_wrong_code amb request w) as [_ ->]; auto.
    + unfold js_not. rewrite Hm. now apply String.eqb_neq.
    + rewrite Hm. intros r Hr E T. split; [now apply I | now apply Hw].
    + now rewrite IH.
  - revert Ha. apply Forall_impl.
    intros [amb request] (Hc & Hup & Hm & Hv & Hw). cbn [fst snd] in *.
    rewrite <- Hm.
    apply (handleVerifyOTP_wrong_code amb request w); auto.
    + unfold js_not. rewrite Hm. now apply String.eqb_neq.
    + rewrite Hm. intros r Hr E T. split; [now apply I | now apply Hw].
Qed.

(** C1 (as amended).  A successful verification consumes the row it
    selected: the row's code becomes empty and its session token is set.
    Through every later history of operations that row, while it exists,
    keeps the empty code and a token, so no lookup selects it again and no
    operation restores the code.  After any history with four-digit-year
    clocks that does not issue the same code to the same address again, a
    second verification with the same address and code is answered 401
    Invalid or expired OTP. *)
Theorem verified_code_is_spent amb request w resp w1 :
  handleVerifyOTP amb request w = (Returned resp, w1) ->
  status resp = 200 ->
  well_keyed (DB w) ->
  let e := verify_email request in
  let code := verify_code request in
  let tok := generateSessionToken (random_bytes amb) in
  let exp := toISOString (clock amb + 24 * 60 * 60 * 1000) in
  exists session,
    In session (admin_sessions (DB w))
    /\ email session = e /\ otp session = code
    /\ session_token session = None
    /\ In (consume tok exp session) (admin_sessions (DB w1))
    /\ otp (consume tok exp session) = ""
    /\ session_token (consume tok exp session) = Some tok
    /\ forall history,
        let w2 := run isEmail history w1 in
        (forall r, In r (admin_sessions (DB w2)) -> id r = id session ->
                   otp r = "" /\ session_token r <> None
                   /\ forall e' code' now, otp_matches e' code' now r = false)
        /\ (clocks_ok history -> never_reissues e code history ->
            forall amb2 request2,
              clock_ok (clock amb2) -> d1_up amb2 ->
              verify_email request2 = e -> verify_code request2 = code ->
              handleVerifyOTP amb2 request2 w2
              = (Returned invalid_or_expired, w2)).
Proof.
  intros Hv Hs [_ Hkeys] e code tok exp. subst e code tok exp.
  destruct (handleVerifyOTP_success amb request w resp w1 Hv Hs)
    as (session & He & Hvalid & Hsel & _ & Hdb).
  pose proof (select_otp_Some _ _ _ _ _ Hsel) as (Hin & Hm & _).
  apply otp_matches_spec in Hm. destruct Hm as (Em & Ec & _ & Et).
  assert (Hrows : admin_sessions (DB w1)
                  = flat_map
                      (after_verification (verify_email request)
                         (generateSessionToken (random_bytes amb))
                         (toISOString (clock amb + 24 * 60 * 60 * 1000))
                         (id session)) (admin_sessions (DB w)))
    by (rewrite Hdb; apply verified_rows).
  assert (Hseq : id session <= sqlite_sequence (DB w1)).
  { rewrite Hdb. cbn [delete_where update_session sqlite_sequence].
    now apply Hkeys. }
  assert (Hspent : Forall (spent (id session)) (admin_sessions (DB w1))).
  { apply Forall_forall. intros x Hx. rewrite Hrows in Hx.
    apply in_flat_map in Hx. destruct Hx as (r & _ & Hx).
    apply after_verification_cases in Hx.
    destruct Hx as [[_ ->] | (N & _ & ->)]; intros E.
    - split; [reflexivity | discriminate].
    - contradiction. }
  assert (Hlive : Forall (no_live_code (verify_email request)
                            (verify_code request))
                    (admin_sessions (DB w1))).
  { apply Forall_forall. intros x Hx. rewrite Hrows in Hx.
    apply in_flat_map in Hx. destruct Hx as (r & _ & Hx).
    apply after_verification_cases in Hx.
    destruct Hx as [[_ ->] | (_ & N & ->)]; intros E T.
    - discriminate.
    - exfalso. apply N. now split. }
  exists session. repeat split; auto.
  - rewrite Hrows. apply in_flat_map. exists session. split; [exact Hin|].
    apply after_verification_cases. now left.
  - destruct (run_spent (id session) history w1 Hseq Hspent)
      as [_ F].
    rewrite Forall_forall in F. now apply (F r).
  - destruct (run_spent (id session) history w1 Hseq Hspent)
      as [_ F].
    rewrite Forall_forall in F. now apply (F r).
  - intros e' code' now.
    destruct (run_spent (id session) history w1 Hseq Hspent)
      as [_ F].
    rewrite Forall_forall in F. destruct (F r H H0) as [_ T].
    unfold otp_matches. destruct (session_token r); [|contradiction].
    cbn [is_null]. now rewrite andb_false_r.
  - intros Hc Hn amb2 request2 Hc2 Hup E C.
    pose proof (run_no_live_code _ _ history w1 Hc Hn Hlive) as L.
    rewrite Forall_forall in L.
    destruct (handleVerifyOTP_wrong_code amb2 request2
                (run isEmail history w1)) as [_ R]; auto.
    + now rewrite E.
    + now rewrite C.
    + rewrite E, C. intros r Hr. now apply L.
Qed.

End SpentCodes.

Lemma wrong_codes_are_never_rate_limited_witness :
  verify_all
    [ (ambient_at (noon + minutes 1) 0, verify_request "000000");
      (ambient_at (noon + minutes 2) 0, verify_request "111111");
      (ambient_at (noon + minutes 3) 0, verify_request "222222");
      (ambient_at (noon + minutes 4) 0, verify_request "333333");
      (ambient_at (noon + minutes 5) 0, verify_request "444444");
      (ambient_at (noon + minutes 6) 0, verify_request "555555");
      (ambient_at (noon + minutes 7) 0, verify_request "666666") ]
    issued_world
  = (repeat (Returned invalid_or_expired) 7, issued_world).
Proof.
  assert (C : forall t, noon <= t <= noon + minutes 10 -> clock_ok t).
  { intros t H. unfold clock_ok, four_digit_year, noon, minutes in *. lia. }
  assert (W : forall code, code <> "100001" ->
                forall r, In r (admin_sessions (DB issued_world)) ->
                          email r = "admin@cloudflare.com" -> otp r <> code).
  { intros code N r H _. vm_compute in H. destruct H as [<-|[]].
    cbn [otp]. congruence. }
  apply (wrong_codes_are_never_rate_limited isEmail_example
           [ (ambient_at noon 1, SendOTP send_request) ]
           "admin@cloudflare.com").
  - repeat constructor; apply C; unfold noon, minutes; cbn; lia.
  - discriminate.
  - repeat constructor; cbn [fst snd ambient_at clock];
      try (apply C; unfold noon, minutes; lia);
      try (apply W; discriminate).
Defined.

(** C1, as stated, fails: the code that was verified at 12:01 is issued
    to the same address again at 12:02 (the random cell repeats), and the
    second verification with the same address and code at 12:03 succeeds
    instead of being answered Invalid or expired OTP. *)
Lemma reissued_code_verifies_again :
  let first :=
    handleVerifyOTP (ambient_at (noon + minutes 1) 1) (verify_request "100001")
      issued_world in
  let w2 :=
    run isEmail_example
      [ (ambient_at (noon + minutes 2) 1, SendOTP send_request) ]
      (snd first) in
  let second :=
    handleVerifyOTP (ambient_at (noon + minutes 3) 0) (verify_request "100001")
      w2 in
  fst first
  = Returned (login_successful (verify_request "100001") zero_token)
  /\ fst second
     = Returned (login_successful (verify_request "100001") zero_token)
  /\ fst second <> Returned invalid_or_expired.
Proof. vm_compute. repeat split. discriminate. Qed.

Lemma verified_code_is_spent_witness :
  handleVerifyOTP (ambient_at (noon + minutes 3) 0) (verify_request "100001")
    (run isEmail_example
       [ (ambient_at (noon + minutes 2) 2, SendOTP send_request) ]
       logged_in_world)
  = (Returned invalid_or_expired,
     run isEmail_example
       [ (ambient_at (noon + minutes 2) 2, SendOTP send_request) ]
       logged_in_world).
Proof.
  assert (C : forall t, noon <= t <= noon + minutes 10 -> clock_ok t).
  { intros t H. unfold clock_ok, four_digit_year, noon, minutes in *. lia. }
  assert (K : well_keyed (DB issued_world)).
  { split.
    - repeat constructor. intros [].
    - intros r H. vm_compute in H. destruct H as [<-|[]]. discriminate. }
  destruct (verified_code_is_spent isEmail_example
              (ambient_at (noon + minutes 1) 1) (verify_request "100001")
              issued_world
              (login_successful (verify_request "100001") zero_token)
              logged_in_world eq_refl eq_refl K)
    as (session & _ & _ & _ & _ & _ & _ & _ & H).
  destruct (H [ (ambient_at (noon + minutes 2) 2, SendOTP send_request) ])
    as [_ V].
  apply V.
  - constructor; [|constructor]. apply C. unfold noon, minutes; cbn; lia.
  - constructor; [|constructor]. cbn [fst snd]. intros _. vm_compute.
    discriminate.
  - apply C. unfold noon, minutes; cbn; lia.
  - intros s. reflexivity.
  - reflexivity.
  - reflexivity.
Defined.

(* ================================================================== *)
(** * Further properties: session tokens *)
(* ================================================================== *)

Lemma append_empty_r (s : string) : s ++ "" = s.
Proof. induction s as [|c s IH]; simpl; [reflexivity | now rewrite IH]. Qed.

Lemma concat_empty_cons (x : string) (xs : list string) :
  String.concat "" (x :: xs) = x ++ String.concat "" xs.
Proof.
  destruct xs as [|y ys]; cbn [String.concat]; [now rewrite append_empty_r|].
  reflexivity.
Qed.

Lemma hex_digit_is_hex d : is_hex (hex_digit d) = true.
Proof.
  unfold hex_digit, is_hex.
  pose proof (Z.mod_pos_bound d 16 ltac:(lia)) as B.
  destruct (Z.ltb_spec (d mod 16) 10).
  - rewrite N_ascii_embedding by lia.
    apply orb_true_intro. left. apply andb_true_intro.
    split; apply N.leb_le; lia.
  - rewrite N_ascii_embedding by lia.
    apply orb_true_intro. right. apply andb_true_intro.
    split; apply N.leb_le; lia.
Qed.

Lemma hex_digit_inj a b :
  0 <= a < 16 -> 0 <= b < 16 -> hex_digit a = hex_digit b -> a = b.
Proof.
  intros Ha Hb E. apply (f_equal N_of_ascii) in E. unfold hex_digit in E.
  rewrite !Z.mod_small in E by assumption.
  destruct (Z.ltb_spec a 10), (Z.ltb_spec b 10);
    rewrite !N_ascii_embedding in E by lia; lia.
Qed.

(** One byte is always two hexadecimal digits, high digit first. *)
Lemma byte_hex_eq b :
  0 <= b < 256 ->
  byte_hex b = String (hex_digit (b / 16)) (String (hex_digit b) "").
Proof.
  intros Hb. unfold byte_hex, hex_toString, padStart.
  destruct (Z.ltb_spec b 16) as [L|L]; [|reflexivity].
  cbn. rewrite (Z.div_small b 16) by lia. reflexivity.
Qed.

Lemma byte_hex_inj a b :
  0 <= a < 256 -> 0 <= b < 256 -> byte_hex a = byte_hex b -> a = b.
Proof.
  intros Ha Hb. rewrite !byte_hex_eq by assumption. intros [= E1 E2].
  assert (Q : forall v, hex_digit v = hex_digit (v mod 16)).
  { intros v. unfold hex_digit. now rewrite Z.mod_mod by lia. }
  rewrite (Q a), (Q b) in E2.
  apply hex_digit_inj in E1; [|quotients; lia|quotients; lia].
  apply hex_digit_inj in E2; try (apply Z.mod_pos_bound; lia).
  rewrite (Z.div_mod a 16), (Z.div_mod b 16) by lia. congruence.
Qed.

Lemma Uint8_range x : 0 <= Uint8 x < 256.
Proof. unfold Uint8. apply Z.mod_pos_bound. lia. Qed.

Lemma generateSessionToken_eq array :
  generateSessionToken array
  = String.concat "" (map byte_hex (token_bytes array)).
Proof.
  unfold generateSessionToken, token_bytes. now rewrite map_map.
Qed.

Lemma hex_of_bytes_length (bytes : list Z) :
  Forall (fun b => 0 <= b < 256) bytes ->
  String.length (String.concat "" (map byte_hex bytes))
  = (2 * List.length bytes)%nat
  /\ all_chars is_hex (String.concat "" (map byte_hex bytes)) = true.
Proof.
  induction 1 as [|b bytes Hb _ [IHl IHh]]; [split; reflexivity|].
  cbn [map]. rewrite concat_empty_cons, byte_hex_eq by assumption.
  cbn [append String.length all_chars]. rewrite IHl, IHh, !hex_digit_is_hex.
  split; [cbn [List.length]; lia | reflexivity].
Qed.

Lemma hex_of_bytes_inj (l1 l2 : list Z) :
  Forall (fun b => 0 <= b < 256) l1 -> Forall (fun b => 0 <= b < 256) l2 ->
  List.length l1 = List.length l2 ->
  String.concat "" (map byte_hex l1) = String.concat "" (map byte_hex l2) ->
  l1 = l2.
Proof.
  intros H1. revert l2.
  induction H1 as [|a l1 Ha _ IH]; intros l2 H2 L E;
    destruct H2 as [|b l2 Hb H2]; try discriminate; [reflexivity|].
  cbn [map] in E. rewrite !concat_empty_cons in E.
  pose proof (byte_hex_eq a Ha) as Ea. pose proof (byte_hex_eq b Hb) as Eb.
  rewrite Ea, Eb in E. cbn [append] in E. injection E as E1 E2 E3.
  f_equal.
  - apply byte_hex_inj; try assumption. rewrite Ea, Eb. congruence.
  - apply IH; auto.
Qed.

Lemma token_bytes_range array :
  Forall (fun b => 0 <= b < 256) (token_bytes array).
Proof.
  unfold token_bytes. apply Forall_map, Forall_forall. intros i _.
  apply Uint8_range.
Qed.

(** X1.  A session token is 64 lowercase hexadecimal digits, two for each
    of the 32 random bytes, and two tokens are equal exactly when the 32
    bytes are: the rendering loses none of the 256 random bits. *)
Theorem generateSessionToken_hex array1 array2 :
  String.length (generateSessionToken array1) = 64%nat
  /\ all_chars is_hex (generateSessionToken array1) = true
  /\ (generateSessionToken array1 = generateSessionToken array2
      <-> token_bytes array1 = token_bytes array2)
  /\ (token_bytes array1 = token_bytes array2
      <-> forall i, (i < 32)%nat ->
                    nth i array1 0 mod 256 = nth i array2 0 mod 256).
Proof.
  rewrite !generateSessionToken_eq.
  destruct (hex_of_bytes_length (token_bytes array1) (token_bytes_range _))
    as [L H].
  split; [|split; [exact H|split]].
  - rewrite L. unfold token_bytes. now rewrite length_map, length_seq.
  - split; [|now intros ->].
    apply hex_of_bytes_inj; try apply token_bytes_range.
    unfold token_bytes. now rewrite !length_map.
  - unfold token_bytes, Uint8. split.
    + intros E i Hi.
      assert (Hin : In i (seq 0 32)) by (apply in_seq; lia).
      revert E Hin. generalize (seq 0 32) as l.
      induction l as [|j l IH]; intros E Hin; [destruct Hin|].
      cbn [map] in E. injection E as E1 E2.
      destruct Hin as [->|Hin]; auto.
    + intros E. apply map_ext_in. intros i Hi. apply in_seq in Hi.
      apply E. lia.
Qed.

(* ================================================================== *)
(** * Further properties: the session cookie *)
(* ================================================================== *)

Lemma until_semicolon_app (tok rest : string) :
  all_chars not_semicolon tok = true ->
  until_semicolon (tok ++ String ";" rest) = tok.
Proof.
  induction tok as [|c tok IH]; cbn; [reflexivity|].
  unfold not_semicolon at 1.
  destruct (Ascii.eqb c ";"); cbn; [discriminate|].
  intros H. now rewrite IH.
Qed.

Lemma until_semicolon_no_semicolon (s : string) :
  all_chars not_semicolon (until_semicolon s) = true.
Proof.
  induction s as [|c s IH]; cbn; [reflexivity|].
  destruct (Ascii.eqb c ";") eqn:E; cbn; [reflexivity|].
  unfold not_semicolon at 1. now rewrite E.
Qed.

Lemma match_admin_session_no_semicolon (cookie tok : string) :
  match_admin_session cookie = Some tok ->
  all_chars not_semicolon tok = true.
Proof.
  induction cookie as [|c cookie IH]; cbn [match_admin_session].
  - cbn. discriminate.
  - destruct (strip_prefix "admin_session=" (String c cookie)) as [rest|];
      [|exact IH].
    pose proof (until_semicolon_no_semicolon rest) as N.
    destruct (until_semicolon rest); [exact IH|].
    intros [= <-]. exact N.
Qed.

Lemma getSessionToken_of_cookie {Body Body' : Type} (request : Request Body)
  (request' : Request Body') (token : string) (maxAge : Z) :
  token <> "" ->
  all_chars not_semicolon token = true ->
  Cookie request' = Some (getSecureCookieString request token maxAge) ->
  getSessionToken request' = Some token.
Proof.
  intros Hne Hsemi HC.
  unfold getSessionToken. rewrite HC.
  unfold getSecureCookieString. cbv zeta.
  set (tail := (if (_ || _)%bool then _ else _) ++ _).
  change ("; Path=/; HttpOnly; SameSite=Strict" ++ tail)
    with (String ";" (" Path=/; HttpOnly; SameSite=Strict" ++ tail)).
  generalize (" Path=/; HttpOnly; SameSite=Strict" ++ tail) as rest.
  intros rest. cbn.
  rewrite (until_semicolon_app token rest Hsemi).
  destruct token; [congruence | reflexivity].
Qed.

Lemma strip_prefix_Some p s rest :
  strip_prefix p s = Some rest -> s = p ++ rest.
Proof.
  revert s. induction p as [|a p IH]; intros [|b s]; cbn; try discriminate.
  - now intros [= <-].
  - now intros [= <-].
  - destruct (Ascii.eqb_spec a b) as [<-|]; [|discriminate].
    intros H. now rewrite (IH s H).
Qed.

Lemma until_semicolon_split s :
  exists rest,
    s = until_semicolon s ++ rest
    /\ (rest = "" \/ exists rest', rest = String ";" rest').
Proof.
  induction s as [|c s (rest & E & R)]; cbn [until_semicolon].
  - exists "". split; [reflexivity | now left].
  - destruct (Ascii.eqb_spec c ";") as [->|N].
    + exists (String ";" s). split; [reflexivity|]. right. now exists s.
    + exists rest. cbn [append]. split; [now rewrite <- E | exact R].
Qed.

(** Where a token that [getSessionToken] reads sits in the header. *)
Lemma match_admin_session_place cookie token :
  match_admin_session cookie = Some token ->
  exists before rest,
    cookie = before ++ "admin_session=" ++ token ++ rest
    /\ (rest = "" \/ exists rest', rest = String ";" rest').
Proof.
  induction cookie as [|c cookie IH]; cbn [match_admin_session].
  - cbn. discriminate.
  - destruct (strip_prefix "admin_session=" (String c cookie)) as [tail|] eqn:P.
    + destruct (until_semicolon tail) as [|v0 v] eqn:U.
      * intros H. destruct (IH H) as (before & rest & E & R).
        exists (String c before), rest. split; [|exact R].
        cbn [append]. now rewrite E.
      * intros [= <-]. apply strip_prefix_Some in P.
        destruct (until_semicolon_split tail) as (rest & E & R).
        exists "", rest. split; [|exact R].
        rewrite P, E, U. reflexivity.
    + intros H. destruct (IH H) as (before & rest & E & R).
      exists (String c before), rest. split; [|exact R].
      cbn [append]. now rewrite E.
Qed.

(** X2.  The cookie written at login is read back as the same token by
    [getSessionToken], whatever the scheme of the request and the
    lifetime, for every token that is not empty and holds no semicolon;
    the cookie written at logout is read back as no token at all; and a
    token read from any Cookie header is never empty, holds no
    semicolon, and stands in the header after the text [admin_session=]
    (wherever that text occurs first with a character other than a
    semicolon after it) and up to the next semicolon or the end. *)
Theorem session_cookie_round_trip :
  (forall (Body Body' : Type) (request : Request Body)
          (request' : Request Body') (token : string) (maxAge : Z),
      token <> "" ->
      all_chars not_semicolon token = true ->
      Cookie request' = Some (getSecureCookieString request token maxAge) ->
      getSessionToken request' = Some token)
  /\ (forall (Body Body' : Type) (request : Request Body)
             (request' : Request Body'),
         Cookie request' = Some (getSecureCookieString request "" 0) ->
         getSessionToken request' = None)
  /\ (forall (Body : Type) (request : Request Body) (token : string),
         getSessionToken request = Some token ->
         token <> "" /\ all_chars not_semicolon token = true
         /\ exists cookie before rest,
             Cookie request = Some cookie
             /\ cookie = before ++ "admin_session=" ++ token ++ rest
             /\ (rest = "" \/ exists rest', rest = String ";" rest')).
Proof.
  split; [|split].
  - intros Body Body' request request' token maxAge.
    apply getSessionToken_of_cookie.
  - intros Body Body' request request' HC.
    unfold getSessionToken. rewrite HC.
    unfold getSecureCookieString. cbv zeta.
    destruct (_ || _)%bool; reflexivity.
  - intros Body request token H. split.
    + intros ->. pose proof (getSessionToken_nonempty request "" H).
      discriminate.
    + unfold getSessionToken in H.
      destruct (Cookie request) as [cookie|]; [|discriminate].
      destruct (js_not cookie); [discriminate|].
      split; [exact (match_admin_session_no_semicolon cookie token H)|].
      destruct (match_admin_session_place cookie token H)
        as (before & rest & E & R).
      now exists cookie, before, rest.
Qed.

Lemma session_cookie_round_trip_witness :
  getSessionToken
    (cookie_request
       (getSecureCookieString (verify_request "100001") zero_token 86400))
  = Some zero_token.
Proof.
  apply (proj1 session_cookie_round_trip VerifyOTPInput unit
           (verify_request "100001") (cookie_request _) zero_token 86400).
  - discriminate.
  - vm_compute. reflexivity.
  - reflexivity.
Defined.

(* ================================================================== *)
(** * Further properties: what the two OTP handlers answer *)
(* ================================================================== *)

Ltac answer_status :=
  cbv [status Set_Cookie jsonResponse send_failed verify_failed
       send_rate_limited verify_rate_limited invalid_or_expired otp_sent
       login_successful].

Ltac settled :=
  answer_status; repeat split; intros; repeat split;
  try discriminate; try reflexivity; try lia; try tauto; try congruence;
  try (cbn [In]; tauto); try (intuition (discriminate || congruence)).

Ltac settle w :=
  solve [eexists; exists w; split; [reflexivity|]; settled].

(** X3.  [handleSendOTP] always completes with one of the statuses 200,
    400, 403, 429 and 500.  Only a 200 changes the table, by one appended
    row for the normalized address, which then passed the e-mail check
    and ends in [@cloudflare.com]; a 400, 403 or 429 leaves the world as
    it was, and a 500 only adds a line to the log. *)
Theorem handleSendOTP_answers (isEmail : string -> bool) amb request w :
  exists resp w',
    handleSendOTP isEmail amb request w = (Returned resp, w')
    /\ In (status resp) [200; 400; 403; 429; 500]
    /\ Set_Cookie resp = None
    /\ (status resp = 200 ->
        let e := send_otp_email request in
        e <> "" /\ isEmail e = true /\ endsWith e "@cloudflare.com" = true
        /\ DB w'
           = mkD1 (admin_sessions (DB w)
                   ++ [new_otp_row amb e (next_rowid (DB w))])%list
               (next_rowid (DB w)))
    /\ (status resp = 400 \/ status resp = 403 \/ status resp = 429 ->
        w' = w)
    /\ (status resp = 500 -> w' = log_line "Error sending OTP:" w).
Proof.
  rewrite handleSendOTP_eq.
  destruct (json request) as [data|];
    [|settle (log_line "Error sending OTP:" w)].
  cbv zeta.
  destruct (js_not (send_otp_email request)) eqn:He; [settle w|].
  assert (He' : send_otp_email request <> "").
  { intros E. rewrite E in He. vm_compute in He. discriminate. }
  destruct (isEmail (send_otp_email request)) eqn:Hv; [|settle w].
  cbn [orb negb].
  destruct (endsWith (send_otp_email request) "@cloudflare.com") eqn:Hd;
    [|settle w]. cbn [negb].
  destruct (d1_ok amb CountOtpRequests);
    [|settle (log_line "Error sending OTP:" w)]. cbn [negb].
  destruct (_ <? MAX_OTP_REQUESTS_PER_HOUR); [|settle w]. cbn [negb].
  destruct (d1_ok amb InsertOtp);
    [|settle (log_line "Error sending OTP:" w)]. cbn [negb].
  eexists. eexists. split; [reflexivity|]. settled.
Qed.

(** X4.  [handleVerifyOTP] always completes with one of the statuses
    200, 400, 401, 429 and 500, and sets a cookie only with a 200.  A
    request without address or code, or whose code is not six digits, is
    answered 400 before any statement is issued; a 400, 401 or 429 leaves
    the world as it was. *)
Theorem handleVerifyOTP_answers amb request w :
  exists resp w',
    handleVerifyOTP amb request w = (Returned resp, w')
    /\ In (status resp) [200; 400; 401; 429; 500]
    /\ (status resp = 200 <-> Set_Cookie resp <> None)
    /\ (status resp = 200 ->
        resp = login_successful request
                 (generateSessionToken (random_bytes amb)))
    /\ (status resp = 400 \/ status resp = 401 \/ status resp = 429 ->
        w' = w)
    /\ (status resp = 500 -> console w' = (console w ++ ["Error verifying OTP:"])%list)
    /\ (json request <> None ->
        verify_email request = "" \/ validateOTP (verify_code request) = false ->
        status resp = 400 /\ w' = w).
Proof.
  rewrite handleVerifyOTP_eq.
  destruct (json request) as [data|];
    [|settle (log_line "Error verifying OTP:" w)]. cbv zeta.
  destruct (js_not (verify_email request)) eqn:He; [settle w|].
  assert (He' : verify_email request <> "").
  { intros E. rewrite E in He. vm_compute in He. discriminate. }
  destruct (js_not (verify_code request)) eqn:Hc; [settle w|].
  cbn [orb].
  destruct (validateOTP (verify_code request)) eqn:Hv; [|settle w].
  cbn [negb].
  destruct (d1_ok amb CountFailedAttempts);
    [|settle (log_line "Error verifying OTP:" w)]. cbn [negb].
  destruct (_ <? MAX_OTP_VERIFY_ATTEMPTS); [|settle w]. cbn [negb].
  destruct (d1_ok amb SelectOtp);
    [|settle (log_line "Error verifying OTP:" w)]. cbn [negb].
  destruct (select_otp _ _ _ _) as [session|]; [|settle w].
  cbv zeta.
  destruct (d1_ok amb UpdateSession);
    [|settle (log_line "Error verifying OTP:" w)]. cbn [negb].
  destruct (d1_ok amb DeleteUnused); cbn [negb];
    (eexists; eexists; split; [reflexivity|]; settled).
Qed.

Lemma handleSendOTP_answers_witness :
  exists w',
    handleSendOTP isEmail_example (ambient_at noon 1) send_request empty_world
    = (Returned otp_sent, w')
    /\ DB w' = mkD1 [issued_row_at_noon] 1.
Proof.
  destruct (handleSendOTP_answers isEmail_example (ambient_at noon 1)
              send_request empty_world) as (resp & w' & E & _ & _ & H & _).
  assert (R : resp = otp_sent).
  { vm_compute in E. injection E as <- _. reflexivity. }
  subst resp. exists w'. split; [exact E|].
  destruct (H eq_refl) as (_ & _ & _ & D). rewrite D. reflexivity.
Defined.

Lemma handleVerifyOTP_answers_witness :
  exists resp,
    handleVerifyOTP (mkAmbient noon 0 [] (fun _ => false) FetchOk)
      (verify_request "12345") issued_world = (Returned resp, issued_world)
    /\ status resp = 400.
Proof.
  destruct (handleVerifyOTP_answers
              (mkAmbient noon 0 [] (fun _ => false) FetchOk)
              (verify_request "12345") issued_world)
    as (resp & w' & E & _ & _ & _ & _ & _ & H).
  destruct H as [S W]; [discriminate | right; reflexivity |].
  exists resp. subst w'. split; assumption.
Defined.

(* ================================================================== *)
(** * Further properties: the life of a session *)
(* ================================================================== *)

Lemma all_chars_impl (p q : ascii -> bool) (s : string) :
  (forall c, p c = true -> q c = true) ->
  all_chars p s = true -> all_chars q s = true.
Proof.
  intros Hpq. induction s as [|c s IH]; cbn; [reflexivity|].
  intros H. apply andb_prop in H. destruct H as [H1 H2].
  now rewrite (Hpq c H1), IH.
Qed.

Lemma is_hex_not_semicolon c : is_hex c = true -> not_semicolon c = true.
Proof.
  unfold not_semicolon. destruct (Ascii.eqb_spec c ";") as [->|]; [|reflexivity].
  vm_compute. discriminate.
Qed.

(** A session token can be carried by the cookie. *)
Lemma generateSessionToken_cookie_safe array :
  generateSessionToken array <> ""
  /\ all_chars not_semicolon (generateSessionToken array) = true.
Proof.
  rewrite generateSessionToken_eq.
  destruct (hex_of_bytes_length (token_bytes array) (token_bytes_range _))
    as [L H].
  split.
  - intros E. rewrite E in L. unfold token_bytes in L.
    rewrite length_map, length_seq in L. discriminate.
  - exact (all_chars_impl _ _ _ is_hex_not_semicolon H).
Qed.

Lemma handleCheckAuth_eq amb request w token :
  getSessionToken request = Some token ->
  d1_ok amb SelectSession = true ->
  handleCheckAuth amb request w
  = (Returned
       (if existsb (session_matches token (toISOString (clock amb)))
             (admin_sessions (DB w))
        then authenticated else unauthorized), w).
Proof.
  intros T D. unfold handleCheckAuth, bind.
  rewrite validateAdminSession_eq, T, (getSessionToken_nonempty request token T), D.
  destruct (existsb _ _); reflexivity.
Qed.

(** After a verification that consumed row [session], the token [tok]
    is valid until [exp], provided no row carried it before. *)
Lemma session_after_verification e tok exp db session now :
  In session (admin_sessions db) ->
  (forall r, In r (admin_sessions db) -> session_token r <> Some tok) ->
  existsb (session_matches tok now)
    (flat_map (after_verification e tok exp (id session)) (admin_sessions db))
  = text_gt exp now.
Proof.
  intros Hs Hfresh. apply eq_true_iff_eq.
  rewrite existsb_session_matches. split.
  - intros (r & Hr & T & x & X & G).
    apply in_flat_map in Hr. destruct Hr as (r0 & Hr0 & Hr).
    apply after_verification_cases in Hr.
    destruct Hr as [[_ ->]|(_ & _ & ->)].
    + cbn in X. injection X as <-. exact G.
    + destruct (Hfresh r0 Hr0 T).
  - intros G. exists (consume tok exp session). split.
    + apply in_flat_map. exists session. split; [exact Hs|].
      apply after_verification_cases. left. now split.
    + split; [reflexivity|]. exists exp. now split.
Qed.

(** X5.  A session lasts exactly 24 hours.  After [handleVerifyOTP]
    answered 200 at clock reading [t], a request that presents the cookie
    of that answer is authenticated by [handleCheckAuth] at every clock
    reading before [t] + 24 h and answered 401 from then on, as long as
    the table is as the verification left it and no earlier row carried
    the same token. *)
Theorem session_lasts_24_hours amb request w resp w1 amb' request' :
  handleVerifyOTP amb request w = (Returned resp, w1) ->
  status resp = 200 ->
  clock_ok (clock amb) ->
  (forall r, In r (admin_sessions (DB w)) ->
             session_token r <> Some (generateSessionToken (random_bytes amb))) ->
  four_digit_year (clock amb') ->
  d1_ok amb' SelectSession = true ->
  Cookie request' = Set_Cookie resp ->
  handleCheckAuth amb' request' w1
  = (Returned (if clock amb' <? clock amb + 24 * 60 * 60 * 1000
               then authenticated else unauthorized), w1).
Proof.
  intros H S Hc Hfresh Hc' D HC.
  destruct (handleVerifyOTP_success amb request w resp w1 H S)
    as (session & _ & _ & Sel & -> & Hdb).
  cbn [login_successful jsonResponse Set_Cookie] in HC.
  destruct (generateSessionToken_cookie_safe (random_bytes amb)) as [Hne Hsemi].
  rewrite (handleCheckAuth_eq amb' request' w1 _
             (getSessionToken_of_cookie request request' _ 86400 Hne Hsemi HC) D).
  rewrite Hdb, verified_rows.
  apply select_otp_Some in Sel. destruct Sel as (Hin & _ & _).
  rewrite (session_after_verification _ _ _ _ session _ Hin Hfresh).
  rewrite text_gt_toISOString; [reflexivity | | exact Hc'].
  replace (24 * 60 * 60 * 1000) with 86400000 by reflexivity.
  exact (proj2 Hc).
Qed.

Lemma session_lasts_24_hours_witness :
  handleCheckAuth (ambient_at (noon + minutes 1 + 86400000 - 1) 0)
    (cookie_request
       (getSecureCookieString (verify_request "100001") zero_token 86400))
    logged_in_world
  = (Returned authenticated, logged_in_world)
  /\ handleCheckAuth (ambient_at (noon + minutes 1 + 86400000) 0)
       (cookie_request
          (getSecureCookieString (verify_request "100001") zero_token 86400))
       logged_in_world
     = (Returned unauthorized, logged_in_world).
Proof.
  assert (C : clock_ok (noon + minutes 1)).
  { unfold clock_ok, four_digit_year, noon, minutes. lia. }
  assert (F : forall r, In r (admin_sessions (DB issued_world)) ->
                        session_token r <> Some zero_token).
  { intros r Hr. vm_compute in Hr. destruct Hr as [<-|[]]. discriminate. }
  assert (Y : forall d, 0 <= d <= 86400000 ->
                        four_digit_year (noon + minutes 1 + d)).
  { intros d Hd. unfold four_digit_year, noon, minutes. lia. }
  split.
  - apply (session_lasts_24_hours (ambient_at (noon + minutes 1) 1)
             (verify_request "100001") issued_world
             (login_successful (verify_request "100001") zero_token)
             logged_in_world
             (ambient_at (noon + minutes 1 + 86400000 - 1) 0)
             (cookie_request _) eq_refl eq_refl C F);
      [|reflexivity|reflexivity].
    replace (noon + minutes 1 + 86400000 - 1)
      with (noon + minutes 1 + 86399999) by lia.
    apply Y. lia.
  - apply (session_lasts_24_hours (ambient_at (noon + minutes 1) 1)
             (verify_request "100001") issued_world
             (login_successful (verify_request "100001") zero_token)
             logged_in_world
             (ambient_at (noon + minutes 1 + 86400000) 0)
             (cookie_request _) eq_refl eq_refl C F);
      [|reflexivity|reflexivity].
    apply Y. lia.
Defined.

(* ================================================================== *)
(** * Further properties: from the OTP request to the logout *)
(* ================================================================== *)

(** What a 200 of [handleSendOTP] says about the request and the table. *)
Lemma handleSendOTP_sent (isEmail : string -> bool) amb request w resp w1 :
  handleSendOTP isEmail amb request w = (Returned resp, w1) ->
  status resp = 200 ->
  js_not (send_otp_email request) = false
  /\ isEmail (send_otp_email request) = true
  /\ endsWith (send_otp_email request) "@cloudflare.com" = true
  /\ (otp_requests amb (send_otp_email request) (DB w)
      <? MAX_OTP_REQUESTS_PER_HOUR) = true
  /\ DB w1
     = mkD1 (admin_sessions (DB w)
             ++ [new_otp_row amb (send_otp_email request)
                   (next_rowid (DB w))])%list
         (next_rowid (DB w)).
Proof.
  rewrite handleSendOTP_eq.
  destruct (json request) as [data|];
    [|intros [= <- <-]; discriminate]. cbv zeta.
  destruct (js_not (send_otp_email request)) eqn:He;
    [intros [= <- <-]; discriminate|].
  destruct (isEmail (send_otp_email request)) eqn:Hv;
    [|intros [= <- <-]; discriminate]. cbn [orb negb].
  destruct (endsWith (send_otp_email request) "@cloudflare.com") eqn:Hd;
    [|intros [= <- <-]; discriminate]. cbn [negb].
  destruct (d1_ok amb CountOtpRequests);
    [|intros [= <- <-]; discriminate]. cbn [negb].
  destruct (_ <? MAX_OTP_REQUESTS_PER_HOUR);
    [|intros [= <- <-]; discriminate]. cbn [negb].
  destruct (d1_ok amb InsertOtp);
    [|intros [= <- <-]; discriminate]. cbn [negb].
  intros [= <- <-] _. repeat split.
Qed.

Lemma validateOTP_nonempty code : validateOTP code = true -> js_not code = false.
Proof.
  intros Hv. unfold js_not.
  destruct (String.eqb_spec code "") as [E|E]; [|reflexivity].
  rewrite E in Hv. discriminate.
Qed.

(** No session with token [token] is left after its DELETE. *)
Lemma session_deleted token now rows :
  existsb (session_matches token now)
    (filter (fun r => negb (sql_eq (session_token r) token)) rows) = false.
Proof.
  induction rows as [|r rows IH]; [reflexivity|]. cbn [filter].
  destruct (sql_eq (session_token r) token) eqn:E; cbn [negb]; [exact IH|].
  cbn [existsb]. unfold session_matches at 1. now rewrite E.
Qed.

Section LifeCycle.

Variable isEmail : string -> bool.

(** X6.  The whole login works in every world the handlers have built:
    when [handleSendOTP] answered 200, a verification of the code it
    generated, for the same address and less than ten minutes later, is
    answered 200 with a cookie; a request with that cookie is
    authenticated during the next 24 hours; and once [handleLogout] has
    served a request with that cookie, the cookie is answered 401. *)
Theorem login_life_cycle history amb1 send w1 amb2 verify :
  clocks_ok history ->
  handleSendOTP isEmail amb1 send (run isEmail history empty_world)
  = (Returned otp_sent, w1) ->
  clock_ok (clock amb1) -> clock_ok (clock amb2) -> d1_up amb2 ->
  verify_email verify = send_otp_email send ->
  verify_code verify = generateOTP (random_u32 amb1) ->
  clock amb2 < clock amb1 + 10 * 60 * 1000 ->
  exists cookie w2,
    handleVerifyOTP amb2 verify w1
    = (Returned (jsonResponse (JsonSuccess (Some "Login successful")) 200
                   (Some cookie)), w2)
    /\ forall request : Request unit,
        Cookie request = Some cookie ->
        (forall amb3,
            four_digit_year (clock amb3) ->
            d1_ok amb3 SelectSession = true ->
            clock amb3 < clock amb2 + 24 * 60 * 60 * 1000 ->
            handleCheckAuth amb3 request w2 = (Returned authenticated, w2))
        /\ (forall amb4 amb5,
               d1_ok amb4 DeleteSession = true ->
               d1_ok amb5 SelectSession = true ->
               exists w3,
                 handleLogout amb4 request w2
                 = (Returned (logged_out request), w3)
                 /\ handleCheckAuth amb5 request w3
                    = (Returned unauthorized, w3)).
Proof.
  intros Hh Hsend Hc1 Hc2 Hup He Hcode Hlt.
  set (w := run isEmail history empty_world) in *.
  destruct (handleSendOTP_sent isEmail amb1 send w otp_sent w1 Hsend eq_refl)
    as (Hne & _ & _ & _ & Hdb1).
  set (e := send_otp_email send) in *.
  set (row := new_otp_row amb1 e (next_rowid (DB w))) in *.
  assert (Hrows1 : admin_sessions (DB w1) = (admin_sessions (DB w) ++ [row])%list)
    by now rewrite Hdb1.
  assert (Hissued : Forall issued_row (admin_sessions (DB w1))).
  { rewrite Hrows1. apply Forall_app. split.
    - apply run_issued; [exact Hh | constructor].
    - constructor; [|constructor]. now apply issued_row_new. }
  assert (Hne2 : js_not (verify_email verify) = false) by now rewrite He.
  destruct (verify_email_json verify Hne2) as [data Hj].
  assert (Hv : validateOTP (verify_code verify) = true).
  { rewrite Hcode, generateOTP_pad. apply validateOTP_pad. }
  assert (F : failed_attempts amb2 (verify_email verify) (DB w1) = 0).
  { apply failed_attempts_issued; [exact Hc2|].
    intros r Hr _ _. revert r Hr. now apply Forall_forall. }
  pose proof (handleVerifyOTP_past_checks amb2 verify w1 data Hj Hne2
                (validateOTP_nonempty _ Hv) Hv) as P.
  rewrite F in P. specialize (P eq_refl (Hup _) (Hup _)).
  destruct (select_otp (verify_email verify) (verify_code verify)
              (toISOString (clock amb2)) (DB w1)) as [session|] eqn:Sel.
  2:{ exfalso. rewrite select_otp_None in Sel.
      assert (M : otp_matches (verify_email verify) (verify_code verify)
                    (toISOString (clock amb2)) row = true).
      { apply otp_matches_spec. rewrite He, Hcode. repeat split.
        cbn [row new_otp_row otp_expires_at].
        rewrite text_gt_toISOString.
        - now apply Z.ltb_lt.
        - apply (clock_ok_four_digit_year _ (10 * 60 * 1000) Hc1). lia.
        - apply (clock_ok_four_digit_year _ 0) in Hc2; [|lia].
          now rewrite Z.add_0_r in Hc2. }
      rewrite Sel in M; [discriminate|].
      rewrite Hrows1. apply in_or_app. right. now left. }
  cbv zeta in P. rewrite !Hup in P. cbn [negb] in P.
  set (tok := generateSessionToken (random_bytes amb2)) in *.
  set (exp := toISOString (clock amb2 + 24 * 60 * 60 * 1000)) in *.
  eexists. eexists. split; [exact P|].
  intros request HC.
  destruct (generateSessionToken_cookie_safe (random_bytes amb2))
    as [Hnet Hsemi].
  pose proof (getSessionToken_of_cookie verify request tok 86400 Hnet Hsemi HC)
    as T.
  apply select_otp_Some in Sel. destruct Sel as (Hin & _ & _).
  split.
  - intros amb3 Hc3 D3 Hlt3.
    rewrite (handleCheckAuth_eq amb3 request _ tok T D3).
    cbn [DB]. rewrite verified_rows.
    replace (existsb _ _) with true; [reflexivity|]. symmetry.
    apply existsb_session_matches. exists (consume tok exp session). split.
    + apply in_flat_map. exists session. split; [exact Hin|].
      apply after_verification_cases. left. now split.
    + split; [reflexivity|]. exists exp. split; [reflexivity|].
      unfold exp. rewrite text_gt_toISOString; [now apply Z.ltb_lt| |exact Hc3].
      replace (24 * 60 * 60 * 1000) with 86400000 by reflexivity.
      exact (proj2 Hc2).
  - intros amb4 amb5 D4 D5. eexists. split.
    + rewrite handleLogout_eq, T, (getSessionToken_nonempty request tok T), D4.
      reflexivity.
    + rewrite (handleCheckAuth_eq amb5 request _ tok T D5).
      cbn [DB delete_where admin_sessions]. now rewrite session_deleted.
Qed.

End LifeCycle.

Lemma login_life_cycle_witness :
  exists cookie w2,
    handleVerifyOTP (ambient_at (noon + minutes 9) 0) (verify_request "100001")
      issued_world
    = (Returned (jsonResponse (JsonSuccess (Some "Login successful")) 200
                   (Some cookie)), w2)
    /\ handleCheckAuth (ambient_at (noon + minutes 600) 0)
         (cookie_request cookie) w2 = (Returned authenticated, w2).
Proof.
  assert (C : forall t, noon <= t <= noon + minutes 10 -> clock_ok t).
  { intros t H. unfold clock_ok, four_digit_year, noon, minutes in *. lia. }
  destruct (login_life_cycle isEmail_example [] (ambient_at noon 1)
              send_request issued_world (ambient_at (noon + minutes 9) 0)
              (verify_request "100001"))
    as (cookie & w2 & V & H).
  - constructor.
  - reflexivity.
  - apply C. unfold noon, minutes; cbn; lia.
  - apply C. unfold noon, minutes; cbn; lia.
  - intros s. reflexivity.
  - reflexivity.
  - reflexivity.
  - unfold noon, minutes; cbn; lia.
  - exists cookie, w2. split; [exact V|].
    destruct (H (cookie_request cookie) eq_refl) as [A _].
    apply A; [|reflexivity|].
    + unfold four_digit_year, noon, minutes; cbn; lia.
    + unfold noon, minutes; cbn; lia.
Defined.

(* ================================================================== *)
(** * Further properties: the ten minutes of a code, and the clean-up *)
(* ================================================================== *)

Lemma issued_row_live now e code r :
  issued_row r -> four_digit_year now ->
  (otp_matches e code (toISOString now) r = true <->
   email r = e /\ otp r = code /\ session_token r = None
   /\ exists t, clock_ok t /\ otp_expires_at r = toISOString (t + 10 * 60 * 1000)
                /\ now < t + 10 * 60 * 1000).
Proof.
  intros (t & Ht & _ & Hexp) Hnow. rewrite otp_matches_spec.
  assert (Y : forall t', clock_ok t' -> four_digit_year (t' + 10 * 60 * 1000)).
  { intros t' Ht'. apply clock_ok_four_digit_year; [exact Ht'|lia]. }
  split.
  - intros (E & C & G & T). repeat split; auto. exists t.
    rewrite Hexp, text_gt_toISOString in G; auto.
    apply Z.ltb_lt in G. auto.
  - intros (E & C & T & t' & Ht' & Hexp' & L). repeat split; auto.
    rewrite Hexp', text_gt_toISOString; auto. now apply Z.ltb_lt.
Qed.

Lemma clock_ok_now t : clock_ok t -> four_digit_year t.
Proof.
  intros H. apply (clock_ok_four_digit_year _ 0) in H; [|lia].
  now rewrite Z.add_0_r in H.
Qed.

Section TenMinutes.

Variable isEmail : string -> bool.

(** X7.  A code is good for exactly ten minutes.  In every world the
    handlers have built, a well-formed verification (address present,
    six digits, all statements completing) is answered 200 when some
    unconsumed row of the address holds the code and was written less
    than ten minutes before, and 401, with the world unchanged,
    otherwise; the attempts made before never matter. *)
Theorem otp_lasts_ten_minutes history amb request :
  clocks_ok history -> clock_ok (clock amb) -> d1_up amb ->
  verify_email request <> "" ->
  validateOTP (verify_code request) = true ->
  let w := run isEmail history empty_world in
  let live := fun r =>
    In r (admin_sessions (DB w))
    /\ email r = verify_email request /\ otp r = verify_code request
    /\ session_token r = None
    /\ exists t, clock_ok t
                 /\ otp_expires_at r = toISOString (t + 10 * 60 * 1000)
                 /\ clock amb < t + 10 * 60 * 1000 in
  ((exists r, live r) ->
   exists w',
     handleVerifyOTP amb request w
     = (Returned (login_successful request
                    (generateSessionToken (random_bytes amb))), w'))
  /\ ((forall r, ~ live r) ->
      handleVerifyOTP amb request w = (Returned invalid_or_expired, w)).
Proof.
  intros Hh Hc Hup He Hv w live.
  assert (Hissued : Forall issued_row (admin_sessions (DB w))).
  { apply run_issued; [exact Hh | constructor]. }
  rewrite Forall_forall in Hissued.
  assert (Hne : js_not (verify_email request) = false).
  { unfold js_not. now apply String.eqb_neq. }
  destruct (verify_email_json request Hne) as [data Hj].
  assert (F : failed_attempts amb (verify_email request) (DB w) = 0).
  { apply failed_attempts_issued; [exact Hc|]. intros r Hr _ _. auto. }
  pose proof (handleVerifyOTP_past_checks amb request w data Hj Hne
                (validateOTP_nonempty _ Hv) Hv) as P.
  rewrite F in P. specialize (P eq_refl (Hup _) (Hup _)).
  cbv zeta in P. rewrite !Hup in P. cbn [negb] in P.
  assert (L : forall r, In r (admin_sessions (DB w)) ->
                        (otp_matches (verify_email request)
                           (verify_code request) (toISOString (clock amb)) r
                         = true <-> live r)).
  { intros r Hr. unfold live.
    rewrite (issued_row_live (clock amb) _ _ r (Hissued r Hr)
               (clock_ok_now _ Hc)).
    tauto. }
  split.
  - intros (r & Hr). destruct (select_otp _ _ _ _) as [session|] eqn:Sel.
    + eexists. exact P.
    + rewrite select_otp_None in Sel.
      assert (M : otp_matches (verify_email request) (verify_code request)
                    (toISOString (clock amb)) r = true)
        by (apply L; [apply Hr | exact Hr]).
      rewrite Sel in M; [discriminate | apply Hr].
  - intros Hnone. destruct (select_otp _ _ _ _) as [session|] eqn:Sel;
      [|exact P].
    apply select_otp_Some in Sel. destruct Sel as (Hin & M & _).
    apply L in M; [|exact Hin]. destruct (Hnone session M).
Qed.

End TenMinutes.

Lemma otp_lasts_ten_minutes_witness :
  handleVerifyOTP (ambient_at (noon + minutes 10) 0) (verify_request "100001")
    issued_world
  = (Returned invalid_or_expired, issued_world).
Proof.
  assert (C : clock_ok (noon + minutes 10)).
  { unfold clock_ok, four_digit_year, noon, minutes. lia. }
  apply (otp_lasts_ten_minutes isEmail_example
           [ (ambient_at noon 1, SendOTP send_request) ]
           (ambient_at (noon + minutes 10) 0) (verify_request "100001")).
  - constructor; [|constructor].
    unfold clock_ok, four_digit_year, noon; cbn; lia.
  - exact C.
  - intros s. reflexivity.
  - discriminate.
  - reflexivity.
  - intros r (Hr & _ & _ & _ & t & Ht & E & L).
    vm_compute in Hr. destruct Hr as [<-|[]].
    cbn [otp_expires_at] in E.
    assert (E' : toISOString (noon + 10 * 60 * 1000)
                 = toISOString (t + 10 * 60 * 1000)) by exact E.
    assert (Y : four_digit_year (noon + 10 * 60 * 1000)).
    { unfold four_digit_year, noon. lia. }
    pose proof (toISOString_compare _ _ Y
                  (clock_ok_four_digit_year t (10 * 60 * 1000) Ht
                     ltac:(lia))) as Q.
    rewrite E', compare_refl in Q. symmetry in Q. apply Z.compare_eq in Q.
    cbn [clock ambient_at] in L. unfold minutes in L. lia.
Defined.

Lemma cleanupExpiredData_DB amb w :
  DB (snd (cleanupExpiredData amb w))
  = if (d1_ok amb DeleteExpiredRequests && d1_ok amb DeleteExpiredSessions)%bool
    then delete_where (expired_row (toISOString (clock amb))) (DB w)
    else DB w.
Proof.
  unfold cleanupExpiredData, bind, d1_run.
  destruct (d1_ok amb DeleteExpiredRequests); [|reflexivity].
  destruct (d1_ok amb DeleteExpiredSessions); reflexivity.
Qed.

Lemma existsb_filter {A : Type} (p q : A -> bool) (l : list A) :
  (forall x, In x l -> p x = true -> q x = true) ->
  existsb p (filter q l) = existsb p l.
Proof.
  induction l as [|x l IH]; intros H; [reflexivity|]. cbn [filter existsb].
  assert (IH' : existsb p (filter q l) = existsb p l).
  { apply IH. intros y Hy. apply H. now right. }
  destruct (q x) eqn:Q; cbn [existsb]; [now rewrite IH'|].
  destruct (p x) eqn:P; [|exact IH'].
  rewrite (H x (or_introl eq_refl) P) in Q. discriminate.
Qed.

Lemma filter_filter_impl {A : Type} (p q : A -> bool) (l : list A) :
  (forall x, In x l -> p x = true -> q x = true) ->
  filter p (filter q l) = filter p l.
Proof.
  induction l as [|x l IH]; intros H; [reflexivity|]. cbn [filter].
  assert (IH' : filter p (filter q l) = filter p l).
  { apply IH. intros y Hy. apply H. now right. }
  destruct (q x) eqn:Q; cbn [filter]; [now rewrite IH'|].
  destruct (p x) eqn:P; [|exact IH'].
  rewrite (H x (or_introl eq_refl) P) in Q. discriminate.
Qed.

(** A text after [now] is not before an earlier [cleanup] instant. *)
Lemma not_expired_earlier x cleanup now :
  four_digit_year cleanup -> four_digit_year now -> cleanup <= now ->
  text_gt x (toISOString now) = true ->
  text_lt x (toISOString cleanup) = false.
Proof.
  intros Hc Hn Hle G. destruct (text_lt x (toISOString cleanup)) eqn:L;
    [|reflexivity].
  unfold text_gt, text_lt, String.ltb in *.
  destruct (String.compare (toISOString now) x) eqn:C1; try discriminate.
  destruct (String.compare x (toISOString cleanup)) eqn:C2; try discriminate.
  pose proof (compare_lt_trans _ _ _ C1 C2) as C.
  rewrite toISOString_compare in C by assumption.
  rewrite Z.compare_lt_iff in C. exfalso. lia.
Qed.

Lemma expiry_follows_token_consume tok exp r :
  expiry_follows_token (consume tok exp r).
Proof. intros H. discriminate. Qed.

Section CleanUp.

Variable isEmail : string -> bool.

Lemma run_expiry_follows_token history w :
  Forall expiry_follows_token (admin_sessions (DB w)) ->
  Forall expiry_follows_token (admin_sessions (DB (run isEmail history w))).
Proof.
  revert w. induction history as [|[amb c] history IH]; intros w Hw;
    [exact Hw|].
  cbn [run]. apply IH.
  eapply table_step_rows; [apply serve_table_step | | | exact Hw].
  - intros. apply expiry_follows_token_consume.
  - intros request _ H. reflexivity.
Qed.

(** X8.  [cleanupExpiredData] takes nothing away that is still good.
    Whatever the table holds and whichever of its statements fail, a
    session token is valid after the clean-up exactly when it was valid
    before, at every clock reading from the clean-up on; and in a world
    the handlers have built, the row that a verification selects, and
    the answer of [handleVerifyOTP], are the same after the clean-up as
    before. *)
Theorem cleanupExpiredData_keeps_what_is_valid cleanup amb w :
  four_digit_year (clock cleanup) -> four_digit_year (clock amb) ->
  clock cleanup <= clock amb ->
  let w' := snd (cleanupExpiredData cleanup w) in
  (forall sessionToken,
      fst (validateAdminSession amb sessionToken w')
      = fst (validateAdminSession amb sessionToken w))
  /\ (forall request,
         fst (handleCheckAuth amb request w')
         = fst (handleCheckAuth amb request w))
  /\ (forall history e code,
         w = run isEmail history empty_world ->
         select_otp e code (toISOString (clock amb)) (DB w')
         = select_otp e code (toISOString (clock amb)) (DB w))
  /\ (forall history request,
         w = run isEmail history empty_world ->
         clocks_ok history -> clock_ok (clock amb) ->
         fst (handleVerifyOTP amb request w')
         = fst (handleVerifyOTP amb request w)).
Proof.
  intros Hc Hn Hle w'.
  assert (V : forall sessionToken,
             fst (validateAdminSession amb sessionToken w')
             = fst (validateAdminSession amb sessionToken w)).
  { intros sessionToken. rewrite !validateAdminSession_eq.
    destruct sessionToken as [token|]; [|reflexivity].
    destruct (js_not token); [reflexivity|].
    destruct (d1_ok amb SelectSession); [|reflexivity].
    cbn [fst]. f_equal. unfold w'. rewrite cleanupExpiredData_DB.
    destruct (_ && _)%bool; [|reflexivity].
    cbn [delete_where admin_sessions]. apply existsb_filter.
    intros r _ M. unfold session_matches, sql_gt in M.
    apply andb_prop in M. destruct M as [M1 M2].
    unfold expired_row, sql_eq, sql_lt in *.
    destruct (session_token r) as [t|]; [|discriminate].
    destruct (session_expires_at r) as [x|]; [|discriminate].
    cbn [is_null negb andb].
    rewrite (not_expired_earlier x _ _ Hc Hn Hle M2).
    now rewrite andb_false_r. }
  assert (S : forall history e code,
             w = run isEmail history empty_world ->
             select_otp e code (toISOString (clock amb)) (DB w')
             = select_otp e code (toISOString (clock amb)) (DB w)).
  { intros history e code Hw. unfold w'. rewrite cleanupExpiredData_DB.
    destruct (_ && _)%bool; [|reflexivity].
    unfold select_otp. cbn [delete_where admin_sessions]. f_equal.
    apply filter_filter_impl. intros r Hr M.
    apply otp_matches_spec in M. destruct M as (_ & _ & G & T).
    assert (X : expiry_follows_token r).
    { assert (A : Forall expiry_follows_token (admin_sessions (DB w))).
      { rewrite Hw. apply run_expiry_follows_token. constructor. }
      rewrite Forall_forall in A. now apply A. }
    unfold expired_row. rewrite (X T), T. cbn [is_null negb andb].
    now rewrite (not_expired_earlier _ _ _ Hc Hn Hle G). }
  split; [exact V|]. split; [|split; [exact S|]].
  - intros request. unfold handleCheckAuth, bind.
    pose proof (V (getSessionToken request)) as E.
    destruct (validateAdminSession amb (getSessionToken request) w')
      as [[b'|e'] u'];
      destruct (validateAdminSession amb (getSessionToken request) w)
        as [[b|e] u]; cbn [fst] in E; try discriminate;
      injection E as <-; [|reflexivity].
    destruct b'; reflexivity.
  - intros history request Hw Hh Hca.
    assert (I : forall r, In r (admin_sessions (DB w)) -> issued_row r).
    { apply Forall_forall. rewrite Hw. apply run_issued; [exact Hh|constructor]. }
    assert (I' : forall r, In r (admin_sessions (DB w')) -> issued_row r).
    { intros r Hr. apply I. unfold w' in Hr.
      rewrite cleanupExpiredData_DB in Hr.
      destruct (_ && _)%bool; [|exact Hr].
      cbn [delete_where admin_sessions] in Hr.
      now apply filter_In in Hr. }
    rewrite !handleVerifyOTP_eq.
    destruct (json request) as [data|]; [|reflexivity]. cbv zeta.
    destruct (_ || _)%bool; [reflexivity|].
    destruct (negb (validateOTP _)); [reflexivity|].
    destruct (negb (d1_ok amb CountFailedAttempts)); [reflexivity|].
    rewrite !failed_attempts_issued; auto.
    destruct (negb (_ <? _)); [reflexivity|].
    destruct (negb (d1_ok amb SelectOtp)); [reflexivity|].
    rewrite (S history _ _ Hw).
    destruct (select_otp _ _ _ _) as [session|]; [|reflexivity].
    destruct (negb (d1_ok amb UpdateSession)); [reflexivity|].
    destruct (negb (d1_ok amb DeleteUnused)); reflexivity.
Qed.

End CleanUp.

Lemma cleanupExpiredData_keeps_what_is_valid_witness :
  fst (handleCheckAuth (ambient_at (noon + minutes 30) 0)
         (cookie_request ("admin_session=" ++ zero_token))
         (snd (cleanupExpiredData (ambient_at (noon + minutes 20) 0)
                 logged_in_world)))
  = Returned authenticated.
Proof.
  destruct (cleanupExpiredData_keeps_what_is_valid isEmail_example
              (ambient_at (noon + minutes 20) 0)
              (ambient_at (noon + minutes 30) 0) logged_in_world)
    as (_ & H & _).
  - unfold four_digit_year, noon, minutes; cbn; lia.
  - unfold four_digit_year, noon, minutes; cbn; lia.
  - unfold noon, minutes; cbn; lia.
  - rewrite H. reflexivity.
Defined.

(* ================================================================== *)
(** * The request handlers, path by path *)
(* ================================================================== *)

Lemma Site_eta s :
  mkSite (world s) (swag_requests s) (swag_requests_sequence s) = s.
Proof. now destruct s. Qed.

Lemma validateAdminSession_world amb sessionToken w :
  snd (validateAdminSession amb sessionToken w) = w.
Proof.
  rewrite validateAdminSession_eq.
  destruct sessionToken as [token|]; [|reflexivity].
  destruct (js_not token); [reflexivity|].
  destruct (d1_ok amb SelectSession); reflexivity.
Qed.

(** The check that opens each of the four handlers. *)
Lemma lift_validateAdminSession amb request s :
  lift (validateAdminSession amb (getSessionToken request)) s
  = (session_check amb request s, s).
Proof.
  unfold lift, session_check.
  pose proof (validateAdminSession_world amb (getSessionToken request)
                (world s)) as W.
  destruct (validateAdminSession amb (getSessionToken request) (world s))
    as [c w]. cbn [fst snd] in *. subst w. now rewrite Site_eta.
Qed.

Lemma handleGetRequests_eq samb request s :
  handleGetRequests samb request s =
  match session_check (ambient samb) request s with
  | Thrown e => (Thrown e, s)
  | Returned false => (Returned not_authorized, s)
  | Returned true =>
      if requests_ok samb SelectRequests then
        (Returned
           (RequestsAnswer
              (order_by_created_at_desc
                 (filter (unexpired (sqlite_datetime (clock (ambient samb))))
                    (swag_requests s)))), s)
      else
        (Returned (answer (JsonError "Failed to fetch requests" None) 500),
         Site_log "Error fetching requests:" s)
  end.
Proof.
  unfold handleGetRequests, Task_bind. rewrite lift_validateAdminSession.
  destruct (session_check _ _ _) as [[|]|e]; try reflexivity.
  cbn [negb]. unfold Task_try_catch, Task_bind, requests_read.
  destruct (requests_ok samb SelectRequests); reflexivity.
Qed.

Lemma handleExportCSV_eq samb request s :
  handleExportCSV samb request s =
  match session_check (ambient samb) request s with
  | Thrown e => (Thrown e, s)
  | Returned false => (Returned not_authorized, s)
  | Returned true =>
      if requests_ok samb SelectApproved then
        (Returned
           (CsvAnswer
              (csv_of
                 (order_by_created_at_desc
                    (filter
                       (approved_unexpired
                          (sqlite_datetime (clock (ambient samb))))
                       (swag_requests s))))
              ("attachment; filename="
               ++ in_quotes
                    ("approved-requests-"
                     ++ before_T (toISOString (clock (ambient samb)))
                     ++ ".csv"))), s)
      else
        (Returned (answer (JsonError "Failed to export CSV" None) 500),
         Site_log "Error exporting CSV:" s)
  end.
Proof.
  unfold handleExportCSV, Task_bind. rewrite lift_validateAdminSession.
  destruct (session_check _ _ _) as [[|]|e]; try reflexivity.
  cbn [negb]. unfold Task_try_catch, Task_bind, requests_read.
  destruct (requests_ok samb SelectApproved); reflexivity.
Qed.

Lemma filter_length_zero {A : Type} (p : A -> bool) (l : list A) :
  (Z.of_nat (List.length (filter p l)) =? 0) = negb (existsb p l).
Proof.
  induction l as [|x l IH]; [reflexivity|]. cbn [filter existsb].
  destruct (p x); cbn [orb]; [|exact IH].
  cbn [List.length negb]. apply Z.eqb_neq. lia.
Qed.

Lemma filter_none {A : Type} (p : A -> bool) (l : list A) :
  existsb p l = false -> filter (fun x => negb (p x)) l = l.
Proof.
  induction l as [|x l IH]; [reflexivity|]. cbn [filter existsb].
  destruct (p x); cbn [orb negb]; [discriminate|].
  intros H. now rewrite IH.
Qed.

Lemma handleDeleteRequest_eq samb request requestId s :
  handleDeleteRequest samb request requestId s =
  match session_check (ambient samb) request s with
  | Thrown e => (Thrown e, s)
  | Returned false => (Returned not_authorized, s)
  | Returned true =>
      if requests_ok samb DeleteRequest then
        if existsb (fun r => SwagRequest_id r =? requestId) (swag_requests s)
        then
          (Returned (answer (JsonSuccess (Some "Request deleted")) 200),
           mkSite (world s)
             (filter (fun r => negb (SwagRequest_id r =? requestId))
                (swag_requests s))
             (swag_requests_sequence s))
        else (Returned request_not_found, s)
      else
        (Returned (answer (JsonError "Failed to delete request" None) 500),
         Site_log "Error deleting request:" s)
  end.
Proof.
  unfold handleDeleteRequest, Task_bind. rewrite lift_validateAdminSession.
  destruct (session_check _ _ _) as [[|]|e]; try reflexivity.
  cbn [negb]. unfold Task_try_catch, Task_bind, requests_run.
  destruct (requests_ok samb DeleteRequest); [|reflexivity].
  unfold delete_request. cbn [fst snd]. rewrite filter_length_zero.
  destruct (existsb _ _) eqn:E; cbn [negb]; [reflexivity|].
  rewrite (filter_none _ _ E), Site_eta. reflexivity.
Qed.

Lemma handleApproveRequest_eq samb request requestId s :
  handleApproveRequest samb request requestId s =
  match session_check (ambient samb) request s with
  | Thrown e => (Thrown e, s)
  | Returned false => (Returned not_authorized, s)
  | Returned true =>
      let failed :=
        (Returned (answer (JsonError "Failed to approve request" None) 500),
         Site_log "Error approving request:" s) in
      if negb (requests_ok samb SelectRequest) then failed
      else
        match find (fun r => SwagRequest_id r =? requestId) (swag_requests s)
        with
        | None => (Returned request_not_found, s)
        | Some _ =>
            if negb (requests_ok samb UpdateStatus) then failed
            else
              let s1 := snd (update_status approved requestId s) in
              (Returned (answer (JsonSuccess (Some "Request approved")) 200),
               match resend (ambient samb) with
               | FetchRejected => Site_log "Failed to send email:" s1
               | _ => s1
               end)
        end
  end.
Proof.
  unfold handleApproveRequest, Task_bind. rewrite lift_validateAdminSession.
  destruct (session_check _ _ _) as [[|]|e]; try reflexivity.
  cbn [negb]. unfold Task_try_catch, Task_bind, requests_read, requests_run.
  destruct (requests_ok samb SelectRequest); [|reflexivity]. cbn [negb].
  destruct (find _ _) as [r|]; [|reflexivity].
  destruct (requests_ok samb UpdateStatus); [|reflexivity]. cbn [negb].
  unfold lift, sendEmail, update_status. cbn [fst snd world].
  destruct (resend (ambient samb)); reflexivity.
Qed.

Lemma Site_cleanupExpiredData_eq amb s :
  Site_cleanupExpiredData amb s =
  if negb (d1_ok amb DeleteExpiredRequests) then (Thrown "D1_ERROR", s)
  else
    let s1 :=
      mkSite (world s)
        (filter (fun r => negb (expired_request (toISOString (clock amb)) r))
           (swag_requests s))
        (swag_requests_sequence s) in
    if negb (d1_ok amb DeleteExpiredSessions) then (Thrown "D1_ERROR", s1)
    else
      (Returned tt,
       mkSite (mkWorld (delete_where (expired_row (toISOString (clock amb)))
                          (DB (world s))) (console (world s)))
         (swag_requests s1) (swag_requests_sequence s)).
Proof.
  unfold Site_cleanupExpiredData, Task_bind, lift, d1_run.
  destruct (d1_ok amb DeleteExpiredRequests); [|reflexivity]. cbn [negb world].
  destruct (d1_ok amb DeleteExpiredSessions); reflexivity.
Qed.

Section SubmissionPaths.

Variable isEmail : string -> bool.
Variable validateSwagRequest : SwagRequestInput -> option string.

Lemma handleSwagRequestSubmission_eq samb request s :
  handleSwagRequestSubmission validateSwagRequest samb request s =
  let failed s' :=
    (Returned (answer (JsonError "Failed to submit request. Please try again."
                         None) 500),
     Site_log "Error submitting swag request:" s') in
  match json request with
  | None => failed s
  | Some data =>
      match validateSwagRequest data with
      | Some error => (Returned (answer (JsonError error None) 400), s)
      | None =>
          match SwagRequestInput_email data with
          | None => failed s
          | Some _ =>
              let e := submission_email request in
              if negb (requests_ok samb CountRequests) then failed s
              else if MAX_REQUESTS_PER_EMAIL
                      <=? count_requests e (swag_requests s) then
                (Returned (answer
                   (JsonError
                      "You have reached the maximum limit of 10 swag requests. Please wait for your existing requests to expire or be processed."
                      None) 400), s)
              else
                match SwagRequestInput_name data, SwagRequestInput_phone data,
                      SwagRequestInput_address data with
                | Some name, Some phone, Some address =>
                    if negb (requests_ok samb InsertRequest) then failed s
                    else
                      let s1 :=
                        snd (insert_request (clock (ambient samb)) (trim name)
                               e (trim phone) (trim address)
                               (promo_code_or_null
                                  (SwagRequestInput_promo_code data)) s) in
                      if (negb (next_request_id s =? 0)
                          && negb (requests_ok samb InsertAnalytics))%bool
                      then failed s1
                      else
                        (Returned (answer
                           (JsonSuccess
                              (Some "Swag request submitted successfully"))
                           200), s1)
                | _, _, _ => failed s
                end
          end
      end
  end.
Proof.
  unfold handleSwagRequestSubmission, submission_email, Task_try_catch,
    Task_bind, lift, request_json.
  destruct (json request) as [data|]; [|reflexivity].
  cbn [ret]. unfold ret. rewrite Site_eta.
  destruct (validateSwagRequest data) as [error|]; [reflexivity|].
  destruct (SwagRequestInput_email data) as [e0|]; [|reflexivity].
  cbn [trimmed Task_ret]. unfold Task_ret at 1. unfold requests_read.
  destruct (requests_ok samb CountRequests); [|reflexivity]. cbn [negb].
  destruct (_ <=? _); [reflexivity|].
  destruct (SwagRequestInput_name data) as [name|]; [|reflexivity].
  cbn [trimmed]. unfold Task_ret at 1.
  destruct (SwagRequestInput_phone data) as [phone|]; [|reflexivity].
  cbn [trimmed]. unfold Task_ret at 1.
  destruct (SwagRequestInput_address data) as [address|]; [|reflexivity].
  cbn [trimmed]. unfold Task_ret at 1. unfold requests_run.
  destruct (requests_ok samb InsertRequest); [|reflexivity]. cbn [negb].
  unfold insert_request. cbn [fst snd].
  destruct (next_request_id s =? 0); cbn [negb andb]; [reflexivity|].
  destruct (requests_ok samb InsertAnalytics); reflexivity.
Qed.

End SubmissionPaths.

(* ================================================================== *)
(** * Further properties: who may manage the requests *)
(* ================================================================== *)

Lemma handleCheckAuth_session_check amb request s :
  handleCheckAuth amb request (world s)
  = match session_check amb request s with
    | Returned true => (Returned authenticated, world s)
    | Returned false => (Returned unauthorized, world s)
    | Thrown e => (Thrown e, world s)
    end.
Proof.
  unfold handleCheckAuth, bind, session_check.
  pose proof (validateAdminSession_world amb (getSessionToken request)
                (world s)) as W.
  destruct (validateAdminSession amb (getSessionToken request) (world s))
    as [[[|]|e] w]; cbn [fst snd] in *; subst w; reflexivity.
Qed.

Lemma logged_in_session_check amb request s :
  handleCheckAuth amb request (world s) = (Returned authenticated, world s) ->
  session_check amb request s = Returned true.
Proof.
  rewrite handleCheckAuth_session_check.
  destruct (session_check amb request s) as [[|]|e];
    [reflexivity | discriminate | discriminate].
Qed.

Lemma logged_out_session_check amb request s :
  handleCheckAuth amb request (world s) = (Returned unauthorized, world s) ->
  session_check amb request s = Returned false.
Proof.
  rewrite handleCheckAuth_session_check.
  destruct (session_check amb request s) as [[|]|e];
    [discriminate | reflexivity | discriminate].
Qed.

(** X9.  The four request-management handlers answer 401 exactly to the
    requests that [handleCheckAuth] answers 401: such a request leaves
    the site as it was and reaches no statement on [swag_requests]
    (whether those would fail makes no difference), and a request that
    [handleCheckAuth] authenticates is answered 200, 404 or 500, never
    401. *)
Theorem request_management_needs_a_session samb request requestId s :
  (handleCheckAuth (ambient samb) request (world s)
   = (Returned unauthorized, world s) ->
   handleGetRequests samb request s = (Returned not_authorized, s)
   /\ handleApproveRequest samb request requestId s
      = (Returned not_authorized, s)
   /\ handleDeleteRequest samb request requestId s
      = (Returned not_authorized, s)
   /\ handleExportCSV samb request s = (Returned not_authorized, s))
  /\ (handleCheckAuth (ambient samb) request (world s)
      = (Returned authenticated, world s) ->
      forall handler,
        In handler [ handleGetRequests samb request;
                     handleApproveRequest samb request requestId;
                     handleDeleteRequest samb request requestId;
                     handleExportCSV samb request ] ->
        exists resp s',
          handler s = (Returned resp, s')
          /\ In (status_of resp) [200; 404; 500]).
Proof.
  split.
  - intros H. apply logged_out_session_check in H.
    rewrite handleGetRequests_eq, handleApproveRequest_eq,
      handleDeleteRequest_eq, handleExportCSV_eq, H. repeat split.
  - intros H handler Hin. apply logged_in_session_check in H.
    cbn [In] in Hin. destruct Hin as [<-|[<-|[<-|[<-|[]]]]].
    + rewrite handleGetRequests_eq, H.
      destruct (requests_ok samb SelectRequests);
        eexists; eexists; (split; [reflexivity|]); cbn; tauto.
    + rewrite handleApproveRequest_eq, H. cbv zeta.
      destruct (requests_ok samb SelectRequest); cbn [negb];
        [|eexists; eexists; (split; [reflexivity|]); cbn; tauto].
      destruct (find _ _);
        [|eexists; eexists; (split; [reflexivity|]); cbn; tauto].
      destruct (requests_ok samb UpdateStatus); cbn [negb];
        eexists; eexists; (split; [reflexivity|]); cbn; tauto.
    + rewrite handleDeleteRequest_eq, H.
      destruct (requests_ok samb DeleteRequest);
        [|eexists; eexists; (split; [reflexivity|]); cbn; tauto].
      destruct (existsb _ _);
        eexists; eexists; (split; [reflexivity|]); cbn; tauto.
    + rewrite handleExportCSV_eq, H.
      destruct (requests_ok samb SelectApproved);
        eexists; eexists; (split; [reflexivity|]); cbn; tauto.
Qed.

Lemma request_management_needs_a_session_witness :
  handleDeleteRequest
    (mkSiteAmbient (ambient_at noon 0) (fun _ => true))
    (cookie_request "") 1 empty_site
  = (Returned not_authorized, empty_site).
Proof.
  destruct (request_management_needs_a_session
              (mkSiteAmbient (ambient_at noon 0) (fun _ => true))
              (cookie_request "") 1 empty_site) as [H _].
  destruct (H eq_refl) as (_ & _ & D & _). exact D.
Defined.

(* ================================================================== *)
(** * Further properties: the list of requests *)
(* ================================================================== *)

Lemma insert_by_created_at_perm r l :
  Permutation (insert_by_created_at r l) (r :: l).
Proof.
  induction l as [|x l IH]; cbn [insert_by_created_at]; [reflexivity|].
  destruct (text_lt _ _); [|reflexivity].
  rewrite IH. apply perm_swap.
Qed.

Lemma order_by_created_at_desc_perm l :
  Permutation (order_by_created_at_desc l) l.
Proof.
  induction l as [|x l IH]; [reflexivity|].
  cbn [order_by_created_at_desc fold_right].
  rewrite insert_by_created_at_perm. now constructor.
Qed.

Lemma insert_by_created_at_sorted r l :
  StronglySorted newest_first l ->
  StronglySorted newest_first (insert_by_created_at r l).
Proof.
  induction 1 as [|x l Hs IH Hx]; cbn [insert_by_created_at].
  - constructor; constructor.
  - destruct (text_lt (SwagRequest_created_at r) (SwagRequest_created_at x))
      eqn:E.
    + constructor; [exact IH|].
      rewrite (insert_by_created_at_perm r l). constructor; [|exact Hx].
      now apply text_lt_asym.
    + constructor; [now constructor|]. constructor; [exact E|].
      rewrite Forall_forall in *. intros y Hy.
      exact (text_not_lt_trans _ _ _ E (Hx y Hy)).
Qed.

Lemma order_by_created_at_desc_sorted l :
  StronglySorted newest_first (order_by_created_at_desc l).
Proof.
  induction l as [|x l IH]; [constructor|].
  now apply insert_by_created_at_sorted.
Qed.

(** A request whose expiry is the SQLite text of [x] counts as unexpired
    while the second of [now] is before the second of [x]. *)
Lemma unexpired_by_second now x r :
  four_digit_year now -> four_digit_year x ->
  SwagRequest_expires_at r = sqlite_datetime x ->
  unexpired (sqlite_datetime now) r = (now / 1000 <? x / 1000).
Proof.
  intros Hn Hx E. unfold unexpired, text_gt. rewrite E.
  now apply text_lt_sqlite_datetime.
Qed.

(** X10.  For a logged-in administrator [handleGetRequests] answers with
    the requests that have not expired, each once, newest first, and
    changes nothing.  A request submitted at clock reading [t], which
    expires 30 days later, is in the list exactly while the clock, in
    whole seconds, is less than 30 days past [t]. *)
Theorem handleGetRequests_lists_unexpired samb request s :
  handleCheckAuth (ambient samb) request (world s)
  = (Returned authenticated, world s) ->
  requests_ok samb SelectRequests = true ->
  let now := clock (ambient samb) in
  exists requests,
    handleGetRequests samb request s = (Returned (RequestsAnswer requests), s)
    /\ Permutation requests
         (filter (unexpired (sqlite_datetime now)) (swag_requests s))
    /\ StronglySorted newest_first requests
    /\ (forall r t,
           In r (swag_requests s) ->
           SwagRequest_expires_at r
           = sqlite_datetime (t + REQUEST_LIFETIME_MS) ->
           four_digit_year now -> four_digit_year (t + REQUEST_LIFETIME_MS) ->
           (In r requests <-> now / 1000 < t / 1000 + 30 * 86400)).
Proof.
  intros H Hok now. subst now. apply logged_in_session_check in H.
  rewrite handleGetRequests_eq, H, Hok. eexists. split; [reflexivity|].
  set (now := clock (ambient samb)).
  split; [apply order_by_created_at_desc_perm|].
  split; [apply order_by_created_at_desc_sorted|].
  intros r t Hr Hexp Hn Hx.
  assert (P : forall x, In x (order_by_created_at_desc
                               (filter (unexpired (sqlite_datetime now))
                                  (swag_requests s)))
                        <-> In x (filter (unexpired (sqlite_datetime now))
                                    (swag_requests s))).
  { intros x. split; apply Permutation_in;
      [|symmetry]; apply order_by_created_at_desc_perm. }
  rewrite P, filter_In, (unexpired_by_second now _ r Hn Hx Hexp), Z.ltb_lt.
  unfold REQUEST_LIFETIME_MS, MS_PER_DAY.
  replace (t + 30 * 86400000) with (t + 30 * 86400 * 1000) by lia.
  rewrite Z.div_add by lia. tauto.
Qed.

Lemma submitted_site_rows : swag_requests submitted_site = [example_row].
Proof. vm_compute. reflexivity. Qed.

Lemma handleGetRequests_lists_unexpired_witness :
  exists requests,
    handleGetRequests (site_ambient_at (noon + minutes 3)) admin_request
      submitted_site
    = (Returned (RequestsAnswer requests), submitted_site)
    /\ Permutation requests [example_row].
Proof.
  destruct (handleGetRequests_lists_unexpired
              (site_ambient_at (noon + minutes 3)) admin_request
              submitted_site eq_refl eq_refl) as (requests & E & P & _).
  exists requests. split; [exact E|]. exact P.
Defined.

(* ================================================================== *)
(** * Further properties: deleting and approving a request *)
(* ================================================================== *)

Lemma existsb_request_id requestId rows :
  existsb (fun r => SwagRequest_id r =? requestId) rows = true
  <-> exists r, In r rows /\ SwagRequest_id r = requestId.
Proof.
  rewrite existsb_exists. split; intros (r & Hr & E); exists r;
    (split; [exact Hr|]); now apply Z.eqb_eq.
Qed.

Lemma find_request_id requestId rows :
  find (fun r => SwagRequest_id r =? requestId) rows = None
  <-> ~ exists r, In r rows /\ SwagRequest_id r = requestId.
Proof.
  split.
  - intros F (r & Hr & E). apply (find_none _ _ F) in Hr.
    apply Z.eqb_neq in Hr. contradiction.
  - intros N. destruct (find _ rows) as [r|] eqn:F; [|reflexivity].
    apply find_some in F. destruct F as [Hr E]. apply Z.eqb_eq in E.
    destruct N. now exists r.
Qed.

Lemma session_check_DB amb request s s' :
  DB (world s) = DB (world s') ->
  session_check amb request s = session_check amb request s'.
Proof.
  intros E. unfold session_check. rewrite !validateAdminSession_eq, E.
  destruct (getSessionToken request) as [token|]; [|reflexivity].
  destruct (js_not token); [reflexivity|].
  destruct (d1_ok amb SelectSession); reflexivity.
Qed.

(** X11.  For a logged-in administrator whose DELETE completes,
    [handleDeleteRequest] answers 404 exactly when no request has the
    id, and then changes nothing; otherwise it answers 200 and the table
    is the one before without the rows of that id, every other row as it
    was and in the same order.  The admin subsystem is not touched, and
    deleting the same id once more is answered 404. *)
Theorem handleDeleteRequest_removes_the_request samb request requestId s :
  handleCheckAuth (ambient samb) request (world s)
  = (Returned authenticated, world s) ->
  requests_ok samb DeleteRequest = true ->
  let present :=
    exists r, In r (swag_requests s) /\ SwagRequest_id r = requestId in
  exists resp s',
    handleDeleteRequest samb request requestId s = (Returned resp, s')
    /\ (present ->
        resp = answer (JsonSuccess (Some "Request deleted")) 200)
    /\ (~ present -> resp = request_not_found /\ s' = s)
    /\ world s' = world s
    /\ swag_requests s'
       = filter (fun r => negb (SwagRequest_id r =? requestId))
           (swag_requests s)
    /\ (forall r, In r (swag_requests s')
                  <-> In r (swag_requests s) /\ SwagRequest_id r <> requestId)
    /\ handleDeleteRequest samb request requestId s'
       = (Returned request_not_found, s').
Proof.
  intros H Hok present.
  assert (C : session_check (ambient samb) request s = Returned true)
    by now apply logged_in_session_check.
  assert (G : forall rows,
             existsb (fun r => SwagRequest_id r =? requestId)
               (filter (fun r => negb (SwagRequest_id r =? requestId)) rows)
             = false).
  { intros rows. induction rows as [|r rows IH]; [reflexivity|].
    cbn [filter]. destruct (SwagRequest_id r =? requestId) eqn:E;
      cbn [negb]; [exact IH|]. cbn [existsb]. now rewrite E. }
  assert (F : forall r rows,
             In r (filter (fun r => negb (SwagRequest_id r =? requestId)) rows)
             <-> In r rows /\ SwagRequest_id r <> requestId).
  { intros r rows. rewrite filter_In, negb_true_iff, Z.eqb_neq. tauto. }
  rewrite handleDeleteRequest_eq, C, Hok.
  destruct (existsb _ (swag_requests s)) eqn:E.
  - assert (P : present) by now apply existsb_request_id.
    eexists. eexists. split; [reflexivity|]. cbn [world swag_requests].
    split; [reflexivity|]. split; [intros N; contradiction|].
    split; [reflexivity|]. split; [reflexivity|]. split; [intros r; apply F|].
    rewrite handleDeleteRequest_eq.
    replace (session_check (ambient samb) request _) with (Returned true)
      by (rewrite <- C; reflexivity).
    rewrite Hok. cbn [swag_requests]. now rewrite G.
  - assert (N : ~ present).
    { intros P. apply existsb_request_id in P.
      rewrite E in P. discriminate. }
    exists request_not_found, s. split; [reflexivity|].
    rewrite (filter_none _ _ E).
    split; [intros P; contradiction|]. split; [now split|].
    split; [reflexivity|]. split; [reflexivity|]. split.
    + intros r. split; [|tauto]. intros Hr. split; [exact Hr|].
      intros Eid. apply N. now exists r.
    + rewrite handleDeleteRequest_eq, C, Hok, E. reflexivity.
Qed.

Lemma handleDeleteRequest_removes_the_request_witness :
  exists s',
    handleDeleteRequest (site_ambient_at (noon + minutes 3)) admin_request 1
      submitted_site
    = (Returned (answer (JsonSuccess (Some "Request deleted")) 200), s')
    /\ swag_requests s' = [].
Proof.
  destruct (handleDeleteRequest_removes_the_request
              (site_ambient_at (noon + minutes 3)) admin_request 1
              submitted_site eq_refl eq_refl)
    as (resp & s' & E & P & _ & _ & R & _).
  exists s'. split.
  - rewrite E, P; [reflexivity|].
    exists example_row. split; [left; reflexivity | reflexivity].
  - rewrite R. reflexivity.
Defined.

(** X12.  For a logged-in administrator whose statements complete,
    [handleApproveRequest] answers 404 when no request has the id, and
    then changes nothing; otherwise it answers 200 whatever becomes of
    the e-mail, the rows of that id get the status [approved] (whatever
    their status and expiry were), and nothing else in the table
    changes.  Approving the same id again leaves the table as the first
    approval made it. *)
Theorem handleApproveRequest_approves samb request requestId s :
  handleCheckAuth (ambient samb) request (world s)
  = (Returned authenticated, world s) ->
  requests_ok samb SelectRequest = true ->
  requests_ok samb UpdateStatus = true ->
  let present :=
    exists r, In r (swag_requests s) /\ SwagRequest_id r = requestId in
  exists resp s',
    handleApproveRequest samb request requestId s = (Returned resp, s')
    /\ (present ->
        resp = answer (JsonSuccess (Some "Request approved")) 200)
    /\ (~ present -> resp = request_not_found /\ s' = s)
    /\ DB (world s') = DB (world s)
    /\ (resend (ambient samb) <> FetchRejected -> world s' = world s)
    /\ swag_requests s'
       = map (fun r => if SwagRequest_id r =? requestId
                       then with_status approved r else r) (swag_requests s)
    /\ swag_requests_sequence s' = swag_requests_sequence s
    /\ swag_requests (snd (handleApproveRequest samb request requestId s'))
       = swag_requests s'.
Proof.
  intros H Hs Hu present.
  assert (C : session_check (ambient samb) request s = Returned true)
    by now apply logged_in_session_check.
  assert (M : forall rows,
             ~ (exists r, In r rows /\ SwagRequest_id r = requestId) ->
             map (fun r => if SwagRequest_id r =? requestId
                           then with_status approved r else r) rows = rows).
  { intros rows N. induction rows as [|r rows IH]; [reflexivity|].
    cbn [map]. destruct (Z.eqb_spec (SwagRequest_id r) requestId) as [E|E].
    - destruct N. exists r. split; [now left | exact E].
    - rewrite IH; [reflexivity|]. intros (x & Hx & Ex). apply N.
      exists x. split; [now right | exact Ex]. }
  assert (MM : forall rows,
             map (fun r => if SwagRequest_id r =? requestId
                           then with_status approved r else r)
               (map (fun r => if SwagRequest_id r =? requestId
                              then with_status approved r else r) rows)
             = map (fun r => if SwagRequest_id r =? requestId
                             then with_status approved r else r) rows).
  { intros rows. rewrite map_map. apply map_ext. intros r.
    destruct (SwagRequest_id r =? requestId) eqn:E; [|now rewrite E].
    cbn [with_status SwagRequest_id]. now rewrite E. }
  assert (A : forall s0,
             session_check (ambient samb) request s0 = Returned true ->
             swag_requests
               (snd (handleApproveRequest samb request requestId s0))
             = map (fun r => if SwagRequest_id r =? requestId
                             then with_status approved r else r)
                 (swag_requests s0)).
  { intros s0 C0. rewrite handleApproveRequest_eq, C0, Hs, Hu. cbv zeta.
    cbn [negb]. destruct (find _ _) as [r|] eqn:F.
    - cbn [snd]. destruct (resend (ambient samb)); reflexivity.
    - cbn [snd]. symmetry. apply M. now apply find_request_id. }
  rewrite handleApproveRequest_eq, C, Hs, Hu. cbv zeta. cbn [negb].
  destruct (find _ _) as [r|] eqn:F.
  - assert (P : present).
    { apply find_some in F. destruct F as [Hr E]. apply Z.eqb_eq in E.
      now exists r. }
    eexists. eexists. split; [reflexivity|].
    split; [reflexivity|]. split; [intros N; contradiction|].
    split; [destruct (resend (ambient samb)); reflexivity|].
    split; [destruct (resend (ambient samb)); try reflexivity;
            intros N; now destruct N|].
    split; [destruct (resend (ambient samb)); reflexivity|].
    split; [destruct (resend (ambient samb)); reflexivity|].
    rewrite A.
    + destruct (resend (ambient samb)); cbn [swag_requests snd update_status
                                               Site_log]; apply MM.
    + rewrite <- C. apply session_check_DB.
      destruct (resend (ambient samb)); reflexivity.
  - assert (N : ~ present) by now apply find_request_id.
    exists request_not_found, s. split; [reflexivity|].
    split; [intros P; contradiction|]. split; [now split|].
    split; [reflexivity|]. split; [reflexivity|].
    split; [symmetry; now apply M|]. split; [reflexivity|].
    rewrite (A s C). now apply M.
Qed.

Lemma handleApproveRequest_approves_witness :
  exists s',
    handleApproveRequest (site_ambient_at (noon + minutes 3)) admin_request 1
      submitted_site
    = (Returned (answer (JsonSuccess (Some "Request approved")) 200), s')
    /\ swag_requests s' = [with_status approved example_row].
Proof.
  destruct (handleApproveRequest_approves
              (site_ambient_at (noon + minutes 3)) admin_request 1
              submitted_site eq_refl eq_refl eq_refl)
    as (resp & s' & E & P & _ & _ & _ & R & _).
  exists s'. split.
  - rewrite E, P; [reflexivity|].
    exists example_row. split; [left; reflexivity | reflexivity].
  - rewrite R. reflexivity.
Defined.

(* ================================================================== *)
(** * Further properties: the CSV export *)
(* ================================================================== *)

Lemma append_assoc (a b c : string) : (a ++ b) ++ c = a ++ (b ++ c).
Proof. induction a as [|x a IH]; cbn; [reflexivity | now rewrite IH]. Qed.

Lemma append_inv_head (a b c : string) : a ++ b = a ++ c -> b = c.
Proof.
  induction a as [|x a IH]; cbn; [auto|]. intros [= H]. auto.
Qed.

Lemma String_inj c (a b : string) : String c a = String c b -> a = b.
Proof. now intros [= H]. Qed.

Lemma csv_of_eq requests :
  csv_of requests = String.concat "," csv_headers ++ csv_lines requests.
Proof.
  unfold csv_of. generalize (String.concat "," csv_headers) as h.
  induction requests as [|r rest IH]; intros h.
  - cbn. now rewrite append_empty_r.
  - cbn [map]. change (String.concat ?sep (?x :: ?y :: ?l))
      with (x ++ sep ++ String.concat sep (y :: l)).
    specialize (IH (String.concat "," (csv_row r))). cbn [map] in IH.
    rewrite IH. reflexivity.
Qed.

(** A doubled-quote text followed by a quote can be read back in one way
    only, when what follows does not begin with another quote. *)
Lemma double_the_quotes_inj a b rest1 rest2 :
  no_quote_ahead rest1 -> no_quote_ahead rest2 ->
  double_the_quotes a ++ String double_quote rest1
  = double_the_quotes b ++ String double_quote rest2 ->
  a = b /\ rest1 = rest2.
Proof.
  intros H1 H2. revert b.
  induction a as [|x a IH]; intros [|y b]; cbn [double_the_quotes append].
  - intros [= E]. now split.
  - destruct (Ascii.eqb_spec y double_quote) as [->|Ny]; cbn [append].
    + intros [= E]. destruct (H1 _ E).
    + intros [= E]. now destruct Ny.
  - destruct (Ascii.eqb_spec x double_quote) as [->|Nx]; cbn [append].
    + intros [= E]. symmetry in E. destruct (H2 _ E).
    + intros [= E]. now destruct Nx.
  - destruct (Ascii.eqb_spec x double_quote) as [->|Nx];
      destruct (Ascii.eqb_spec y double_quote) as [->|Ny]; cbn [append].
    + intros [= E]. destruct (IH b E) as [-> ->]. now split.
    + intros [= E _]. now destruct Ny.
    + intros [= E _]. now destruct Nx.
    + intros [= -> E]. destruct (IH b E) as [-> ->]. now split.
Qed.

Lemma double_the_quotes_none s :
  no_double_quote s -> double_the_quotes s = s.
Proof.
  unfold no_double_quote. induction s as [|c s IH]; cbn; [reflexivity|].
  destruct (Ascii.eqb c double_quote); cbn; [discriminate|].
  intros H. now rewrite IH.
Qed.

Lemma in_quotes_app x rest :
  in_quotes x ++ rest = String double_quote (x ++ String double_quote rest).
Proof. unfold in_quotes. cbn [append]. now rewrite append_assoc. Qed.

Lemma no_quote_ahead_comma s : no_quote_ahead ("," ++ s).
Proof. intros rest. discriminate. Qed.

Lemma no_quote_ahead_csv_lines requests : no_quote_ahead (csv_lines requests).
Proof. intros rest. destruct requests; discriminate. Qed.

Lemma csv_row_inj r1 r2 rest1 rest2 :
  no_double_quote (SwagRequest_created_at r1) ->
  no_double_quote (SwagRequest_created_at r2) ->
  no_quote_ahead rest1 -> no_quote_ahead rest2 ->
  String.concat "," (csv_row r1) ++ rest1
  = String.concat "," (csv_row r2) ++ rest2 ->
  exported_columns r1 = exported_columns r2 /\ rest1 = rest2.
Proof.
  intros Q1 Q2 H1 H2. unfold csv_row, exported_columns.
  replace (in_quotes (SwagRequest_created_at r1))
    with (in_quotes (double_the_quotes (SwagRequest_created_at r1)))
    by now rewrite double_the_quotes_none.
  replace (in_quotes (SwagRequest_created_at r2))
    with (in_quotes (double_the_quotes (SwagRequest_created_at r2)))
    by now rewrite double_the_quotes_none.
  cbn [String.concat]. rewrite !append_assoc, !in_quotes_app.
  intros [= E].
  apply double_the_quotes_inj in E; try apply no_quote_ahead_comma.
  destruct E as [E1 E]. cbn [append] in E. injection E as E.
  apply double_the_quotes_inj in E; try apply no_quote_ahead_comma.
  destruct E as [E2 E]. cbn [append] in E. injection E as E.
  apply double_the_quotes_inj in E; try apply no_quote_ahead_comma.
  destruct E as [E3 E]. cbn [append] in E. injection E as E.
  apply double_the_quotes_inj in E; try apply no_quote_ahead_comma.
  destruct E as [E4 E]. cbn [append] in E. injection E as E.
  apply double_the_quotes_inj in E; try assumption.
  destruct E as [E5 E]. split; [congruence | exact E].
Qed.

Lemma all_chars_app p a b :
  all_chars p (a ++ b) = (all_chars p a && all_chars p b)%bool.
Proof.
  induction a as [|c a IH]; cbn; [reflexivity|].
  now rewrite IH, andb_assoc.
Qed.

Lemma pad_no_double_quote k x : no_double_quote (pad k x).
Proof.
  apply (all_chars_impl is_digit); [|apply all_digits_pad].
  intros c H. destruct (Ascii.eqb_spec c double_quote) as [->|];
    [discriminate | reflexivity].
Qed.

Lemma sqlite_datetime_no_double_quote t : no_double_quote (sqlite_datetime t).
Proof.
  unfold no_double_quote, sqlite_datetime, date_text, clock_text, year_text.
  destruct (civil_from_days (t / MS_PER_DAY)) as [[y m] d].
  repeat rewrite all_chars_app.
  assert (P : forall k x,
             all_chars (fun c => negb (Ascii.eqb c double_quote)) (pad k x)
             = true) by exact pad_no_double_quote.
  destruct ((0 <=? y) && (y <=? 9999))%bool;
    [|destruct (y <? 0); rewrite ?all_chars_app];
    rewrite ?P; reflexivity.
Qed.

(** X13.  The export can be read back in one way only.  Its first line
    is the header, and two lists of requests that give the same file
    agree, row by row, on the five exported columns, whatever quotes,
    commas and line feeds the names, addresses, phones and e-mail
    addresses hold; the creation times are not escaped, and those SQLite
    writes hold no double quote. *)
Theorem csv_of_injective rows1 rows2 :
  (forall r, In r rows1 \/ In r rows2 ->
             no_double_quote (SwagRequest_created_at r)) ->
  csv_of rows1 = csv_of rows2 ->
  map exported_columns rows1 = map exported_columns rows2
  /\ csv_of rows1 = "Name,Email,Phone,Address,Created At" ++ csv_lines rows1
  /\ forall t, no_double_quote (sqlite_datetime t).
Proof.
  intros Q E. split; [|split; [apply csv_of_eq|
                               apply sqlite_datetime_no_double_quote]].
  rewrite !csv_of_eq in E. apply append_inv_head in E.
  revert rows2 Q E.
  induction rows1 as [|r1 rows1 IH]; intros [|r2 rows2] Q E;
    try discriminate; [reflexivity|].
  cbn [csv_lines] in E. apply String_inj in E.
  apply csv_row_inj in E; try apply no_quote_ahead_csv_lines;
    try (apply Q; cbn [In]; tauto).
  destruct E as [E1 E2]. cbn [map]. f_equal; [exact E1|].
  apply IH; [|exact E2]. intros r [H|H]; apply Q; cbn [In]; tauto.
Qed.

Lemma csv_of_injective_witness :
  map exported_columns [example_row]
  = map exported_columns [with_status approved example_row].
Proof.
  apply (csv_of_injective [example_row] [with_status approved example_row]).
  - intros r [[<-|[]]|[<-|[]]]; reflexivity.
  - reflexivity.
Defined.

Lemma before_T_app a b :
  all_chars (fun c => negb (Ascii.eqb c "T")) a = true ->
  before_T (a ++ String "T" b) = a.
Proof.
  induction a as [|c a IH]; cbn; [reflexivity|].
  destruct (Ascii.eqb c "T"); cbn; [discriminate|].
  intros H. now rewrite IH.
Qed.

Lemma date_text_no_T day :
  all_chars (fun c => negb (Ascii.eqb c "T")) (date_text day) = true.
Proof.
  assert (P : forall k x,
             all_chars (fun c => negb (Ascii.eqb c "T")) (pad k x) = true).
  { intros k x. apply (all_chars_impl is_digit); [|apply all_digits_pad].
    intros c H. destruct (Ascii.eqb_spec c "T") as [->|];
      [discriminate | reflexivity]. }
  unfold date_text, year_text.
  destruct (civil_from_days day) as [[y m] d].
  repeat rewrite all_chars_app.
  destruct ((0 <=? y) && (y <=? 9999))%bool;
    [|destruct (y <? 0); rewrite ?all_chars_app];
    rewrite ?P; reflexivity.
Qed.

(** The date in the name of the export. *)
Lemma before_T_toISOString t :
  before_T (toISOString t) = date_text (t / MS_PER_DAY).
Proof. unfold toISOString. apply before_T_app, date_text_no_T. Qed.

(** X14.  For a logged-in administrator whose SELECT completes,
    [handleExportCSV] answers with the file of exactly the requests that
    are approved and have not expired, each once, newest first, named
    after the UTC date of the request, and changes nothing.  A pending
    or rejected request is never in the file. *)
Theorem handleExportCSV_exports_approved samb request s :
  handleCheckAuth (ambient samb) request (world s)
  = (Returned authenticated, world s) ->
  requests_ok samb SelectApproved = true ->
  let now := clock (ambient samb) in
  exists requests,
    handleExportCSV samb request s
    = (Returned
         (CsvAnswer (csv_of requests)
            ("attachment; filename="
             ++ in_quotes ("approved-requests-" ++ date_text (now / MS_PER_DAY)
                           ++ ".csv"))), s)
    /\ Permutation requests
         (filter (approved_unexpired (sqlite_datetime now)) (swag_requests s))
    /\ StronglySorted newest_first requests
    /\ (forall r, In r requests <->
                  In r (swag_requests s)
                  /\ SwagRequest_status r = approved
                  /\ unexpired (sqlite_datetime now) r = true).
Proof.
  intros H Hok now. subst now. apply logged_in_session_check in H.
  rewrite handleExportCSV_eq, H, Hok, before_T_toISOString.
  eexists. split; [reflexivity|].
  split; [apply order_by_created_at_desc_perm|].
  split; [apply order_by_created_at_desc_sorted|].
  intros r.
  assert (P : In r (order_by_created_at_desc
                      (filter
                         (approved_unexpired
                            (sqlite_datetime (clock (ambient samb))))
                         (swag_requests s)))
              <-> In r (filter
                          (approved_unexpired
                             (sqlite_datetime (clock (ambient samb))))
                          (swag_requests s))).
  { split; apply Permutation_in;
      [|symmetry]; apply order_by_created_at_desc_perm. }
  rewrite P, filter_In. unfold approved_unexpired, is_approved, unexpired.
  rewrite andb_true_iff.
  destruct (SwagRequest_status r); intuition discriminate.
Qed.

Lemma handleExportCSV_exports_approved_witness :
  exists requests,
    handleExportCSV (site_ambient_at (noon + minutes 3)) admin_request
      submitted_site
    = (Returned
         (CsvAnswer (csv_of requests)
            ("attachment; filename="
             ++ in_quotes "approved-requests-2024-01-01.csv")),
       submitted_site)
    /\ Permutation requests [].
Proof.
  destruct (handleExportCSV_exports_approved
              (site_ambient_at (noon + minutes 3)) admin_request
              submitted_site eq_refl eq_refl) as (requests & E & P & _).
  exists requests. split; [exact E | exact P].
Defined.

(* ================================================================== *)
(** * Further properties: submitting a request *)
(* ================================================================== *)

Section SubmissionAnswers.

Variable validateSwagRequest : SwagRequestInput -> option string.

(** X15.  [handleSwagRequestSubmission] always completes, with 200, 400
    or 500.  A body that the validation rejects is answered 400 with the
    validation's error before any statement is issued.  A 200 means that
    the body was valid, that the address had fewer than ten requests, and
    that exactly one row was appended: trimmed fields, the address
    trimmed and in lower case, status [pending], expiring 30 days after
    its creation.  A 400 changes nothing.  A 500 adds a line to the log,
    and the table is as before unless it was the INSERT into
    [request_analytics] that failed: then the request is stored all the
    same. *)
Theorem handleSwagRequestSubmission_answers samb request s :
  let t := clock (ambient samb) in
  exists resp s',
    handleSwagRequestSubmission validateSwagRequest samb request s
    = (Returned resp, s')
    /\ In (status_of resp) [200; 400; 500]
    /\ (forall data error,
           json request = Some data ->
           validateSwagRequest data = Some error ->
           resp = answer (JsonError error None) 400)
    /\ (status_of resp = 200 ->
        exists data,
          json request = Some data /\ validateSwagRequest data = None
          /\ count_requests (submission_email request) (swag_requests s)
             < MAX_REQUESTS_PER_EMAIL
          /\ resp = request_submitted
          /\ s' = mkSite (world s)
                    (swag_requests s
                     ++ [new_request t data (next_request_id s)])
                    (next_request_id s))
    /\ (status_of resp = 400 -> s' = s)
    /\ (status_of resp = 500 ->
        resp = submission_failed
        /\ world s' = log_line "Error submitting swag request:" (world s)
        /\ (swag_requests s' = swag_requests s
            \/ exists data,
                json request = Some data
                /\ requests_ok samb InsertAnalytics = false
                /\ swag_requests s'
                   = (swag_requests s
                      ++ [new_request t data (next_request_id s)])%list)).
Proof.
  intros t. subst t. rewrite handleSwagRequestSubmission_eq.
  unfold submission_email. cbv zeta.
  destruct (json request) as [data|].
  2:{ eexists. eexists. split; [reflexivity|]. cbn [status_of answer status
                                                     jsonResponse].
      split; [cbn; tauto|]. split; [discriminate|].
      split; [discriminate|]. split; [discriminate|].
      intros _. split; [reflexivity|]. split; [reflexivity|]. now left. }
  destruct (validateSwagRequest data) as [error|] eqn:V.
  { eexists. eexists. split; [reflexivity|]. cbn [status_of answer status
                                                    jsonResponse].
    split; [cbn; tauto|]. split; [intros d e' [= <-]; congruence|].
    split; [discriminate|]. split; [reflexivity|]. discriminate. }
  assert (NV : forall d e', Some data = Some d ->
                            validateSwagRequest d = Some e' -> False).
  { intros d e' [= <-] E. congruence. }
  assert (Failed : forall s1,
             world s1 = world s ->
             swag_requests s1 = swag_requests s
             \/ (exists d, Some data = Some d
                           /\ requests_ok samb InsertAnalytics = false
                           /\ swag_requests s1
                              = (swag_requests s
                                 ++ [new_request (clock (ambient samb)) d
                                       (next_request_id s)])%list) ->
             exists resp s',
               (Returned submission_failed,
                Site_log "Error submitting swag request:" s1)
               = (Returned resp, s')
               /\ In (status_of resp) [200; 400; 500]
               /\ (forall d e', Some data = Some d ->
                                validateSwagRequest d = Some e' ->
                                resp = answer (JsonError e' None) 400)
               /\ (status_of resp = 200 ->
                   exists d, Some data = Some d
                             /\ validateSwagRequest d = None
                             /\ count_requests
                                  match SwagRequestInput_email data with
                                  | Some x => toLowerCase (trim x)
                                  | None => ""
                                  end (swag_requests s)
                                < MAX_REQUESTS_PER_EMAIL
                             /\ resp = request_submitted
                             /\ s' = mkSite (world s)
                                       (swag_requests s
                                        ++ [new_request (clock (ambient samb))
                                              d (next_request_id s)])
                                       (next_request_id s))
               /\ (status_of resp = 400 -> s' = s)
               /\ (status_of resp = 500 ->
                   resp = submission_failed
                   /\ world s'
                      = log_line "Error submitting swag request:" (world s)
                   /\ (swag_requests s' = swag_requests s
                       \/ exists d,
                           Some data = Some d
                           /\ requests_ok samb InsertAnalytics = false
                           /\ swag_requests s'
                              = (swag_requests s
                                 ++ [new_request (clock (ambient samb)) d
                                       (next_request_id s)])%list))).
  { intros s1 W R. eexists. eexists. split; [reflexivity|].
    cbn [status_of submission_failed answer status jsonResponse].
    split; [cbn; tauto|].
    split; [intros d e' D E; destruct (NV d e' D E)|].
    split; [discriminate|]. split; [discriminate|].
    intros _. split; [reflexivity|].
    split; [cbn [Site_log world]; now rewrite W|]. exact R. }
  destruct (SwagRequestInput_email data) as [e0|] eqn:Ee;
    [|apply Failed; [reflexivity | now left]].
  destruct (requests_ok samb CountRequests); cbn [negb];
    [|apply Failed; [reflexivity | now left]].
  destruct (MAX_REQUESTS_PER_EMAIL <=? _) eqn:L.
  { eexists. eexists. split; [reflexivity|].
    cbn [status_of answer status jsonResponse].
    split; [cbn; tauto|].
    split; [intros d e' D E; destruct (NV d e' D E)|].
    split; [discriminate|]. split; [reflexivity|]. discriminate. }
  apply Z.leb_gt in L.
  destruct (SwagRequestInput_name data) as [name|] eqn:En;
    [|apply Failed; [reflexivity | now left]].
  destruct (SwagRequestInput_phone data) as [phone|] eqn:Ep;
    [|apply Failed; [reflexivity | now left]].
  destruct (SwagRequestInput_address data) as [address|] eqn:Ea;
    [|apply Failed; [reflexivity | now left]].
  destruct (requests_ok samb InsertRequest); cbn [negb];
    [|apply Failed; [reflexivity | now left]].
  assert (Row : snd (insert_request (clock (ambient samb)) (trim name)
                       (toLowerCase (trim e0)) (trim phone) (trim address)
                       (promo_code_or_null (SwagRequestInput_promo_code data))
                       s)
                = mkSite (world s)
                    (swag_requests s
                     ++ [new_request (clock (ambient samb)) data
                           (next_request_id s)])
                    (next_request_id s)).
  { unfold insert_request, new_request. cbn [snd].
    now rewrite En, Ee, Ep, Ea. }
  rewrite Row.
  destruct (negb (next_request_id s =? 0)
            && negb (requests_ok samb InsertAnalytics))%bool eqn:An.
  - apply Failed; [reflexivity|]. right. exists data.
    apply andb_prop in An. destruct An as [_ An].
    apply negb_true_iff in An. now repeat split.
  - eexists. eexists. split; [reflexivity|].
    cbn [status_of answer status jsonResponse].
    split; [cbn; tauto|].
    split; [intros d e' D E; destruct (NV d e' D E)|].
    split; [|split; discriminate].
    intros _. exists data. repeat split; assumption.
Qed.

End SubmissionAnswers.

Lemma handleSwagRequestSubmission_answers_witness :
  handleSwagRequestSubmission validateSwagRequest_example
    (site_ambient_at (noon + minutes 2)) submit_request admin_site
  = (Returned request_submitted, submitted_site)
  /\ swag_requests submitted_site = [example_row].
Proof.
  destruct (handleSwagRequestSubmission_answers validateSwagRequest_example
              (site_ambient_at (noon + minutes 2)) submit_request admin_site)
    as (resp & s' & E & _ & _ & H & _).
  assert (R : resp = request_submitted).
  { vm_compute in E. injection E as <- _. reflexivity. }
  subst resp. destruct (H eq_refl) as (data & D & _ & _ & _ & S).
  injection D as <-. split.
  - rewrite E, S. reflexivity.
  - reflexivity.
Defined.

(* ================================================================== *)
(** * Further properties: what every history keeps *)
(* ================================================================== *)

Lemma next_request_id_gt s r :
  In r (swag_requests s) -> SwagRequest_id r < next_request_id s.
Proof.
  unfold next_request_id. generalize (swag_requests_sequence s) as q.
  induction (swag_requests s) as [|x rows IH]; intros q Hr; [destruct Hr|].
  cbn [map fold_right]. destruct Hr as [->|Hr]; [lia|].
  specialize (IH q Hr). lia.
Qed.

Lemma count_requests_app e rows r :
  count_requests e (rows ++ [r])
  = count_requests e rows
    + (if String.eqb (SwagRequest_email r) e then 1 else 0).
Proof.
  unfold count_requests. rewrite filter_app, List.length_app. cbn [filter].
  destruct (String.eqb (SwagRequest_email r) e); cbn [List.length]; lia.
Qed.

Lemma count_requests_filter e p rows :
  count_requests e (filter p rows) <= count_requests e rows.
Proof.
  unfold count_requests. induction rows as [|r rows IH]; [reflexivity|].
  cbn [filter]. destruct (p r); cbn [filter];
    destruct (String.eqb (SwagRequest_email r) e); cbn [List.length]; lia.
Qed.

Lemma count_requests_approve e requestId rows :
  count_requests e
    (map (fun r => if SwagRequest_id r =? requestId
                   then with_status approved r else r) rows)
  = count_requests e rows.
Proof.
  unfold count_requests. induction rows as [|r rows IH]; [reflexivity|].
  cbn [map filter].
  assert (E : SwagRequest_email
                (if SwagRequest_id r =? requestId
                 then with_status approved r else r)
              = SwagRequest_email r)
    by (destruct (SwagRequest_id r =? requestId); reflexivity).
  rewrite E. destruct (String.eqb (SwagRequest_email r) e);
    cbn [List.length]; lia.
Qed.

(** A DELETE keeps the ids of [swag_requests] distinct. *)
Lemma request_ids_after_delete (p : SwagRequest -> bool) rows :
  NoDup (map SwagRequest_id rows) ->
  NoDup (map SwagRequest_id (filter p rows)).
Proof.
  induction rows as [|r rows IH]; cbn [map filter]; [constructor|].
  intros H. apply NoDup_cons_iff in H. destruct H as [Hr Hrows].
  destruct (p r); [|now apply IH].
  cbn [map]. apply NoDup_cons_iff. split; [|now apply IH].
  intros Hin. apply Hr. apply in_map_iff in Hin.
  destruct Hin as (x & Ex & Hx). apply filter_In in Hx.
  apply in_map_iff. exists x. tauto.
Qed.

Lemma requests_step_ok valid t rows rows' :
  requests_step valid t rows rows' ->
  requests_ok_table rows -> requests_ok_table rows'.
Proof.
  intros Hstep (Hc & Hn & Hw).
  destruct Hstep as [|data rowid _ Hlt Hid|requestId|p].
  - now repeat split.
  - split; [|split].
    + intros e. rewrite count_requests_app.
      destruct (String.eqb_spec
                  (SwagRequest_email
                     (new_request t data rowid)) e) as [<-|_].
      * lia.
      * specialize (Hc e). lia.
    + rewrite map_app. cbn [map].
      apply NoDup_app; [exact Hn | constructor; [intros []|constructor]|].
      intros x Hx [<-|[]]. apply in_map_iff in Hx.
      destruct Hx as (r & E & Hr). specialize (Hid r Hr).
      cbn [new_request SwagRequest_id] in E. lia.
    + apply Forall_app. split; [exact Hw|]. constructor; [|constructor].
      split; [discriminate|]. exists t. now split.
  - split; [|split].
    + intros e. rewrite count_requests_approve. apply Hc.
    + rewrite map_map.
      replace (map _ rows) with (map SwagRequest_id rows); [exact Hn|].
      apply map_ext. intros r.
      destruct (SwagRequest_id r =? requestId); reflexivity.
    + rewrite Forall_forall in *. intros x Hx. apply in_map_iff in Hx.
      destruct Hx as (r & <- & Hr). specialize (Hw r Hr).
      destruct (SwagRequest_id r =? requestId); [|exact Hw].
      destruct Hw as [_ Hw]. split; [discriminate | exact Hw].
  - split; [|split].
    + intros e. pose proof (count_requests_filter e p rows).
      specialize (Hc e). lia.
    + now apply request_ids_after_delete.
    + rewrite Forall_forall in *. intros x Hx. apply filter_In in Hx.
      now apply Hw.
Qed.

Section SiteHistories.

Variable isEmail : string -> bool.
Variable validateSwagRequest : SwagRequestInput -> option string.

Lemma Site_serve_requests_step samb c s :
  requests_step (fun data => validateSwagRequest data = None)
    (clock (ambient samb)) (swag_requests s)
    (swag_requests (Site_serve isEmail validateSwagRequest samb c s)).
Proof.
  destruct c as [request|request|request requestId|request requestId
                 |request|c]; cbn [Site_serve].
  - rewrite handleSwagRequestSubmission_eq. cbv zeta.
    destruct (json request) as [data|] eqn:J; [|constructor].
    destruct (validateSwagRequest data) eqn:V; [constructor|].
    destruct (SwagRequestInput_email data) as [e0|] eqn:Ee; [|constructor].
    destruct (negb (requests_ok samb CountRequests)); [constructor|].
    destruct (MAX_REQUESTS_PER_EMAIL <=? _) eqn:L; [constructor|].
    apply Z.leb_gt in L.
    destruct (SwagRequestInput_name data) as [name|] eqn:En; [|constructor].
    destruct (SwagRequestInput_phone data) as [phone|] eqn:Ep; [|constructor].
    destruct (SwagRequestInput_address data) as [address|] eqn:Ea;
      [|constructor].
    destruct (negb (requests_ok samb InsertRequest)); [constructor|].
    assert (S1 : swag_requests
                   (snd (insert_request (clock (ambient samb)) (trim name)
                           (submission_email request) (trim phone)
                           (trim address)
                           (promo_code_or_null
                              (SwagRequestInput_promo_code data)) s))
                 = (swag_requests s
                    ++ [new_request (clock (ambient samb)) data
                          (next_request_id s)])%list).
    { unfold insert_request, new_request, submission_email.
      cbn [snd swag_requests]. now rewrite J, En, Ee, Ep, Ea. }
    assert (Step : requests_step (fun data => validateSwagRequest data = None)
                     (clock (ambient samb)) (swag_requests s)
                     (swag_requests s
                      ++ [new_request (clock (ambient samb)) data
                            (next_request_id s)])).
    { constructor.
      - exact V.
      - unfold submission_email in L. rewrite J, Ee in L.
        cbn [new_request SwagRequest_email]. now rewrite Ee.
      - intros r. apply next_request_id_gt. }
    destruct (_ && _)%bool; cbn [snd Site_log swag_requests]; now rewrite S1.
  - rewrite handleGetRequests_eq.
    destruct (session_check _ _ _) as [[|]|e]; try constructor.
    destruct (requests_ok samb SelectRequests); constructor.
  - rewrite handleApproveRequest_eq.
    destruct (session_check _ _ _) as [[|]|e]; try constructor. cbv zeta.
    destruct (negb (requests_ok samb SelectRequest)); [constructor|].
    destruct (find _ _); [|constructor].
    destruct (negb (requests_ok samb UpdateStatus)); [constructor|].
    destruct (resend (ambient samb)); apply requests_approve.
  - rewrite handleDeleteRequest_eq.
    destruct (session_check _ _ _) as [[|]|e]; try constructor.
    destruct (requests_ok samb DeleteRequest); [|constructor].
    destruct (existsb _ _); [|constructor]. apply requests_delete.
  - rewrite handleExportCSV_eq.
    destruct (session_check _ _ _) as [[|]|e]; try constructor.
    destruct (requests_ok samb SelectApproved); constructor.
  - destruct c; try constructor.
    rewrite Site_cleanupExpiredData_eq. cbv zeta.
    destruct (negb (d1_ok (ambient samb) DeleteExpiredRequests));
      [constructor|].
    destruct (negb (d1_ok (ambient samb) DeleteExpiredSessions));
      apply requests_delete.
Qed.

Lemma Site_run_rows (R : SwagRequest -> Prop) history s :
  (forall st r, R r -> R (with_status st r)) ->
  (forall t data rowid,
      validateSwagRequest data = None -> R (new_request t data rowid)) ->
  Forall R (swag_requests s) ->
  Forall R (swag_requests (Site_run isEmail validateSwagRequest history s)).
Proof.
  intros Hst Hnew. revert s.
  induction history as [|[samb c] history IH]; intros s Hs; [exact Hs|].
  cbn [Site_run]. apply IH.
  destruct (Site_serve_requests_step samb c s)
    as [|data rowid V _ _|requestId|p].
  - exact Hs.
  - apply Forall_app. split; [exact Hs|]. constructor; [|constructor].
    now apply Hnew.
  - rewrite Forall_forall in *. intros x Hx. apply in_map_iff in Hx.
    destruct Hx as (r & <- & Hr).
    destruct (SwagRequest_id r =? requestId); auto.
  - rewrite Forall_forall in *. intros x Hx. apply filter_In in Hx.
    now apply Hs.
Qed.

Lemma Site_run_ok history s :
  requests_ok_table (swag_requests s) ->
  requests_ok_table
    (swag_requests (Site_run isEmail validateSwagRequest history s)).
Proof.
  revert s. induction history as [|[samb c] history IH]; intros s Hs;
    [exact Hs|].
  cbn [Site_run]. apply IH.
  exact (requests_step_ok _ _ _ _ (Site_serve_requests_step samb c s) Hs).
Qed.

(** X16.  Whatever the history of operations on the site, served one
    after another from the empty site: no address has more than ten
    requests in the table, no two requests share an id, no request has
    the status [rejected], and every request expires 30 days after its
    creation.  When an address has its ten, a further valid submission
    for it is answered 400 and stores nothing. *)
Theorem at_most_ten_requests_per_address history :
  let rows :=
    swag_requests (Site_run isEmail validateSwagRequest history empty_site) in
  (forall e, count_requests e rows <= 10)
  /\ NoDup (map SwagRequest_id rows)
  /\ (forall r, In r rows ->
                SwagRequest_status r <> rejected
                /\ exists t,
                    SwagRequest_created_at r = sqlite_datetime t
                    /\ SwagRequest_expires_at r
                       = sqlite_datetime (t + 30 * MS_PER_DAY))
  /\ (forall samb request data e0,
         json request = Some data -> validateSwagRequest data = None ->
         SwagRequestInput_email data = Some e0 ->
         requests_ok samb CountRequests = true ->
         count_requests (toLowerCase (trim e0)) rows = 10 ->
         handleSwagRequestSubmission validateSwagRequest samb request
           (Site_run isEmail validateSwagRequest history empty_site)
         = (Returned limit_reached,
            Site_run isEmail validateSwagRequest history empty_site)).
Proof.
  intros rows.
  destruct (Site_run_ok history empty_site) as (Hc & Hn & Hw).
  - split; [|split]; [intros e; cbn; unfold MAX_REQUESTS_PER_EMAIL; lia
                     | constructor | constructor].
  - split; [exact Hc|]. split; [exact Hn|]. split.
    + intros r Hr. rewrite Forall_forall in Hw. exact (Hw r Hr).
    + intros samb request data e0 J V E C T.
      rewrite handleSwagRequestSubmission_eq. cbv zeta.
      unfold submission_email. rewrite J, V, E, C. cbn [negb].
      fold rows. rewrite T. reflexivity.
Qed.

End SiteHistories.

Lemma at_most_ten_requests_per_address_witness :
  handleSwagRequestSubmission validateSwagRequest_example
    (site_ambient_at (noon + minutes 10)) submit_request
    (Site_run isEmail_example validateSwagRequest_example ten_submissions
       empty_site)
  = (Returned limit_reached,
     Site_run isEmail_example validateSwagRequest_example ten_submissions
       empty_site).
Proof.
  destruct (at_most_ten_requests_per_address isEmail_example
              validateSwagRequest_example ten_submissions)
    as (_ & _ & _ & H).
  apply (H (site_ambient_at (noon + minutes 10)) submit_request example_input
           "Ada@Example.com"); reflexivity.
Defined.

(* ================================================================== *)
(** * Further properties: the clean-up of the requests *)
(* ================================================================== *)

(** The DELETE of the clean-up compares the SQLite text of the expiry
    with the JavaScript text of the clock: the date decides. *)
Lemma expired_request_by_day now x r :
  four_digit_year now -> four_digit_year x ->
  SwagRequest_expires_at r = sqlite_datetime x ->
  expired_request (toISOString now) r = (x / MS_PER_DAY <=? now / MS_PER_DAY).
Proof.
  intros Hn Hx E. unfold expired_request, text_lt, String.ltb. rewrite E.
  rewrite (sqlite_datetime_vs_toISOString x now Hx Hn).
  destruct (Z.compare_spec (x / MS_PER_DAY) (now / MS_PER_DAY)) as [C|C|C];
    cbn [then_cmp]; symmetry.
  - apply Z.leb_le. lia.
  - apply Z.leb_le. lia.
  - apply Z.leb_gt. lia.
Qed.

Lemma World_eta w : mkWorld (DB w) (console w) = w.
Proof. now destruct w. Qed.

(** X17.  On the whole site [cleanupExpiredData] does to the admin
    subsystem what it does there alone, and to [swag_requests] only
    this: it removes rows, and keeps a request exactly while the UTC day
    of the clock is before the UTC day of its expiry.  A request is thus
    removed from the first clean-up on the day it expires, while
    [handleGetRequests] lists it until the second of its expiry.  When
    the DELETE on [swag_requests] fails, nothing is changed. *)
Theorem Site_cleanupExpiredData_by_day amb s :
  let s' := snd (Site_cleanupExpiredData amb s) in
  fst (Site_cleanupExpiredData amb s) = fst (cleanupExpiredData amb (world s))
  /\ world s' = snd (cleanupExpiredData amb (world s))
  /\ (d1_ok amb DeleteExpiredRequests = false -> s' = s)
  /\ (d1_ok amb DeleteExpiredRequests = true ->
      swag_requests s'
      = filter (fun r => negb (expired_request (toISOString (clock amb)) r))
          (swag_requests s)
      /\ forall r x,
          In r (swag_requests s) ->
          SwagRequest_expires_at r = sqlite_datetime x ->
          four_digit_year x -> four_digit_year (clock amb) ->
          (In r (swag_requests s')
           <-> clock amb / MS_PER_DAY < x / MS_PER_DAY)
          /\ (unexpired (sqlite_datetime (clock amb)) r = true
              <-> clock amb / 1000 < x / 1000)).
Proof.
  intros s'. subst s'. rewrite Site_cleanupExpiredData_eq.
  unfold cleanupExpiredData, bind, d1_run. cbv zeta.
  destruct (d1_ok amb DeleteExpiredRequests); cbn [negb].
  2:{ split; [reflexivity|]. split; [reflexivity|].
      split; [reflexivity | discriminate]. }
  destruct (d1_ok amb DeleteExpiredSessions); cbn [negb fst snd world DB
                                                     console swag_requests].
  - split; [reflexivity|]. split; [reflexivity|]. split; [discriminate|].
    intros _. split; [reflexivity|]. intros r x Hr E Hx Hn.
    rewrite filter_In, negb_true_iff,
      (expired_request_by_day _ _ r Hn Hx E), Z.leb_gt,
      (unexpired_by_second _ _ r Hn Hx E), Z.ltb_lt. tauto.
  - split; [reflexivity|]. split; [now rewrite World_eta|].
    split; [discriminate|].
    intros _. split; [reflexivity|]. intros r x Hr E Hx Hn.
    rewrite filter_In, negb_true_iff,
      (expired_request_by_day _ _ r Hn Hx E), Z.leb_gt,
      (unexpired_by_second _ _ r Hn Hx E), Z.ltb_lt. tauto.
Qed.

Lemma Site_cleanupExpiredData_by_day_witness :
  ~ In example_row
      (swag_requests
         (snd (Site_cleanupExpiredData (ambient_at expiry_midnight 0)
                 submitted_site)))
  /\ unexpired (sqlite_datetime expiry_midnight) example_row = true.
Proof.
  pose proof (Site_cleanupExpiredData_by_day (ambient_at expiry_midnight 0)
                submitted_site) as T.
  cbv zeta in T. destruct T as (_ & _ & _ & H).
  destruct (H eq_refl) as [_ K].
  destruct (K example_row (noon + minutes 2 + REQUEST_LIFETIME_MS))
    as [K1 K2].
  - left. reflexivity.
  - reflexivity.
  - unfold four_digit_year, noon, minutes, REQUEST_LIFETIME_MS, MS_PER_DAY.
    lia.
  - unfold four_digit_year, expiry_midnight, noon, MS_PER_DAY; cbn; lia.
  - split.
    + intros Hin. pose proof (proj1 K1 Hin) as L. vm_compute in L.
      discriminate.
    + apply (proj2 K2). vm_compute. reflexivity.
Defined.

(* ================================================================== *)
(** * Further properties: the two halves of the site *)
(* ================================================================== *)

Section TwoHalves.

Variable isEmail : string -> bool.
Variable validateSwagRequest : SwagRequestInput -> option string.

(** What an operation of the admin subsystem makes of the table depends
    on the table only, not on the log. *)
Lemma serve_DB amb c w1 w2 :
  DB w1 = DB w2 -> DB (serve isEmail amb c w1) = DB (serve isEmail amb c w2).
Proof.
  intros E. destruct c as [request|request|request|request|];
    cbn [serve].
  - rewrite !handleSendOTP_eq, E. cbv zeta.
    destruct (json request); [|exact E].
    destruct (_ || _)%bool; [exact E|].
    destruct (negb (endsWith _ _)); [exact E|].
    destruct (negb (d1_ok amb CountOtpRequests)); [exact E|].
    destruct (negb (_ <? _)); [exact E|].
    destruct (negb (d1_ok amb InsertOtp)); [exact E|]. reflexivity.
  - rewrite !handleVerifyOTP_eq, E. cbv zeta.
    destruct (json request); [|exact E].
    destruct (_ || _)%bool; [exact E|].
    destruct (negb (validateOTP _)); [exact E|].
    destruct (negb (d1_ok amb CountFailedAttempts)); [exact E|].
    destruct (negb (_ <? _)); [exact E|].
    destruct (negb (d1_ok amb SelectOtp)); [exact E|].
    destruct (select_otp _ _ _ _); [|exact E].
    destruct (negb (d1_ok amb UpdateSession)); [exact E|].
    destruct (negb (d1_ok amb DeleteUnused)); reflexivity.
  - now rewrite !handleCheckAuth_world.
  - rewrite !handleLogout_eq.
    destruct (getSessionToken request) as [token|]; [|exact E].
    destruct (js_not token); [exact E|].
    destruct (d1_ok amb DeleteSession); [|exact E].
    cbn [snd DB]. now rewrite E.
  - rewrite !cleanupExpiredData_DB, E. reflexivity.
Qed.

Lemma run_DB history w1 w2 :
  DB w1 = DB w2 -> DB (run isEmail history w1) = DB (run isEmail history w2).
Proof.
  revert w1 w2. induction history as [|[amb c] history IH]; intros w1 w2 E;
    [exact E|].
  cbn [run]. apply IH. now apply serve_DB.
Qed.

Lemma Site_serve_request_handler samb c s :
  (forall a, c <> AdminCall a) ->
  DB (world (Site_serve isEmail validateSwagRequest samb c s)) = DB (world s).
Proof.
  intros N.
  destruct c as [request|request|request requestId|request requestId
                 |request|a]; cbn [Site_serve]; [| | | | |now destruct (N a)].
  - rewrite handleSwagRequestSubmission_eq. cbv zeta.
    destruct (json request) as [data|]; [|reflexivity].
    destruct (validateSwagRequest data); [reflexivity|].
    destruct (SwagRequestInput_email data); [|reflexivity].
    destruct (negb (requests_ok samb CountRequests)); [reflexivity|].
    destruct (MAX_REQUESTS_PER_EMAIL <=? _); [reflexivity|].
    destruct (SwagRequestInput_name data); [|reflexivity].
    destruct (SwagRequestInput_phone data); [|reflexivity].
    destruct (SwagRequestInput_address data); [|reflexivity].
    destruct (negb (requests_ok samb InsertRequest)); [reflexivity|].
    destruct (_ && _)%bool; reflexivity.
  - rewrite handleGetRequests_eq.
    destruct (session_check _ _ _) as [[|]|e]; try reflexivity.
    destruct (requests_ok samb SelectRequests); reflexivity.
  - rewrite handleApproveRequest_eq.
    destruct (session_check _ _ _) as [[|]|e]; try reflexivity. cbv zeta.
    destruct (negb (requests_ok samb SelectRequest)); [reflexivity|].
    destruct (find _ _); [|reflexivity].
    destruct (negb (requests_ok samb UpdateStatus)); [reflexivity|].
    destruct (resend (ambient samb)); reflexivity.
  - rewrite handleDeleteRequest_eq.
    destruct (session_check _ _ _) as [[|]|e]; try reflexivity.
    destruct (requests_ok samb DeleteRequest); [|reflexivity].
    destruct (existsb _ _); reflexivity.
  - rewrite handleExportCSV_eq.
    destruct (session_check _ _ _) as [[|]|e]; try reflexivity.
    destruct (requests_ok samb SelectApproved); reflexivity.
Qed.

Lemma Site_serve_admin samb a s :
  world (Site_serve isEmail validateSwagRequest samb (AdminCall a) s)
  = serve isEmail (ambient samb) a (world s).
Proof.
  destruct a; try reflexivity. cbn [Site_serve serve].
  rewrite Site_cleanupExpiredData_eq.
  unfold cleanupExpiredData, bind, d1_run. cbv zeta.
  destruct (d1_ok (ambient samb) DeleteExpiredRequests); [|reflexivity].
  destruct (d1_ok (ambient samb) DeleteExpiredSessions); cbn;
    [reflexivity | now rewrite World_eta].
Qed.

(** X18.  The two halves of the site keep to themselves.  No request
    handler changes [admin_sessions], whatever it answers; no operation
    of the admin subsystem other than the clean-up changes
    [swag_requests]; and after any history on the site, [admin_sessions]
    is what the admin operations of the history, run alone in their
    order, make of it. *)
Theorem admin_sessions_evolve_alone history s :
  DB (world (Site_run isEmail validateSwagRequest history s))
  = DB (run isEmail (admin_calls history) (world s))
  /\ (forall samb c,
         (forall a, c <> AdminCall a) ->
         DB (world (Site_serve isEmail validateSwagRequest samb c s))
         = DB (world s))
  /\ (forall samb a,
         a <> CleanupExpired ->
         swag_requests
           (Site_serve isEmail validateSwagRequest samb (AdminCall a) s)
         = swag_requests s
         /\ swag_requests_sequence
              (Site_serve isEmail validateSwagRequest samb (AdminCall a) s)
            = swag_requests_sequence s).
Proof.
  split; [|split].
  - revert s. induction history as [|[samb c] history IH]; intros s;
      [reflexivity|].
    cbn [Site_run]. rewrite IH.
    destruct c as [request|request|request requestId|request requestId
                   |request|a];
      cbn [admin_calls run];
      try (apply run_DB, Site_serve_request_handler; intros a; discriminate).
    now rewrite Site_serve_admin.
  - intros samb c. apply Site_serve_request_handler.
  - intros samb a N. destruct a; try (now split).
Qed.

End TwoHalves.

Lemma admin_sessions_evolve_alone_witness :
  DB (world submitted_site) = DB logged_in_world.
Proof.
  destruct (admin_sessions_evolve_alone isEmail_example
              validateSwagRequest_example [] admin_site) as (_ & H & _).
  apply (H (site_ambient_at (noon + minutes 2)) (SubmitRequest submit_request)).
  intros a. discriminate.
Defined.

(* ================================================================== *)
(** * Further properties: from the submission to the deletion *)
(* ================================================================== *)

Section RequestLifeCycle.

Variable validateSwagRequest : SwagRequestInput -> option string.

(** What a 200 of [handleSwagRequestSubmission] says about the site. *)
Lemma handleSwagRequestSubmission_stored samb request s resp s1 :
  handleSwagRequestSubmission validateSwagRequest samb request s
  = (Returned resp, s1) ->
  status_of resp = 200 ->
  exists data,
    json request = Some data
    /\ s1 = mkSite (world s)
              (swag_requests s
               ++ [new_request (clock (ambient samb)) data
                     (next_request_id s)])
              (next_request_id s).
Proof.
  rewrite handleSwagRequestSubmission_eq. unfold submission_email. cbv zeta.
  destruct (json request) as [data|]; [|intros [= <- <-]; discriminate].
  destruct (validateSwagRequest data);
    [intros [= <- <-]; discriminate|].
  destruct (SwagRequestInput_email data) as [e0|] eqn:Ee;
    [|intros [= <- <-]; discriminate].
  destruct (negb (requests_ok samb CountRequests));
    [intros [= <- <-]; discriminate|].
  destruct (MAX_REQUESTS_PER_EMAIL <=? _);
    [intros [= <- <-]; discriminate|].
  destruct (SwagRequestInput_name data) as [name|] eqn:En;
    [|intros [= <- <-]; discriminate].
  destruct (SwagRequestInput_phone data) as [phone|] eqn:Ep;
    [|intros [= <- <-]; discriminate].
  destruct (SwagRequestInput_address data) as [address|] eqn:Ea;
    [|intros [= <- <-]; discriminate].
  destruct (negb (requests_ok samb InsertRequest));
    [intros [= <- <-]; discriminate|].
  destruct (_ && _)%bool; [intros [= <- <-]; discriminate|].
  intros [= <- <-] _. exists data. split; [reflexivity|].
  unfold insert_request, new_request. cbn [snd].
  now rewrite En, Ee, Ep, Ea.
Qed.

Lemma new_request_expires t data rowid :
  SwagRequest_expires_at (new_request t data rowid)
  = sqlite_datetime (t + REQUEST_LIFETIME_MS).
Proof. reflexivity. Qed.

Lemma with_status_expires st r x :
  SwagRequest_expires_at r = x -> SwagRequest_expires_at (with_status st r) = x.
Proof. intros E. exact E. Qed.

Lemma approve_other_rows requestId rows :
  (forall r, In r rows -> SwagRequest_id r < requestId) ->
  map (fun r => if SwagRequest_id r =? requestId
                then with_status approved r else r) rows = rows.
Proof.
  intros H. induction rows as [|r rows IH]; [reflexivity|]. cbn [map].
  destruct (Z.eqb_spec (SwagRequest_id r) requestId) as [E|E].
  - specialize (H r (or_introl eq_refl)). lia.
  - rewrite IH; [reflexivity|]. intros x Hx. apply H. now right.
Qed.

Lemma delete_other_rows requestId rows :
  (forall r, In r rows -> SwagRequest_id r < requestId) ->
  filter (fun r => negb (SwagRequest_id r =? requestId)) rows = rows.
Proof.
  intros H. induction rows as [|r rows IH]; [reflexivity|]. cbn [filter].
  destruct (Z.eqb_spec (SwagRequest_id r) requestId) as [E|E].
  - specialize (H r (or_introl eq_refl)). lia.
  - cbn [negb]. rewrite IH; [reflexivity|]. intros x Hx. apply H. now right.
Qed.

(** X19.  The whole life of a request.  When
    [handleSwagRequestSubmission] answered 200 at clock reading [t], a
    logged-in administrator whose statements complete, at clock readings
    less than 30 days (in whole seconds) past [t], finds the new request
    in the list of [handleGetRequests]; [handleApproveRequest] with its
    id answers 200, and the request, now approved, is in the file of
    [handleExportCSV]; [handleDeleteRequest] with its id answers 200,
    and the table is again what it was before the submission. *)
Theorem request_life_cycle samb1 submit s s1 admin samb2 samb3 samb4 samb5 :
  handleSwagRequestSubmission validateSwagRequest samb1 submit s
  = (Returned request_submitted, s1) ->
  four_digit_year (clock (ambient samb1) + REQUEST_LIFETIME_MS) ->
  (forall samb,
      In samb [samb2; samb3; samb4; samb5] ->
      handleCheckAuth (ambient samb) admin (world s)
      = (Returned authenticated, world s)
      /\ (forall st, requests_ok samb st = true)
      /\ four_digit_year (clock (ambient samb))
      /\ clock (ambient samb) / 1000
         < clock (ambient samb1) / 1000 + 30 * 86400) ->
  exists data requests exported Content_Disposition s2 s3,
    let row :=
      new_request (clock (ambient samb1)) data (next_request_id s) in
    json submit = Some data
    /\ handleGetRequests samb2 admin s1
       = (Returned (RequestsAnswer requests), s1)
    /\ In row requests
    /\ handleApproveRequest samb3 admin (next_request_id s) s1
       = (Returned (answer (JsonSuccess (Some "Request approved")) 200), s2)
    /\ handleExportCSV samb4 admin s2
       = (Returned (CsvAnswer (csv_of exported) Content_Disposition), s2)
    /\ In (with_status approved row) exported
    /\ handleDeleteRequest samb5 admin (next_request_id s) s2
       = (Returned (answer (JsonSuccess (Some "Request deleted")) 200), s3)
    /\ swag_requests s3 = swag_requests s.
Proof.
  intros Hsub Hx Hadmin.
  destruct (handleSwagRequestSubmission_stored samb1 submit s _ s1 Hsub
              eq_refl) as (data & J & ->).
  set (t := clock (ambient samb1)) in *.
  set (rid := next_request_id s) in *.
  set (row := new_request t data rid).
  set (site1 := mkSite (world s) (swag_requests s ++ [row]) rid).
  assert (Hlt : forall r, In r (swag_requests s) -> SwagRequest_id r < rid).
  { intros r. apply next_request_id_gt. }
  assert (Live : forall samb r,
             four_digit_year (clock (ambient samb)) ->
             clock (ambient samb) / 1000 < t / 1000 + 30 * 86400 ->
             SwagRequest_expires_at r
             = sqlite_datetime (t + REQUEST_LIFETIME_MS) ->
             unexpired (sqlite_datetime (clock (ambient samb))) r = true).
  { intros samb r Hn Hl E.
    rewrite (unexpired_by_second _ (t + REQUEST_LIFETIME_MS) r Hn Hx E).
    apply Z.ltb_lt. unfold REQUEST_LIFETIME_MS, MS_PER_DAY.
    replace (t + 30 * 86400000) with (t + 30 * 86400 * 1000) by lia.
    rewrite Z.div_add by lia. lia. }
  assert (Check : forall samb s',
             In samb [samb2; samb3; samb4; samb5] ->
             DB (world s') = DB (world s) ->
             session_check (ambient samb) admin s' = Returned true).
  { intros samb s' Hin E. destruct (Hadmin samb Hin) as (A & _).
    rewrite (session_check_DB _ _ s' s E).
    now apply logged_in_session_check. }
  destruct (Hadmin samb2 ltac:(cbn; tauto)) as (_ & Ok2 & Y2 & L2).
  destruct (Hadmin samb3 ltac:(cbn; tauto)) as (_ & Ok3 & _ & _).
  destruct (Hadmin samb4 ltac:(cbn; tauto)) as (_ & Ok4 & Y4 & L4).
  destruct (Hadmin samb5 ltac:(cbn; tauto)) as (_ & Ok5 & _ & _).
  set (rows2 := (swag_requests s ++ [with_status approved row])%list).
  assert (Approved :
            map (fun r => if SwagRequest_id r =? rid
                          then with_status approved r else r)
              (swag_requests s ++ [row]) = rows2).
  { rewrite map_app, (approve_other_rows rid _ Hlt). cbn [map].
    cbn [row new_request SwagRequest_id]. now rewrite Z.eqb_refl. }
  set (site2 := match resend (ambient samb3) with
                | FetchRejected =>
                    Site_log "Failed to send email:"
                      (snd (update_status approved rid site1))
                | _ => snd (update_status approved rid site1)
                end).
  assert (W2 : DB (world site2) = DB (world s))
    by (unfold site2; destruct (resend (ambient samb3)); reflexivity).
  assert (R2 : swag_requests site2 = rows2).
  { rewrite <- Approved.
    unfold site2; destruct (resend (ambient samb3)); reflexivity. }
  assert (Present : existsb (fun r => SwagRequest_id r =? rid)
                      (swag_requests site2) = true).
  { rewrite R2. apply existsb_exists. exists (with_status approved row).
    split; [apply in_or_app; right; now left|].
    cbn [row new_request with_status SwagRequest_id]. apply Z.eqb_refl. }
  exists data,
    (order_by_created_at_desc
       (filter (unexpired (sqlite_datetime (clock (ambient samb2))))
          (swag_requests site1))),
    (order_by_created_at_desc
       (filter (approved_unexpired (sqlite_datetime (clock (ambient samb4))))
          (swag_requests site2))),
    ("attachment; filename="
     ++ in_quotes ("approved-requests-"
                   ++ before_T (toISOString (clock (ambient samb4)))
                   ++ ".csv")),
    site2,
    (mkSite (world site2)
       (filter (fun r => negb (SwagRequest_id r =? rid))
          (swag_requests site2))
       (swag_requests_sequence site2)).
  cbv zeta.
  split; [exact J|]. split.
  { rewrite handleGetRequests_eq,
      (Check samb2 site1 ltac:(cbn; tauto) eq_refl), Ok2. reflexivity. }
  split.
  { apply (Permutation_in _ (Permutation_sym
                               (order_by_created_at_desc_perm _))).
    apply filter_In. split.
    - cbn [site1 swag_requests]. apply in_or_app. right. now left.
    - apply (Live samb2 row Y2 L2). apply new_request_expires. }
  split.
  { rewrite handleApproveRequest_eq,
      (Check samb3 site1 ltac:(cbn; tauto) eq_refl), !Ok3. cbv zeta.
    cbn [negb].
    destruct (find _ (swag_requests site1)) as [r|] eqn:F.
    - reflexivity.
    - exfalso.
      assert (Hin : In row (swag_requests site1)).
      { cbn [site1 swag_requests]. apply in_or_app. right. now left. }
      pose proof (find_none _ _ F row Hin) as N. cbv beta in N.
      cbn [row new_request SwagRequest_id] in N.
      rewrite Z.eqb_refl in N. discriminate. }
  split.
  { rewrite handleExportCSV_eq,
      (Check samb4 site2 ltac:(cbn; tauto) W2), Ok4. reflexivity. }
  split.
  { apply (Permutation_in _ (Permutation_sym
                               (order_by_created_at_desc_perm _))).
    apply filter_In. split.
    - rewrite R2. apply in_or_app. right. now left.
    - unfold approved_unexpired. cbn [is_approved with_status
                                        SwagRequest_status andb].
      apply (Live samb4 _ Y4 L4). apply with_status_expires, new_request_expires. }
  split.
  { rewrite handleDeleteRequest_eq,
      (Check samb5 site2 ltac:(cbn; tauto) W2), Ok5, Present. reflexivity. }
  cbn [swag_requests]. rewrite R2. unfold rows2.
  rewrite filter_app, (delete_other_rows rid _ Hlt). cbn [filter].
  cbn [row new_request with_status SwagRequest_id].
  rewrite Z.eqb_refl. cbn [negb]. apply app_nil_r.
Qed.

End RequestLifeCycle.

Lemma request_life_cycle_witness :
  exists s2 s3,
    handleApproveRequest (site_ambient_at (noon + minutes 4)) admin_request 1
      submitted_site
    = (Returned (answer (JsonSuccess (Some "Request approved")) 200), s2)
    /\ handleDeleteRequest (site_ambient_at (noon + minutes 6)) admin_request 1
         s2
       = (Returned (answer (JsonSuccess (Some "Request deleted")) 200), s3)
    /\ swag_requests s3 = [].
Proof.
  destruct (request_life_cycle validateSwagRequest_example
              (site_ambient_at (noon + minutes 2)) submit_request admin_site
              submitted_site admin_request
              (site_ambient_at (noon + minutes 3))
              (site_ambient_at (noon + minutes 4))
              (site_ambient_at (noon + minutes 5))
              (site_ambient_at (noon + minutes 6)))
    as (data & requests & exported & cd & s2 & s3 & _ & _ & _ & A & _ & _
        & D & R).
  - reflexivity.
  - unfold four_digit_year, noon, minutes, REQUEST_LIFETIME_MS, MS_PER_DAY.
    cbn. lia.
  - intros samb [<-|[<-|[<-|[<-|[]]]]];
      (split; [reflexivity|]); (split; [intros st; reflexivity|]);
      (split; [unfold four_digit_year, noon, minutes; cbn; lia|]);
      vm_compute; reflexivity.
  - exists s2, s3. split; [exact A|]. split; [exact D | exact R].
Defined.

(* ================================================================== *)
(** * Further properties: what the validation lets through *)
(* ================================================================== *)

Lemma all_chars_remove_chars (q d : ascii -> bool) (s : string) :
  all_chars q (remove_chars d s) = true ->
  all_chars (fun c => (q c || d c)%bool) s = true.
Proof.
  induction s as [|c s IH]; cbn [remove_chars all_chars]; [reflexivity|].
  destruct (d c) eqn:D.
  - intros H. now rewrite orb_true_r, IH.
  - cbn [all_chars]. intros H. apply andb_prop in H. destruct H as [H1 H2].
    now rewrite H1, IH.
Qed.

Lemma isEmpty_false_length s : isEmpty s = false -> (1 <= String.length s)%nat.
Proof. destruct s; [discriminate | cbn; lia]. Qed.

Lemma present_Some field raw :
  present field = Some raw -> field = Some raw /\ raw <> "".
Proof.
  unfold present, js_not. destruct field as [s|]; [|discriminate].
  destruct (String.eqb_spec s ""); [discriminate|]. intros [= <-]. now split.
Qed.

Section ValidationProperties.

Variable isEmail : string -> bool.
Variable isEmail_default : string -> bool.
Variable isMobilePhone : string -> bool.

Lemma validate_name_None field :
  validate_name field = None ->
  exists raw,
    field = Some raw
    /\ (2 <= String.length (trim raw) <= 100)%nat
    /\ all_chars is_name_char (trim raw) = true.
Proof.
  unfold validate_name. destruct (present field) as [raw|] eqn:P;
    [|discriminate].
  apply present_Some in P. destruct P as [-> _]. cbv zeta.
  destruct (isEmpty (trim raw)); [discriminate|].
  destruct (isLength_min _ _) eqn:L1; [|discriminate].
  destruct (isLength_max _ _) eqn:L2; [|discriminate].
  destruct (matches_plus _ _) eqn:M; [|discriminate]. intros _.
  exists raw. split; [reflexivity|].
  apply Nat.leb_le in L1, L2. apply andb_prop in M.
  unfold MIN_NAME_LENGTH, MAX_NAME_LENGTH in *. tauto.
Qed.

Lemma validate_email_None field :
  validate_email isEmail_default field = None ->
  exists raw,
    field = Some raw
    /\ (1 <= String.length (toLowerCase (trim raw)) <= 254)%nat
    /\ isEmail_default (toLowerCase (trim raw)) = true.
Proof.
  unfold validate_email. destruct (present field) as [raw|] eqn:P;
    [|discriminate].
  apply present_Some in P. destruct P as [-> _]. cbv zeta.
  destruct (isEmpty _) eqn:E; [discriminate|].
  destruct (isLength_max _ _) eqn:L2; [|discriminate].
  destruct (isEmail_default _) eqn:M; [|discriminate]. intros _.
  exists raw. split; [reflexivity|].
  apply Nat.leb_le in L2. apply isEmpty_false_length in E.
  unfold MAX_EMAIL_LENGTH in *. tauto.
Qed.

Lemma validate_phone_None field :
  validate_phone isMobilePhone field = None ->
  exists raw,
    field = Some raw
    /\ (1 <= String.length (trim raw) <= 30)%nat
    /\ validatePhone isMobilePhone (trim raw) = true.
Proof.
  unfold validate_phone. destruct (present field) as [raw|] eqn:P;
    [|discriminate].
  apply present_Some in P. destruct P as [-> _]. cbv zeta.
  destruct (isEmpty _) eqn:E; [discriminate|].
  destruct (isLength_max _ _) eqn:L2; [|discriminate].
  destruct (validatePhone _ _) eqn:M; [|discriminate]. intros _.
  exists raw. split; [reflexivity|].
  apply Nat.leb_le in L2. apply isEmpty_false_length in E.
  unfold MAX_PHONE_LENGTH in *. tauto.
Qed.

Lemma validate_address_None field :
  validate_address field = None ->
  exists raw,
    field = Some raw
    /\ (10 <= String.length (trim raw) <= 500)%nat.
Proof.
  unfold validate_address. destruct (present field) as [raw|] eqn:P;
    [|discriminate].
  apply present_Some in P. destruct P as [-> _]. cbv zeta.
  destruct (isEmpty _); [discriminate|].
  destruct (isLength_min _ _) eqn:L1; [|discriminate].
  destruct (isLength_max _ _) eqn:L2; [|discriminate]. intros _.
  exists raw. split; [reflexivity|].
  apply Nat.leb_le in L1, L2.
  unfold MIN_ADDRESS_LENGTH, MAX_ADDRESS_LENGTH in *. tauto.
Qed.

Lemma validate_promo_code_None field :
  validate_promo_code field = None ->
  match promo_code_or_null field with
  | None => True
  | Some code =>
      (1 <= String.length code <= 50)%nat
      /\ all_chars (fun c => (is_alphanumeric_char c
                              || is_hyphen_or_underscore c)%bool) code
         = true
  end.
Proof.
  unfold validate_promo_code, promo_code_or_null, present, isEmpty, js_not.
  destruct field as [s|]; [|trivial].
  destruct (String.eqb_spec s "") as [->|Ns]; [cbn; trivial|]. cbv zeta.
  destruct (String.eqb_spec (trim s) "") as [E|E]; [trivial|].
  destruct (isLength_max _ _) eqn:L2; [|discriminate].
  destruct (isAlphanumeric _) eqn:M; [|discriminate]. intros _.
  apply Nat.leb_le in L2. unfold MAX_PROMO_CODE_LENGTH in L2.
  split.
  - split; [|exact L2]. destruct (trim s); [contradiction | cbn; lia].
  - unfold isAlphanumeric, matches_plus in M. apply andb_prop in M.
    now apply all_chars_remove_chars.
Qed.

Lemma validateSwagRequest_None data :
  validateSwagRequest isEmail_default isMobilePhone data = None ->
  (exists name e phone address,
      SwagRequestInput_name data = Some name
      /\ SwagRequestInput_email data = Some e
      /\ SwagRequestInput_phone data = Some phone
      /\ SwagRequestInput_address data = Some address)
  /\ forall t rowid,
      validated_request isEmail_default isMobilePhone
        (new_request t data rowid).
Proof.
  unfold validateSwagRequest.
  destruct (validate_name _) eqn:Vn; [discriminate|].
  destruct (validate_email _ _) eqn:Ve; [discriminate|].
  destruct (validate_phone _ _) eqn:Vp; [discriminate|].
  destruct (validate_address _) eqn:Va; [discriminate|].
  intros Vc.
  apply validate_name_None in Vn. destruct Vn as (name & En & Ln & Cn).
  apply validate_email_None in Ve. destruct Ve as (e & Ee & Le & Ce).
  apply validate_phone_None in Vp. destruct Vp as (phone & Ep & Lp & Cp).
  apply validate_address_None in Va. destruct Va as (address & Ea & La).
  apply validate_promo_code_None in Vc.
  split; [exists name, e, phone, address; tauto|].
  intros t rowid. unfold validated_request, new_request.
  cbn [SwagRequest_name SwagRequest_email SwagRequest_phone
       SwagRequest_address SwagRequest_promo_code].
  rewrite En, Ee, Ep, Ea. cbn [or_empty]. tauto.
Qed.

(** X20.  With [validateSwagRequest] as the repository has it, whatever
    is stored has passed the validation in the form in which it is
    stored: in every site the handlers have built, every request has a
    name of 2 to 100 characters from the name pattern, an address of at
    most 254 characters that [validator.isEmail] accepts, a phone number
    of at most 30 characters that [validatePhone] accepts, a shipping
    address of 10 to 500 characters, and no promo code or one of at most
    50 letters, digits, hyphens and underscores.  A body that passes the
    validation is answered 200, or 400 when the address has its ten
    requests, whenever the statements complete: it never runs into a
    missing field. *)
Theorem stored_requests_are_validated history :
  let validate := validateSwagRequest isEmail_default isMobilePhone in
  let s := Site_run isEmail validate history empty_site in
  Forall (validated_request isEmail_default isMobilePhone) (swag_requests s)
  /\ forall samb request data,
      json request = Some data -> validate data = None ->
      (forall st, requests_ok samb st = true) ->
      (MAX_REQUESTS_PER_EMAIL
       <= count_requests (submission_email request) (swag_requests s)
       /\ handleSwagRequestSubmission validate samb request s
          = (Returned limit_reached, s))
      \/ (count_requests (submission_email request) (swag_requests s)
          < MAX_REQUESTS_PER_EMAIL
          /\ handleSwagRequestSubmission validate samb request s
             = (Returned request_submitted,
                mkSite (world s)
                  (swag_requests s
                   ++ [new_request (clock (ambient samb)) data
                         (next_request_id s)])
                  (next_request_id s))).
Proof.
  intros validate s. split.
  - apply Site_run_rows.
    + intros st r H. exact H.
    + intros t data rowid V. now apply validateSwagRequest_None.
    + constructor.
  - intros samb request data J V Ok.
    destruct (validateSwagRequest_None data V)
      as [(name & e & phone & address & En & Ee & Ep & Ea) _].
    rewrite handleSwagRequestSubmission_eq. cbv zeta. fold validate.
    rewrite J, V, Ee, En, Ep, Ea, !Ok. cbn [negb andb].
    rewrite andb_false_r.
    destruct (Z.leb_spec MAX_REQUESTS_PER_EMAIL
                (count_requests (submission_email request)
                   (swag_requests s))) as [L|L].
    + left. split; [exact L | reflexivity].
    + right. split; [exact L|]. do 2 f_equal.
      unfold insert_request, new_request, submission_email. cbn [snd].
      now rewrite J, En, Ee, Ep, Ea.
Qed.

End ValidationProperties.

Lemma stored_requests_are_validated_witness :
  exists s1,
    handleSwagRequestSubmission
      (validateSwagRequest isEmail_default_example isMobilePhone_example)
      (site_ambient_at (noon + minutes 2)) submit_request empty_site
    = (Returned request_submitted, s1)
    /\ swag_requests s1 = [example_row].
Proof.
  destruct (stored_requests_are_validated isEmail_example
              isEmail_default_example isMobilePhone_example [])
    as [_ H].
  destruct (H (site_ambient_at (noon + minutes 2)) submit_request
              example_input eq_refl eq_refl (fun _ => eq_refl))
    as [[L _]|[_ E]].
  - vm_compute in L. now destruct L.
  - eexists. split; [exact E | reflexivity].
Defined.

(* ================================================================== *)
(** * Further properties: what a logout leaves alone *)
(* ================================================================== *)

(** X21.  [handleLogout] ends the presented session and nothing else:
    whether its DELETE completes or fails, every other session token is
    valid afterwards exactly when it was valid before, and a
    verification finds the same row as before; a request without the
    session cookie is answered 200 with the world as it was, whether or
    not statements would complete. *)
Theorem handleLogout_ends_one_session amb request w :
  let w1 := snd (handleLogout amb request w) in
  (forall amb' token',
      getSessionToken request <> Some token' ->
      validateAdminSession amb' (Some token') w1
      = (fst (validateAdminSession amb' (Some token') w), w1))
  /\ (forall e code now,
         select_otp e code now (DB w1) = select_otp e code now (DB w))
  /\ (getSessionToken request = None ->
      handleLogout amb request w = (Returned (logged_out request), w)).
Proof.
  intros w1. subst w1. rewrite handleLogout_eq.
  destruct (getSessionToken request) as [token|] eqn:T.
  2:{ split; [|split; [reflexivity | reflexivity]].
      intros amb' token' _. cbn [snd]. rewrite validateAdminSession_eq.
      destruct (js_not token'); [reflexivity|].
      destruct (d1_ok amb' SelectSession); reflexivity. }
  rewrite (getSessionToken_nonempty request token T).
  split; [|split; [|discriminate]].
  - intros amb' token' N. rewrite !validateAdminSession_eq.
    destruct (js_not token'); [destruct (d1_ok amb DeleteSession);
                               reflexivity|].
    destruct (d1_ok amb DeleteSession); cbn [snd fst DB];
      destruct (d1_ok amb' SelectSession); try reflexivity.
    cbn [fst delete_where admin_sessions]. do 2 f_equal.
    apply existsb_filter. intros r _ M.
    unfold session_matches, sql_eq in *.
    destruct (session_token r) as [t|]; [|discriminate].
    apply andb_prop in M. destruct M as [M _]. apply String.eqb_eq in M.
    subst t. apply negb_true_iff. apply String.eqb_neq. congruence.
  - intros e code now. destruct (d1_ok amb DeleteSession); [|reflexivity].
    cbn [snd DB]. unfold select_otp. cbn [delete_where admin_sessions].
    f_equal. apply filter_filter_impl. intros r _ M.
    apply otp_matches_spec in M. destruct M as (_ & _ & _ & M).
    now rewrite M.
Qed.

Lemma handleLogout_ends_one_session_witness :
  validateAdminSession (ambient_at (noon + minutes 3) 0) (Some zero_token)
    (snd (handleLogout (ambient_at (noon + minutes 2) 0)
            (cookie_request "admin_session=ffff") logged_in_world))
  = (Returned true,
     snd (handleLogout (ambient_at (noon + minutes 2) 0)
            (cookie_request "admin_session=ffff") logged_in_world)).
Proof.
  destruct (handleLogout_ends_one_session (ambient_at (noon + minutes 2) 0)
              (cookie_request "admin_session=ffff") logged_in_world)
    as [H _].
  rewrite (H (ambient_at (noon + minutes 3) 0) zero_token); [reflexivity|].
  vm_compute. discriminate.
Defined.

(* ================================================================== *)
(** * Examples: the validation and the export at work *)
(* ================================================================== *)

Example validateSwagRequest_accepts :
  validateSwagRequest isEmail_default_example isMobilePhone_example
    example_input = None.
Proof. reflexivity. Qed.

Example validateSwagRequest_first_failure :
  validateSwagRequest isEmail_default_example isMobilePhone_example
    (mkSwagRequestInput (Some " A ") None (Some "12345") (Some "short") None)
  = Some "Name must be at least 2 characters"
  /\ validateSwagRequest isEmail_default_example isMobilePhone_example
       (mkSwagRequestInput (Some "Ada Lovelace") (Some "Ada@Example.com")
          (Some "12345") (Some "short") None)
     = Some "Please provide a valid phone number"
  /\ validateSwagRequest isEmail_default_example isMobilePhone_example
       (mkSwagRequestInput (Some "Ada Lovelace") (Some "Ada@Example.com")
          (Some "(555) 123-4567") (Some "12 Analytical Street")
          (Some "---"))
     = Some "Promo code can only contain letters, numbers, hyphens and underscores".
Proof. repeat split. Qed.

Example csv_of_example :
  csv_of [with_status approved example_row]
  = "Name,Email,Phone,Address,Created At"
    ++ String line_feed
         (String.concat ","
            (map in_quotes
               ["Ada Lovelace"; "ada@example.com"; "+15551234567";
                "12 Analytical Street, London"; "2024-01-01 12:02:00"])).
Proof. reflexivity. Qed.

Example double_the_quotes_example :
  double_the_quotes (String "a" (String double_quote (String "b" "")))
  = String "a" (String double_quote (String double_quote (String "b" ""))).
Proof. reflexivity. Qed.
